(** * Local filesystem secrets backend

    A shallow embedding of [airflow/secrets/local_filesystem.py]: the three
    format parsers (dotenv, JSON, YAML), the dispatcher [_parse_secret_file],
    the connection builder [_create_connection], the two resolvers
    [load_variables] and [load_connections_dict], and the
    [LocalFilesystemBackend] facade, with the properties its specification
    states about them.

    Conventions of the embedding:
    - a Python [str] is a [string]; a character is its code point below 256;
    - a Python [dict] keeps insertion order and is an association list whose
      keys are pairwise different; a Python [set] of [str] is a [gset string]
      (its iteration order is not specified, and neither is the order here);
    - the maps that the parsers, the dispatcher and the resolvers return have
      [str] keys, as the source annotates them ([dict[str, Any]]); the values
      under the keys are any decoded value, a dict with other keys included;
    - the builder writes into the dict it is given; a dict that a document
      holds at several places carries a name, and the loop of the connection
      resolver threads what has been written into the named dicts;
    - a function that raises returns [inl e]; exceptions of Python and of the
      libraries are kept by their class; file access goes through a small
      monad that threads the trace of filesystem calls;
    - [log.debug] calls are left out. *)

From Stdlib Require Import String Ascii List ZArith Lia Bool DecimalString.
From Stdlib Require Import Sorted.
From stdpp Require Import base strings gmap.
Import ListNotations.
Local Open Scope string_scope.
Local Open Scope Z_scope.
Set Warnings "-register-all".
Set Default Proof Using "Type".

(** ** Tactics for the closed examples *)

(** Both sides evaluate to the same value. *)
Ltac by_computation := vm_compute; reflexivity.

(** A decidable proposition that evaluates to true. *)
Ltac decide_by_computation :=
  apply (bool_decide_unpack _); vm_compute; exact I.

(** The characters of a literal hold no equal sign. *)
Ltac no_equal_sign_by_cases :=
  let H := fresh "H" in
  simpl; intros H;
  repeat (destruct H as [H|H]; [discriminate H|]); exact H.

(** ** Strings *)

(** The double quote character, as a one-character string. *)
Definition dquote : string := String (ascii_of_nat 34) EmptyString.

Definition is_empty (s : string) : bool :=
  match s with EmptyString => true | String _ _ => false end.

(** Line boundaries of [str.splitlines], among the code points below 256:
    LF, VT, FF, CR, FS, GS, RS and NEL. *)
Definition is_linebreak (c : ascii) : bool :=
  let n := nat_of_ascii c in
  (Nat.eqb n 10 || Nat.eqb n 11 || Nat.eqb n 12 || Nat.eqb n 13 ||
   Nat.eqb n 28 || Nat.eqb n 29 || Nat.eqb n 30 || Nat.eqb n 133)%bool.

Definition CR : ascii := ascii_of_nat 13.
Definition LF : ascii := ascii_of_nat 10.

(** [content.splitlines()]: CR LF counts as one boundary, and a boundary at
    the very end opens no further line. *)
Fixpoint splitlines (s : string) : list string :=
  match s with
  | EmptyString => []
  | String c rest =>
      if is_linebreak c then
        match rest with
        | String c' rest' =>
            if (Ascii.eqb c CR && Ascii.eqb c' LF)%bool
            then EmptyString :: splitlines rest'
            else EmptyString :: splitlines rest
        | EmptyString => EmptyString :: splitlines rest
        end
      else
        match splitlines rest with
        | [] => [String c EmptyString]
        | l :: ls => String c l :: ls
        end
  end.

(** [line.partition(sep)] for a one-character separator: the text before the
    first [sep], the separator, the text after it; when there is no [sep],
    the whole line and two empty strings. *)
Fixpoint partition (sep : ascii) (s : string) : string * string * string :=
  match s with
  | EmptyString => (EmptyString, EmptyString, EmptyString)
  | String c rest =>
      if Ascii.eqb c sep then (EmptyString, String sep EmptyString, rest)
      else let '(k, sp, v) := partition sep rest in (String c k, sp, v)
  end.

(** [s.split(sep, maxsplit)] on a list of characters, one-character [sep]. *)
Fixpoint split_chars (sep : ascii) (maxsplit : nat) (s : list ascii)
  : list (list ascii) :=
  match s with
  | [] => [[]]
  | c :: rest =>
      match maxsplit with
      | O => [s]
      | S m =>
          if Ascii.eqb c sep then [] :: split_chars sep m rest
          else match split_chars sep maxsplit rest with
               | [] => [[c]]
               | p :: ps => (c :: p) :: ps
               end
      end
  end.

(** [s.rsplit(sep, maxsplit)]: the same, counted from the right. *)
Definition rsplit (sep : ascii) (maxsplit : nat) (s : string) : list string :=
  rev (map (fun p => string_of_list_ascii (rev p))
           (split_chars sep maxsplit (rev (list_ascii_of_string s)))).

(** [l[-1]] of a list of strings that is never empty here. *)
Definition last_item (l : list string) : string := List.last l EmptyString.

(** [c.lower()] below code point 256: the ASCII capitals (65 to 90) and the
    Latin-1 capitals (192 to 222, the multiplication sign 215 apart) move up
    by 32, every other character stays as it is. *)
Definition lower_char (c : ascii) : ascii :=
  let n := nat_of_ascii c in
  if ((Nat.leb 65 n && Nat.leb n 90)
      || (Nat.leb 192 n && Nat.leb n 222 && negb (Nat.eqb n 215)))%bool
  then ascii_of_nat (n + 32) else c.

Fixpoint lower (s : string) : string :=
  match s with
  | EmptyString => EmptyString
  | String c rest => String (lower_char c) (lower rest)
  end.

(** ** Python values *)

(** What the JSON and YAML decoders return: [None], [bool], [int], [float]
    (its IEEE 754 binary64 bits), [str], [list] and [dict].
    - [VDict] is a dict all keys of which are [str], held at one place of the
      document.
    - [VShared] is such a dict that the document refers to from several
      places (a YAML anchor and its aliases): one object, which [id] names;
      every reference carries the entries as they were decoded, and what the
      program writes into the object is threaded by the loop that hands it
      out (see [current]).
    - [VMapping] is a dict with a key that is not a [str]: YAML takes any
      scalar as a key. The program never writes into one.
    - [VOther] is an object of another type (a YAML date, timestamp, binary
      or set), kept by the name of its type.
    A document that refers to a mapping from inside that same mapping is not
    represented. *)
Inductive value : Type :=
| VNone
| VBool (b : bool)
| VInt (n : Z)
| VFloat (bits : Z)
| VStr (s : string)
| VList (items : list value)
| VDict (items : list (string * value))
| VShared (id : nat) (items : list (string * value))
| VMapping (items : list (value * value))
| VOther (type_name : string).

Inductive pytype : Type :=
| TNoneType | TBool | TInt | TFloat | TStr | TList | TDict
| TOther (name : string).

(** [type(value)] *)
Definition type_of (v : value) : pytype :=
  match v with
  | VNone => TNoneType
  | VBool _ => TBool
  | VInt _ => TInt
  | VFloat _ => TFloat
  | VStr _ => TStr
  | VList _ => TList
  | VDict _ | VShared _ _ | VMapping _ => TDict
  | VOther name => TOther name
  end.

(** ** Dictionaries *)

Section Dict.
Context {V : Type}.

(** [d.get(k)] *)
Fixpoint dict_get (k : string) (d : list (string * V)) : option V :=
  match d with
  | [] => None
  | (k', v) :: d' => if String.eqb k' k then Some v else dict_get k d'
  end.

(** [k in d] *)
Definition dict_in (k : string) (d : list (string * V)) : bool :=
  match dict_get k d with Some _ => true | None => false end.

(** [d[k] = v]: an existing key keeps its place, a new one goes last. *)
Fixpoint dict_set (k : string) (v : V) (d : list (string * V))
  : list (string * V) :=
  match d with
  | [] => [(k, v)]
  | (k', v') :: d' =>
      if String.eqb k' k then (k', v) :: d'
      else (k', v') :: dict_set k v d'
  end.

(** [del d[k]] for a key that is present. *)
Fixpoint dict_del (k : string) (d : list (string * V)) : list (string * V) :=
  match d with
  | [] => []
  | (k', v') :: d' =>
      if String.eqb k' k then dict_del k d' else (k', v') :: dict_del k d'
  end.

(** [d.keys()], in insertion order. *)
Definition dict_keys (d : list (string * V)) : list string := map fst d.
End Dict.

(** ** Objects held at several places *)

(** The entries of a dict all keys of which are [str], if the entries given
    with any keys are such. *)
Fixpoint str_keyed (items : list (value * value))
  : option (list (string * value)) :=
  match items with
  | [] => Some []
  | (VStr k, v) :: rest =>
      match str_keyed rest with
      | Some fields => Some ((k, v) :: fields)
      | None => None
      end
  | _ :: _ => None
  end.

(** What was written into objects: the name of each and the entries it was
    left with, the oldest first. *)
Definition writes : Type := list (nat * list (string * value)).

(** The value once the object [id] holds the entries [new]: every reference
    to the object, at any depth, shows them. *)
Fixpoint subst (id : nat) (new : list (string * value)) (v : value) : value :=
  match v with
  | VList items => VList (map (subst id new) items)
  | VDict items => VDict (map (fun '(k, x) => (k, subst id new x)) items)
  | VShared n items =>
      if Nat.eqb n id then VShared n new
      else VShared n (map (fun '(k, x) => (k, subst id new x)) items)
  | VMapping items =>
      VMapping (map (fun '(k, x) => (k, subst id new x)) items)
  | _ => v
  end.

(** The value as the program finds it after the writes [written]. *)
Definition current (written : writes) (v : value) : value :=
  fold_left (fun v w => subst (fst w) (snd w) v) written v.

(** No part of the value is an object held at several places. *)
Fixpoint unshared (v : value) : bool :=
  match v with
  | VList items => forallb unshared items
  | VDict items => forallb (fun entry => unshared (snd entry)) items
  | VShared _ _ => false
  | VMapping items => forallb (fun entry => unshared (snd entry)) items
  | _ => true
  end.

(** ** Errors *)

(** [FileSyntaxError(line_no, message)] *)
Record FileSyntaxError : Type := mkFileSyntaxError {
  line_no : Z;
  message : string
}.

(** The pieces of an f-string: literal text and the objects formatted into
    it. How [format] renders a list, a set or a type is Python's business;
    the message is kept as the pieces it is built from. *)
Inductive fpart : Type :=
| Lit (s : string)
| FStr (s : string)
| FValue (v : value)
| FType (t : pytype)
| FStrList (l : list string)
| FStrSet (s : gset string)
| FJoinSet (sep : string) (s : gset string).

(** The exceptions of the program, and those of Python and of the libraries
    that pass through it, the latter by their class: [OSError] is what [open]
    raises for a directory, with the path; [TypeError], [ValueError],
    [RecursionError] and [UnicodeDecodeError] are Python's, [ReaderError] is
    [yaml.reader.ReaderError], and [OtherError] is any further class, by its
    name.

    [Unrepresented] is no exception of Python. The maps of this development
    have [str] keys, as the source annotates them ([dict[str, Any]]), and are
    held at one place. Where a parser returns a decoded top-level mapping that
    is not such a map (a key that is not a [str], as YAML allows), the code
    goes on with it and the development stops, with this. *)
Inductive exn : Type :=
| AirflowException (msg : list fpart)
| AirflowFileParseException
    (msg : list fpart) (file_path : string) (parse_errors : list FileSyntaxError)
| ConnectionNotUnique (msg : list fpart)
| OSError (file_path : string)
| IndexError
| KeyError (key : string)
| TypeError
| ValueError
| RecursionError
| UnicodeDecodeError
| ReaderError
| OtherError (class_name : string)
| Unrepresented.

(** ** Filesystem access *)

(** What stands at a path: a file that reads as [content], a directory, or
    a file that [open] or [read] refuses with [error] (no permission:
    [OtherError "PermissionError"]; bytes that are no text:
    [UnicodeDecodeError]). *)
Inductive fs_entry : Type :=
| RegularFile (content : string)
| Directory
| Unreadable (error : exn).

Inductive fs_event : Type :=
| EvExists (path : string)
| EvOpen (path : string).

(** A computation that may raise and that appends to the trace of
    filesystem calls made so far. *)
Definition IO (A : Type) : Type := list fs_event -> (exn + A) * list fs_event.

Definition ret {A} (a : A) : IO A := fun tr => (inr a, tr).
Definition raise {A} (e : exn) : IO A := fun tr => (inl e, tr).
Definition bind {A B} (m : IO A) (k : A -> IO B) : IO B :=
  fun tr =>
    match m tr with
    | (inl e, tr') => (inl e, tr')
    | (inr a, tr') => k a tr'
    end.
Definition lift {A} (r : exn + A) : IO A := fun tr => (r, tr).

Notation "'let*' x ':=' m 'in' k" := (bind m (fun x => k))
  (at level 10, x name, m at level 200, k at level 200, only parsing).

(** Running a computation from the empty trace. *)
Definition run {A} (m : IO A) : (exn + A) * list fs_event := m [].
Definition result {A} (m : IO A) : exn + A := fst (run m).

(** ** Outcomes of the library decoders *)

(** [json.loads(content)]: the decoded value, or [JSONDecodeError], or any
    other exception ([RecursionError] on deep nesting, [ValueError] on a
    number with too many digits). *)
Inductive json_outcome : Type :=
| JsonValue (v : value)
| JSONDecodeError (lineno : Z) (msg : string)
| JsonRaises (error : exn).

(** The position a YAML error carries. *)
Record Mark : Type := mkMark { mark_line : Z; mark_column : Z }.

(** [yaml.safe_load(content)]: the decoded value, or [MarkedYAMLError]
    with its optional [problem_mark] and its [str()], or any other exception
    ([ReaderError] on a character that YAML does not allow, which is a
    [YAMLError] but no [MarkedYAMLError]). *)
Inductive yaml_outcome : Type :=
| YamlValue (v : value)
| MarkedYAMLError (problem_mark : option Mark) (str : string)
| YamlRaises (error : exn).

(** ** Contents of the specification's examples *)

(** The dotenv content [A=1], line feed, [A=2]. *)
Definition dotenv_A1_A2 : string := "A=1" ++ String LF "A=2".

(** The JSON content [{"A":"1"}]. *)
Definition json_A1 : string :=
  "{" ++ dquote ++ "A" ++ dquote ++ ":" ++ dquote ++ "1" ++ dquote ++ "}".

(** The JSON content [{"a": []}]. *)
Definition json_a_empty : string :=
  "{" ++ dquote ++ "a" ++ dquote ++ ": []}".

(** ** A sample installation

    A comment pattern, a handful of files, the outcomes of the decoders on
    their contents, a serializer and a connection class: the closed examples
    below run the program on them. *)

Module Sample.

(** White space below code point 256 that is no line boundary: TAB, US,
    SPACE and NBSP, and the boundaries themselves. *)
Definition is_space (c : ascii) : bool :=
  let n := nat_of_ascii c in
  (is_linebreak c || Nat.eqb n 9 || Nat.eqb n 31 || Nat.eqb n 32
   || Nat.eqb n 160)%bool.

(** Modelled from the spec: the constant [COMMENT_PATTERN] of
    [airflow.utils.file], which is not among the sources. The specification
    has comment lines "#-prefixed" and matched by a shared comment pattern:
    a line matches when the first character after its leading white space
    is the hash sign. *)
Fixpoint COMMENT_PATTERN (line : string) : bool :=
  match line with
  | EmptyString => false
  | String c rest =>
      if Ascii.eqb c "#" then true
      else if is_space c then COMMENT_PATTERN rest
      else false
  end.

Definition lines_of (lines : list string) : string :=
  String.concat (String LF EmptyString) lines.

(** A dotenv file with a comment, an empty line, a line without equal sign,
    an empty value, an empty key and two values for one key. *)
Definition dotenv_broken : string :=
  lines_of ["# comment"; EmptyString; "NOEQUAL"; "KEY="; "=x"; "A=1"; "A=2"].

(** The JSON content [{"a": [], "b": 5}]. *)
Definition json_a_empty_b_5 : string :=
  "{" ++ dquote ++ "a" ++ dquote ++ ": [], " ++ dquote ++ "b" ++ dquote
  ++ ": 5}".

(** The JSON content [{"n": 5, "dup": ["a", "b"]}]. *)
Definition json_n_5_dup : string :=
  "{" ++ dquote ++ "n" ++ dquote ++ ": 5, " ++ dquote ++ "dup" ++ dquote
  ++ ": [" ++ dquote ++ "a" ++ dquote ++ ", " ++ dquote ++ "b" ++ dquote
  ++ "]}".

(** A YAML document with one mapping under two keys: an anchor and its
    alias. *)
Definition yaml_anchor_alias : string :=
  lines_of ["a: &x {conn_type: sqlite}"; "b: *x"].

(** A YAML document with the control character U+0001, which YAML does not
    allow. *)
Definition yaml_control_character : string :=
  "a: " ++ String (ascii_of_nat 1) EmptyString.

(** The files of the installation; [backup.json] is a directory,
    [locked.json] may not be read and [binary.env] holds bytes that are no
    text. *)
Definition fs (path : string) : option fs_entry :=
  if String.eqb path "variables.env" then Some (RegularFile dotenv_A1_A2)
  else if String.eqb path "variables.json" then Some (RegularFile json_A1)
  else if String.eqb path "connections.json" then Some (RegularFile json_a_empty)
  else if String.eqb path "mixed.json" then Some (RegularFile json_a_empty_b_5)
  else if String.eqb path "dup.json" then Some (RegularFile json_n_5_dup)
  else if String.eqb path "broken.env" then Some (RegularFile dotenv_broken)
  else if String.eqb path "spaces.env" then Some (RegularFile "   ")
  else if String.eqb path "list.json" then Some (RegularFile "[1]")
  else if String.eqb path "bad.json" then Some (RegularFile "{")
  else if String.eqb path "empty.yaml" then Some (RegularFile EmptyString)
  else if String.eqb path "shared.yaml" then Some (RegularFile yaml_anchor_alias)
  else if String.eqb path "control.yaml"
  then Some (RegularFile yaml_control_character)
  else if String.eqb path "dated.yml"
  then Some (RegularFile "c: {extra_dejson: 2001-12-14}")
  else if String.eqb path "numbers.yml" then Some (RegularFile "c: {1: x}")
  else if String.eqb path "notes.txt" then Some (RegularFile "remember")
  else if String.eqb path "backup.json" then Some Directory
  else if String.eqb path "locked.json"
  then Some (Unreadable (OtherError "PermissionError"))
  else if String.eqb path "binary.env" then Some (Unreadable UnicodeDecodeError)
  else None.

(** The outcomes of [json.loads] on the contents above. The last line is
    its outcome on a content that starts with no JSON value, such as
    [remember]; it stands for the contents that are not listed, which no
    example reads as JSON. *)
Definition json_loads (content : string) : json_outcome :=
  if String.eqb content json_A1 then JsonValue (VDict [("A", VStr "1")])
  else if String.eqb content json_a_empty
  then JsonValue (VDict [("a", VList [])])
  else if String.eqb content json_a_empty_b_5
  then JsonValue (VDict [("a", VList []); ("b", VInt 5)])
  else if String.eqb content json_n_5_dup
  then JsonValue (VDict [("n", VInt 5); ("dup", VList [VStr "a"; VStr "b"])])
  else if String.eqb content "[1]" then JsonValue (VList [VInt 1])
  else if String.eqb content "{"
  then JSONDecodeError 1 "Expecting property name enclosed in double quotes"
  else JSONDecodeError 1 "Expecting value".

(** The outcomes of [yaml.safe_load] on the contents above: mappings, a
    sequence, the mapping held under two keys, a date, a key that is a
    number, and the character that the reader refuses. The last line is its
    outcome on a content that is one plain word, the word itself; it stands
    for the contents that are not listed, which no example reads as YAML. *)
Definition yaml_safe_load (content : string) : yaml_outcome :=
  if String.eqb content "a: b" then YamlValue (VDict [("a", VStr "b")])
  else if String.eqb content "- 1" then YamlValue (VList [VInt 1])
  else if String.eqb content yaml_anchor_alias
  then YamlValue (VDict [("a", VShared 0 [("conn_type", VStr "sqlite")]);
                         ("b", VShared 0 [("conn_type", VStr "sqlite")])])
  else if String.eqb content "c: {extra_dejson: 2001-12-14}"
  then YamlValue (VDict [("c", VDict [("extra_dejson", VOther "date")])])
  else if String.eqb content "c: {1: x}"
  then YamlValue (VDict [("c", VMapping [(VInt 1, VStr "x")])])
  else if String.eqb content "1: x"
  then YamlValue (VMapping [(VInt 1, VStr "x")])
  else if String.eqb content yaml_control_character
  then YamlRaises ReaderError
  else YamlValue (VStr content).

(** A decoder that raises a [MarkedYAMLError] at a mark, and one that
    raises it without mark: they stand for no document, and run the branch
    of the YAML parser that catches the error. *)
Definition yaml_error_at (line column : Z) (str : string)
  : string -> yaml_outcome :=
  fun _ => MarkedYAMLError (Some (mkMark line column)) str.

Definition yaml_error_unmarked (str : string) : string -> yaml_outcome :=
  fun _ => MarkedYAMLError None str.

Definition backslash : string := String (ascii_of_nat 92) EmptyString.

(** One hexadecimal digit, in lower case. *)
Definition hex_digit (n : nat) : ascii :=
  ascii_of_nat (if Nat.ltb n 10 then 48 + n else 87 + n).

(** A character inside a JSON string as [json.dumps] writes it: the quote
    and the backslash behind a backslash, the short forms of the line feed,
    carriage return, tabulator, backspace and form feed, the other printable
    ASCII characters as they are, and any other code point below 256 as
    four hexadecimal digits behind a backslash and [u]. *)
Definition json_char (c : ascii) : string :=
  let n := nat_of_ascii c in
  if Nat.eqb n 34 then backslash ++ dquote
  else if Nat.eqb n 92 then backslash ++ backslash
  else if Nat.eqb n 10 then backslash ++ "n"
  else if Nat.eqb n 13 then backslash ++ "r"
  else if Nat.eqb n 9 then backslash ++ "t"
  else if Nat.eqb n 8 then backslash ++ "b"
  else if Nat.eqb n 12 then backslash ++ "f"
  else if (Nat.leb 32 n && Nat.leb n 126)%bool then String c EmptyString
  else backslash ++ "u00"
       ++ String (hex_digit (n / 16))
            (String (hex_digit (n mod 16)) EmptyString).

Fixpoint json_chars (s : string) : string :=
  match s with
  | EmptyString => EmptyString
  | String c rest => json_char c ++ json_chars rest
  end.

Definition json_string (s : string) : string :=
  dquote ++ json_chars s ++ dquote.

(** All the results, or the first exception. *)
Fixpoint all_or_first {A} (l : list (exn + A)) : exn + list A :=
  match l with
  | [] => inr []
  | inl e :: _ => inl e
  | inr a :: rest =>
      match all_or_first rest with
      | inl e => inl e
      | inr rest' => inr (a :: rest')
      end
  end.

(** [json.dumps] on [None], booleans, integers, strings, lists and dicts
    with [str] keys. On an object of another type [json.dumps] raises
    [TypeError], and so does this. Floats and dicts with other keys are no
    part of the sample: [json.dumps] serializes them, this refuses them. *)
Fixpoint json_dumps (v : value) : exn + string :=
  match v with
  | VNone => inr "null"
  | VBool true => inr "true"
  | VBool false => inr "false"
  | VInt n => inr (NilZero.string_of_int (Z.to_int n))
  | VStr s => inr (json_string s)
  | VList items =>
      match all_or_first (map json_dumps items) with
      | inl e => inl e
      | inr parts => inr ("[" ++ String.concat ", " parts ++ "]")
      end
  | VDict items | VShared _ items =>
      match all_or_first
              (map (fun '(k, x) =>
                      match json_dumps x with
                      | inl e => inl e
                      | inr text => inr (json_string k ++ ": " ++ text)
                      end) items) with
      | inl e => inl e
      | inr parts => inr ("{" ++ String.concat ", " parts ++ "}")
      end
  | VFloat _ | VMapping _ | VOther _ => inl TypeError
  end.

(** A connection is the keyword arguments it was constructed with; the
    constructor never raises. *)
Definition Conn : Type := list (string * value).

Definition get_connection_parameter_names : gset string :=
  list_to_set ["conn_id"; "conn_type"; "description"; "host"; "login";
               "password"; "schema"; "port"; "extra"; "uri"].

Definition Connection (kwargs : list (string * value)) : exn + Conn :=
  inr kwargs.

End Sample.

(** ** Writing a dotenv file *)

(** A filesystem that holds one regular file. *)
Definition single_file (path content : string) : string -> option fs_entry :=
  fun p => if String.eqb p path then Some (RegularFile content) else None.

(** The text has no line boundary. *)
Definition has_no_linebreak (s : string) : Prop :=
  Forall (fun c => is_linebreak c = false) (list_ascii_of_string s).

(** The line [key=value] of a pair. *)
Definition dotenv_line (pair : string * string) : string :=
  fst pair ++ String "=" (snd pair).

(** The pairs written one per line, the lines joined by line feeds. *)
Definition render_dotenv (pairs : list (string * string)) : string :=
  String.concat (String LF EmptyString) (map dotenv_line pairs).

(** ** The program *)

Section LocalFilesystem.

(** The files on disk; the program only reads them. *)
Variable fs : string -> option fs_entry.

(** [COMMENT_PATTERN.match(line)] of [airflow.utils.file]. *)
Variable COMMENT_PATTERN : string -> bool.

(** The library decoders and the library serializer [json.dumps], which
    returns the text or raises. *)
Variable json_loads : string -> json_outcome.
Variable yaml_safe_load : string -> yaml_outcome.
Variable json_dumps : value -> exn + string.

(** [airflow.models.connection.Connection]: the names of its constructor's
    parameters ([self] apart) and the constructor, called with keyword
    arguments; it may raise. *)
Variable Conn : Type.
Variable get_connection_parameter_names : gset string.
Variable Connection : list (string * value) -> exn + Conn.

(** [os.path.exists(path)] *)
Definition path_exists (path : string) : IO bool :=
  fun tr =>
    (inr (match fs path with Some _ => true | None => false end),
     (tr ++ [EvExists path])%list).

(** [with open(path) as f: content = f.read()] *)
Definition read_file (path : string) : IO string :=
  fun tr =>
    (match fs path with
     | Some (RegularFile content) => inr content
     | Some (Unreadable error) => inl error
     | Some Directory | None => inl (OSError path)
     end,
     (tr ++ [EvOpen path])%list).

(** *** Dotenv parser *)

Definition msg_no_equal_sign : string :=
  "Invalid line format. The line should contain at least one equal sign ("
  ++ dquote ++ "=" ++ dquote ++ ").".

Definition msg_key_empty : string := "Invalid line format. Key is empty.".

(** [secrets[key].append(value)] on a [defaultdict(list)] *)
Fixpoint dict_append (key value : string) (d : list (string * list string))
  : list (string * list string) :=
  match d with
  | [] => [(key, [value])]
  | (k, vs) :: d' =>
      if String.eqb k key then (k, (vs ++ [value])%list) :: d'
      else (k, vs) :: dict_append key value d'
  end.

(** One turn of the loop over the numbered lines, on the pair
    [(secrets, errors)]. *)
Definition env_step
  (st : list (string * list string) * list FileSyntaxError)
  (line_no : Z) (line : string)
  : list (string * list string) * list FileSyntaxError :=
  let '(secrets, errors) := st in
  if is_empty line then st
  else if COMMENT_PATTERN line then st
  else
    let '(key, sep, value) := partition "=" line in
    if is_empty sep then
      (secrets, (errors ++ [mkFileSyntaxError line_no msg_no_equal_sign])%list)
    else
      let errors' :=
        if is_empty value
        then (errors ++ [mkFileSyntaxError line_no msg_key_empty])%list
        else errors in
      (dict_append key value secrets, errors').

(** [for line_no, line in enumerate(lines, line_no)] *)
Fixpoint env_loop (line_no : Z) (lines : list string)
  (st : list (string * list string) * list FileSyntaxError)
  : list (string * list string) * list FileSyntaxError :=
  match lines with
  | [] => st
  | line :: rest => env_loop (line_no + 1) rest (env_step st line_no line)
  end.

(** The body of [_parse_env_file] once the content is read. *)
Definition parse_env_content (content : string)
  : list (string * list string) * list FileSyntaxError :=
  env_loop 1 (splitlines content) ([], []).

(** A [dict[str, list[str]]] seen as a [dict[str, Any]]. *)
Definition as_raw (secrets : list (string * list string))
  : list (string * value) :=
  map (fun '(k, vs) => (k, VList (map VStr vs))) secrets.

Definition _parse_env_file (file_path : string)
  : IO (list (string * value) * list FileSyntaxError) :=
  let* content := read_file file_path in
  let '(secrets, errors) := parse_env_content content in
  ret (as_raw secrets, errors).

(** *** YAML and JSON parsers *)

(** The body of [_parse_yaml_file] once the content is read. An exception
    of the decoder other than [MarkedYAMLError] is not caught. *)
Definition parse_yaml_content (content : string)
  : exn + (list (string * value) * list FileSyntaxError) :=
  if is_empty content then
    inr ([], [mkFileSyntaxError 1 "The file is empty."])
  else
    match yaml_safe_load content with
    | YamlRaises error => inl error
    | MarkedYAMLError problem_mark str =>
        let err_line_no :=
          match problem_mark with
          | Some m => mark_line m
          | None => -1
          end in
        inr ([], [mkFileSyntaxError err_line_no str])
    | YamlValue (VDict secrets) => inr (secrets, [])
    | YamlValue (VShared _ _) | YamlValue (VMapping _) => inl Unrepresented
    | YamlValue _ =>
        inr ([], [mkFileSyntaxError 1 "The file should contain the object."])
    end.

Definition _parse_yaml_file (file_path : string)
  : IO (list (string * value) * list FileSyntaxError) :=
  let* content := read_file file_path in
  lift (parse_yaml_content content).

(** The body of [_parse_json_file] once the content is read. An exception
    of the decoder other than [JSONDecodeError] is not caught. *)
Definition parse_json_content (content : string)
  : exn + (list (string * value) * list FileSyntaxError) :=
  if is_empty content then
    inr ([], [mkFileSyntaxError 1 "The file is empty."])
  else
    match json_loads content with
    | JsonRaises error => inl error
    | JSONDecodeError lineno msg => inr ([], [mkFileSyntaxError lineno msg])
    | JsonValue (VDict secrets) => inr (secrets, [])
    | JsonValue (VShared _ _) | JsonValue (VMapping _) => inl Unrepresented
    | JsonValue _ =>
        inr ([], [mkFileSyntaxError 1 "The file should contain the object."])
    end.

Definition _parse_json_file (file_path : string)
  : IO (list (string * value) * list FileSyntaxError) :=
  let* content := read_file file_path in
  lift (parse_json_content content).

(** *** Dispatcher *)

Definition FILE_PARSERS
  : gmap string (string -> IO (list (string * value) * list FileSyntaxError)) :=
  <["env" := _parse_env_file]>
    (<["json" := _parse_json_file]>
       (<["yaml" := _parse_yaml_file]>
          (<["yml" := _parse_yaml_file]> ∅))).

(** [file_path.rsplit(".", 2)[-1].lower()] *)
Definition extension (file_path : string) : string :=
  lower (last_item (rsplit "." 2 file_path)).

Definition _parse_secret_file (file_path : string)
  : IO (list (string * value)) :=
  let* found := path_exists file_path in
  if negb found then
    raise (AirflowException
             [Lit "File "; FStr file_path;
              Lit " was not found. Check the configuration of your Secrets backend."])
  else
    let ext := extension file_path in
    match FILE_PARSERS !! ext with
    | None =>
        raise (AirflowException
                 [Lit "Unsupported file format. The file must have one of the following extensions: .env .json .yaml .yml"])
    | Some parser =>
        let* parsed := parser file_path in
        let '(secrets, parse_errors) := parsed in
        match parse_errors with
        | _ :: _ =>
            raise (AirflowFileParseException
                     [Lit "Failed to load the secret file."]
                     file_path parse_errors)
        | [] => ret secrets
        end
    end.

(** *** Connection builder *)

(** [conn_id != other] for a [str] and any object: equal only to the
    same [str]. *)
Definition str_ne (conn_id : string) (other : value) : bool :=
  match other with
  | VStr s => negb (String.eqb conn_id s)
  | _ => true
  end.

(** [if "extra_dejson" in value: value["extra"] = json.dumps(...);
    del value["extra_dejson"]]: the entries after the step, or what
    [json.dumps] raises, and then nothing is written. *)
Definition normalize_extra (fields : list (string * value))
  : exn + list (string * value) :=
  match dict_get "extra_dejson" fields with
  | Some dejson =>
      match json_dumps dejson with
      | inl e => inl e
      | inr text =>
          inr (dict_del "extra_dejson" (dict_set "extra" (VStr text) fields))
      end
  | None => inr fields
  end.

(** The branch [isinstance(value, dict)] of the builder on a dict whose
    keys are [str]. It writes into the dict it is given: the outcome comes
    with the entries the dict is left with. *)
Definition create_connection_object (conn_id : string)
  (fields : list (string * value))
  : (exn + Conn) * list (string * value) :=
  let connection_parameter_names : gset string :=
    get_connection_parameter_names ∪ {["extra_dejson"]} in
  let current_keys : gset string := list_to_set (dict_keys fields) in
  if negb (bool_decide (current_keys ⊆ connection_parameter_names)) then
    let illegal_keys := current_keys ∖ connection_parameter_names in
    (inl (AirflowException
            [Lit "The object have illegal keys: ";
             FJoinSet ", " illegal_keys;
             Lit ". The dictionary can only contain the following keys: ";
             FStrSet connection_parameter_names]),
     fields)
  else if (dict_in "extra" fields && dict_in "extra_dejson" fields)%bool
  then
    (inl (AirflowException
            [Lit "The extra and extra_dejson parameters are mutually exclusive. Please provide only one parameter."]),
     fields)
  else
    match normalize_extra fields with
    | inl e => (inl e, fields)
    | inr fields1 =>
        let kwargs := dict_set "conn_id" (VStr conn_id) fields1 in
        if bool_decide ("conn_id" ∈ current_keys) then
          match dict_get "conn_id" fields1 with
          | None => (inl (KeyError "conn_id"), fields1)
          | Some declared =>
              if str_ne conn_id declared then
                (inl (AirflowException
                        [Lit "Mismatch conn_id. ";
                         Lit "The dictionary key has the value: ";
                         FValue declared;
                         Lit ". The item has the value: "; FStr conn_id;
                         Lit "."]),
                 fields1)
              else (Connection kwargs, kwargs)
          end
        else (Connection kwargs, kwargs)
    end.

(** The builder on the value as it is when the call is made. In a dict
    with a key that is not a [str] that key is illegal, and joining the
    illegal keys with [", ".join] raises [TypeError]. *)
Definition _create_connection (conn_id : string) (value : value)
  : exn + Conn :=
  match value with
  | VStr uri => Connection [("conn_id", VStr conn_id); ("uri", VStr uri)]
  | VDict fields | VShared _ fields =>
      fst (create_connection_object conn_id fields)
  | VMapping items =>
      match str_keyed items with
      | Some fields => fst (create_connection_object conn_id fields)
      | None => inl TypeError
      end
  | _ =>
      inl (AirflowException
             [Lit "Unexpected value type: "; FType (type_of value);
              Lit ". The connection can only be defined using a string or object."])
  end.

(** What a call of the builder has written where the dict it was given is
    held at other places too. *)
Definition written_by (conn_id : string) (value : value) : writes :=
  match value with
  | VShared id fields => [(id, snd (create_connection_object conn_id fields))]
  | _ => []
  end.

(** *** Variable resolver *)

(** [isinstance(values, list) and len(values) != 1] *)
Definition is_invalid (values : value) : bool :=
  match values with
  | VList items => negb (Nat.eqb (length items) 1)
  | _ => false
  end.

(** [values[0] if isinstance(values, list) else values] *)
Definition first_or_self (values : value) : exn + value :=
  match values with
  | VList [] => inl IndexError
  | VList (first :: _) => inr first
  | _ => inr values
  end.

(** [{key: ... for key, values in secrets.items()}] *)
Fixpoint unwrap_all (items : list (string * value))
  : exn + list (string * value) :=
  match items with
  | [] => inr []
  | (key, values) :: rest =>
      match first_or_self values with
      | inl e => inl e
      | inr v =>
          match unwrap_all rest with
          | inl e => inl e
          | inr variables => inr ((key, v) :: variables)
          end
      end
  end.

Definition invalid_keys_of (secrets : list (string * value)) : list string :=
  dict_keys (List.filter (fun '(_, values) => is_invalid values) secrets).

Definition load_variables (file_path : string) : IO (list (string * value)) :=
  let* secrets := _parse_secret_file file_path in
  let invalid_keys := invalid_keys_of secrets in
  match invalid_keys with
  | _ :: _ =>
      raise (AirflowException
               [Lit ("The " ++ dquote); FStr file_path;
                Lit (dquote ++ " file contains multiple values for keys: ");
                FStrList invalid_keys])
  | [] => lift (unwrap_all secrets)
  end.

(** *** Connection resolver *)

(** [for secret_value in secret_values:
       connection_by_conn_id[key] = _create_connection(key, secret_value)],
    every value read as the writes so far have left it. *)
Fixpoint build_each (key : string) (secret_values : list value)
  (connection_by_conn_id : list (string * Conn)) (written : writes)
  : exn + (list (string * Conn) * writes) :=
  match secret_values with
  | [] => inr (connection_by_conn_id, written)
  | secret_value :: rest =>
      let secret_value := current written secret_value in
      match _create_connection key secret_value with
      | inl e => inl e
      | inr c =>
          build_each key rest (dict_set key c connection_by_conn_id)
            (written ++ written_by key secret_value)%list
      end
  end.

(** [for key, secret_values in list(secrets.items())], from the
    connections built and the writes made so far. The values are handed to
    the builder uncopied, so what it writes into a dict shows under every
    later key that holds the same dict. *)
Fixpoint connections_loop_from (file_path : string)
  (items : list (string * value))
  (connection_by_conn_id : list (string * Conn)) (written : writes)
  : exn + (list (string * Conn) * writes) :=
  match items with
  | [] => inr (connection_by_conn_id, written)
  | (key, secret_values) :: rest =>
      match secret_values with
      | VList values =>
          if Nat.ltb 1 (length values) then
            inl (ConnectionNotUnique
                   [Lit "Found multiple values for "; FStr key; Lit " in ";
                    FStr file_path; Lit "."])
          else
            match build_each key values connection_by_conn_id written with
            | inl e => inl e
            | inr (acc, written') =>
                connections_loop_from file_path rest acc written'
            end
      | _ =>
          let secret_values := current written secret_values in
          match _create_connection key secret_values with
          | inl e => inl e
          | inr c =>
              connections_loop_from file_path rest
                (dict_set key c connection_by_conn_id)
                (written ++ written_by key secret_values)%list
          end
      end
  end.

(** The loop on a map as it was decoded: nothing is written yet. *)
Definition connections_loop (file_path : string)
  (items : list (string * value))
  (connection_by_conn_id : list (string * Conn))
  : exn + list (string * Conn) :=
  match connections_loop_from file_path items connection_by_conn_id [] with
  | inl e => inl e
  | inr (connections, _) => inr connections
  end.

Definition load_connections_dict (file_path : string)
  : IO (list (string * Conn)) :=
  let* secrets := _parse_secret_file file_path in
  lift (connections_loop file_path secrets []).

(** *** Backend facade *)

Record LocalFilesystemBackend : Type := mkBackend {
  variables_file : option string;
  connections_file : option string
}.

(** Truth value of a [str | None]: [None] and the empty string are false. *)
Definition configured (file : option string) : bool :=
  match file with
  | Some path => negb (is_empty path)
  | None => false
  end.

Definition _local_variables (self : LocalFilesystemBackend)
  : IO (list (string * value)) :=
  match variables_file self with
  | Some path => if is_empty path then ret [] else load_variables path
  | None => ret []
  end.

Definition _local_connections (self : LocalFilesystemBackend)
  : IO (list (string * Conn)) :=
  match connections_file self with
  | Some path => if is_empty path then ret [] else load_connections_dict path
  | None => ret []
  end.

(** The property [_local_connections] is evaluated once for the test and
    once more for the subscript. *)
Definition get_connection (self : LocalFilesystemBackend) (conn_id : string)
  : IO (option Conn) :=
  let* connections := _local_connections self in
  if dict_in conn_id connections then
    let* connections' := _local_connections self in
    match dict_get conn_id connections' with
    | Some c => ret (Some c)
    | None => raise (KeyError conn_id)
    end
  else ret None.

Definition get_variable (self : LocalFilesystemBackend) (key : string)
  : IO (option value) :=
  let* variables := _local_variables self in
  ret (dict_get key variables).

(** *** Notions used in the statements *)

(** The capital of a small ASCII letter. *)
Definition capital_of (c : ascii) : ascii :=
  ascii_of_nat (nat_of_ascii c - 32).

Definition is_small_letter (c : ascii) : bool :=
  (Nat.leb 97 (nat_of_ascii c) && Nat.leb (nat_of_ascii c) 122)%bool.

(** [ext] spells [word] in upper or lower case: letter by letter it holds
    the letter of [word] or its capital. *)
Fixpoint spells (word ext : string) : bool :=
  match word, ext with
  | EmptyString, EmptyString => true
  | String w word', String c ext' =>
      ((Ascii.eqb c w || Ascii.eqb c (capital_of w)) && spells word' ext')%bool
  | _, _ => false
  end.

(** A singleton list stands for its element, anything else for itself. *)
Definition unwrap_singleton (values : value) : value :=
  match values with
  | VList [single] => single
  | _ => values
  end.

(** A line the loop passes over: blank, or matched as a comment. *)
Definition ignored (line : string) : bool :=
  (is_empty line || COMMENT_PATTERN line)%bool.

(** The line holds no equal sign. *)
Definition no_equal_sign (line : string) : Prop :=
  ~ In "="%char (list_ascii_of_string line).

(** What one numbered line adds to the errors. *)
Definition line_errors (n : Z) (line : string) : list FileSyntaxError :=
  if ignored line then []
  else
    let '(_, sep, value) := partition "=" line in
    if is_empty sep then [mkFileSyntaxError n msg_no_equal_sign]
    else if is_empty value then [mkFileSyntaxError n msg_key_empty]
    else [].

(** The key and the value one line records, if any. *)
Definition line_pair (line : string) : option (string * string) :=
  if ignored line then None
  else
    let '(key, sep, value) := partition "=" line in
    if is_empty sep then None else Some (key, value).

Fixpoint errors_from (n : Z) (lines : list string) : list FileSyntaxError :=
  match lines with
  | [] => []
  | line :: rest => (line_errors n line ++ errors_from (n + 1) rest)%list
  end.

Fixpoint record_all (pairs : list (string * string))
  (secrets : list (string * list string)) : list (string * list string) :=
  match pairs with
  | [] => secrets
  | (key, value) :: rest => record_all rest (dict_append key value secrets)
  end.

(** The values recorded under [key], in the order of the lines. *)
Definition values_of (key : string) (pairs : list (string * string))
  : list string :=
  map snd (List.filter (fun p => String.eqb (fst p) key) pairs).

Definition values_for (key : string) (lines : list string) : list string :=
  values_of key (omap line_pair lines).

(** The errors reported at line [n]. *)
Definition errors_at (n : Z) (errors : list FileSyntaxError)
  : list FileSyntaxError :=
  List.filter (fun e => Z.eqb (line_no e) n) errors.

(** A computation whose outcome does not depend on the trace it starts
    from, and that only appends its own filesystem calls to it. *)
Definition framed {A} (m : IO A) : Prop :=
  forall tr, m tr = (fst (m []), (tr ++ snd (m []))%list).

(** A pair that a dotenv file can hold as one line: no equal sign in the
    key, no line boundary in either part, a value that is not empty, and a
    line that the comment pattern does not match. *)
Definition dotenv_pair_ok (pair : string * string) : Prop :=
  no_equal_sign (fst pair)
  /\ has_no_linebreak (fst pair)
  /\ has_no_linebreak (snd pair)
  /\ snd pair <> EmptyString
  /\ COMMENT_PATTERN (dotenv_line pair) = false.

(** The entries of an object whose keys are all [str]. *)
Definition object_fields (v : value) : option (list (string * value)) :=
  match v with
  | VDict fields | VShared _ fields => Some fields
  | VMapping items => str_keyed items
  | _ => None
  end.

(** The keyword arguments the builder passes to the constructor for an
    object: the fields after the [extra_dejson] step, with [conn_id] set. *)
Definition object_kwargs (conn_id : string) (fields : list (string * value))
  : exn + list (string * value) :=
  match normalize_extra fields with
  | inl e => inl e
  | inr fields1 => inr (dict_set "conn_id" (VStr conn_id) fields1)
  end.

(** [values == []] *)
Definition is_empty_list (values : value) : bool :=
  match values with
  | VList [] => true
  | _ => false
  end.

(** ** Properties of dictionaries *)

Section DictFacts.
Context {V : Type}.
Implicit Types (k : string) (v : V) (d : list (string * V)).

Lemma dict_get_set_eq k v d : dict_get k (dict_set k v d) = Some v.
Proof.
  induction d as [|[k' v'] d IH]; simpl.
  - now rewrite String.eqb_refl.
  - destruct (String.eqb_spec k' k) as [->|Hne]; simpl.
    + now rewrite String.eqb_refl.
    + apply String.eqb_neq in Hne. now rewrite Hne.
Qed.

Lemma dict_get_set_ne k k' v d :
  k <> k' -> dict_get k' (dict_set k v d) = dict_get k' d.
Proof.
  intros Hne. induction d as [|[k0 v0] d IH]; simpl.
  - apply String.eqb_neq in Hne. now rewrite Hne.
  - destruct (String.eqb_spec k0 k) as [->|Hne0]; simpl.
    + apply String.eqb_neq in Hne. now rewrite Hne.
    + now rewrite IH.
Qed.

Lemma dict_get_del_eq k d : dict_get k (dict_del k d) = None.
Proof.
  induction d as [|[k' v'] d IH]; simpl; [reflexivity|].
  destruct (String.eqb k' k) eqn:E; simpl; [assumption|].
  now rewrite E.
Qed.

Lemma dict_get_del_ne k k' d :
  k <> k' -> dict_get k' (dict_del k d) = dict_get k' d.
Proof.
  intros Hne. induction d as [|[k0 v0] d IH]; simpl; [reflexivity|].
  destruct (String.eqb_spec k0 k) as [->|Hne0]; simpl.
  - apply String.eqb_neq in Hne. now rewrite Hne.
  - now rewrite IH.
Qed.

Lemma dict_get_None_keys k d : dict_get k d = None <-> k ∉ dict_keys d.
Proof.
  induction d as [|[k' v'] d IH]; simpl.
  - split; [intros _; apply not_elem_of_nil | reflexivity].
  - rewrite not_elem_of_cons.
    destruct (String.eqb_spec k' k) as [->|Hne].
    + split; [discriminate | intros [Hk _]; congruence].
    + rewrite IH. split; [intros Hk; split; congruence | intros [_ Hk]; exact Hk].
Qed.

Lemma dict_in_keys k d : dict_in k d = true <-> k ∈ dict_keys d.
Proof.
  unfold dict_in. pose proof (dict_get_None_keys k d) as Hn.
  destruct (dict_get k d).
  - split; [intros _|reflexivity].
    destruct (decide (k ∈ dict_keys d)) as [Hin|Hout]; [assumption|].
    apply Hn in Hout. discriminate.
  - split; [discriminate|]. intros Hin. exfalso. now apply Hn.
Qed.

Lemma dict_keys_get k d : k ∈ dict_keys d <-> dict_get k d <> None.
Proof.
  pose proof (dict_get_None_keys k d) as Hnone. split.
  - intros Hin Hget. now apply Hnone in Hget.
  - intros Hget. destruct (decide (k ∈ dict_keys d)) as [|Hout]; [assumption|].
    apply Hnone in Hout. congruence.
Qed.

Lemma dict_get_elem k v d :
  NoDup (dict_keys d) -> (k, v) ∈ d -> dict_get k d = Some v.
Proof.
  induction d as [|[k0 x0] d IH]; intros Hnd Hin; [inversion Hin|].
  cbn [dict_keys map fst] in Hnd. apply NoDup_cons in Hnd as [Hk0 Hnd].
  cbn [dict_get]. apply elem_of_cons in Hin as [Heq|Hin].
  - injection Heq as -> ->. now rewrite String.eqb_refl.
  - destruct (String.eqb_spec k0 k) as [->|Hne]; [|now apply IH].
    exfalso. apply Hk0. apply list_elem_of_fmap. now exists (k, v).
Qed.

Lemma dict_set_new k v d :
  k ∉ dict_keys d -> dict_set k v d = (d ++ [(k, v)])%list.
Proof.
  induction d as [|[k0 v0] d IH]; intros Hout; [reflexivity|].
  cbn [dict_keys map fst] in Hout. apply not_elem_of_cons in Hout as [Hne Hout].
  cbn [dict_set app]. apply not_eq_sym, String.eqb_neq in Hne.
  rewrite Hne. now rewrite IH.
Qed.
End DictFacts.

(** ** Properties of the program *)

(** *** The extension of a path *)

(** With at least one split allowed, the first piece is the text before
    the first separator. *)
Lemma split_chars_first (sep : ascii) (m : nat) (p rest : list ascii) :
  ~ In sep p ->
  exists ps, split_chars sep (S m) (p ++ sep :: rest)%list = p :: ps.
Proof.
  induction p as [|c p IH]; intros Hnot.
  - simpl. rewrite Ascii.eqb_refl. eauto.
  - cbn [app split_chars].
    destruct (Ascii.eqb_spec c sep) as [->|Hne].
    + exfalso. apply Hnot. now left.
    + destruct IH as [ps Hps]; [intros Hin; apply Hnot; now right|].
      rewrite Hps. eauto.
Qed.

Lemma split_chars_whole (sep : ascii) (m : nat) (p : list ascii) :
  ~ In sep p -> split_chars sep m p = [p].
Proof.
  induction p as [|c p IH]; intros Hnot; [reflexivity|].
  cbn [split_chars]. destruct m as [|m]; [reflexivity|].
  destruct (Ascii.eqb_spec c sep) as [->|Hne].
  - exfalso. apply Hnot. now left.
  - rewrite IH; [reflexivity|]. intros Hin. apply Hnot. now right.
Qed.

Lemma list_ascii_of_string_app (s1 s2 : string) :
  list_ascii_of_string (s1 ++ s2)
  = (list_ascii_of_string s1 ++ list_ascii_of_string s2)%list.
Proof.
  induction s1 as [|c s1 IH]; simpl; [reflexivity | now rewrite IH].
Qed.

(** The extension of [base.ext], for an [ext] without dot, is [ext] in
    lower case, whatever [base] is. *)
Lemma extension_dotted (base ext : string) :
  ~ In "."%char (list_ascii_of_string ext) ->
  extension (base ++ String "." ext) = lower ext.
Proof.
  intros Hnot. unfold extension, rsplit, last_item. f_equal.
  rewrite list_ascii_of_string_app. cbn [list_ascii_of_string].
  rewrite rev_app_distr. cbn [rev]. rewrite <- app_assoc. cbn [app].
  destruct (split_chars_first "." 1 (rev (list_ascii_of_string ext))
              (rev (list_ascii_of_string base))) as [ps ->].
  { intros Hin. apply Hnot. now apply in_rev. }
  cbn [map rev]. rewrite last_last, rev_involutive.
  apply string_of_list_ascii_of_string.
Qed.

(** A path without any dot is its own extension. *)
Lemma extension_plain (path : string) :
  ~ In "."%char (list_ascii_of_string path) ->
  extension path = lower path.
Proof.
  intros Hnot. unfold extension, rsplit, last_item. f_equal.
  rewrite split_chars_whole.
  - cbn [map rev app List.last]. rewrite rev_involutive.
    apply string_of_list_ascii_of_string.
  - intros Hin. apply Hnot. now apply in_rev.
Qed.

Example extension_upper_case : extension "conf/Secrets.JSON" = "json".
Proof. reflexivity. Qed.

Example extension_two_dots : extension "a.b.env" = "env".
Proof. reflexivity. Qed.

Example extension_hidden_file : extension ".env" = "env".
Proof. reflexivity. Qed.

Example extension_no_dot : extension "yaml" = "yaml".
Proof. reflexivity. Qed.

(** *** Dispatcher *)

Lemma FILE_PARSERS_lookup (ext : string) :
  FILE_PARSERS !! ext =
    if decide (ext = "env") then Some _parse_env_file
    else if decide (ext = "json") then Some _parse_json_file
    else if decide (ext = "yaml") then Some _parse_yaml_file
    else if decide (ext = "yml") then Some _parse_yaml_file
    else None.
Proof.
  unfold FILE_PARSERS.
  repeat case_decide; subst;
    repeat first [ rewrite lookup_insert_eq
                 | rewrite lookup_insert_ne by congruence ];
    try rewrite lookup_empty; reflexivity.
Qed.

Lemma FILE_PARSERS_unsupported (ext : string) :
  FILE_PARSERS !! ext = None <-> ext ∉ ["env"; "json"; "yaml"; "yml"].
Proof.
  rewrite FILE_PARSERS_lookup, !not_elem_of_cons.
  repeat case_decide; split; try discriminate; intros Hx;
    try tauto; repeat split; auto using not_elem_of_nil.
Qed.

(** A small letter is lowered to itself, and so is its capital. *)
Lemma lower_char_small (w : ascii) :
  is_small_letter w = true ->
  lower_char w = w /\ lower_char (capital_of w) = w.
Proof.
  destruct w as [[] [] [] [] [] [] [] []]; vm_compute;
    first [discriminate | intros _; split; reflexivity].
Qed.

(** Only a small letter and its capital are lowered to a small letter. *)
Lemma lower_char_to_small (c : ascii) :
  is_small_letter (lower_char c) = true ->
  (Ascii.eqb c (lower_char c)
   || Ascii.eqb c (capital_of (lower_char c)))%bool = true.
Proof.
  destruct c as [[] [] [] [] [] [] [] []]; vm_compute;
    first [discriminate | reflexivity].
Qed.

Lemma spells_lower (word ext : string) :
  forallb is_small_letter (list_ascii_of_string word) = true ->
  spells word ext = true <-> lower ext = word.
Proof.
  revert ext. induction word as [|w word IH]; intros ext Hsmall.
  - destruct ext; cbn; split; congruence.
  - cbn [list_ascii_of_string forallb] in Hsmall.
    apply andb_true_iff in Hsmall as [Hw Hword].
    destruct ext as [|c ext]; [cbn; split; congruence|].
    cbn [spells lower]. rewrite andb_true_iff, (IH ext Hword).
    destruct (lower_char_small w Hw) as [Hsame Hcapital].
    split.
    + intros [Hc <-]. f_equal.
      apply orb_true_iff in Hc as [Hc|Hc]; apply Ascii.eqb_eq in Hc;
        now subst c.
    + intros Heq. injection Heq as Hc Hext. split; [|assumption].
      rewrite <- Hc in Hw |- *. now apply lower_char_to_small.
Qed.

(** C1. The dispatcher [_parse_secret_file], for every path: a path that
    does not exist raises the not-found [AirflowException]; an existing
    path whose extension is none of env, json, yaml, yml raises the
    unsupported-format [AirflowException]; otherwise the parser registered
    for the extension is called, and when it returns errors the dispatcher
    raises [AirflowFileParseException] with the file path and the whole
    list of errors in order, and when it returns none the dispatcher
    returns the parser's map. The extension is the last piece that
    [rsplit(".", 2)] leaves, in lower case: the text after the last dot, or
    the whole path when it has no dot. The test does not tell upper from
    lower case: the extension is supported exactly when that text spells
    one of the four words in letters of either case. *)
Theorem parse_secret_file_dispatch (file_path : string) :
  (fs file_path = None ->
   run (_parse_secret_file file_path) =
     (inl (AirflowException
             [Lit "File "; FStr file_path;
              Lit " was not found. Check the configuration of your Secrets backend."]),
      [EvExists file_path]))
  /\ (is_Some (fs file_path) ->
      extension file_path ∉ ["env"; "json"; "yaml"; "yml"] ->
      run (_parse_secret_file file_path) =
        (inl (AirflowException
                [Lit "Unsupported file format. The file must have one of the following extensions: .env .json .yaml .yml"]),
         [EvExists file_path]))
  /\ (is_Some (fs file_path) ->
      extension file_path ∈ ["env"; "json"; "yaml"; "yml"] ->
      exists parser,
        FILE_PARSERS !! extension file_path = Some parser
        /\ forall secrets parse_errors tr,
            parser file_path [EvExists file_path]
              = (inr (secrets, parse_errors), tr) ->
            (parse_errors <> [] ->
             run (_parse_secret_file file_path) =
               (inl (AirflowFileParseException
                       [Lit "Failed to load the secret file."]
                       file_path parse_errors), tr))
            /\ (parse_errors = [] ->
                run (_parse_secret_file file_path) = (inr secrets, tr)))
  /\ (forall base ext,
         ~ In "."%char (list_ascii_of_string ext) ->
         file_path = base ++ String "." ext ->
         extension file_path = lower ext
         /\ (extension file_path ∈ ["env"; "json"; "yaml"; "yml"] <->
             exists word,
               word ∈ ["env"; "json"; "yaml"; "yml"]
               /\ spells word ext = true))
  /\ (~ In "."%char (list_ascii_of_string file_path) ->
      extension file_path = lower file_path
      /\ (extension file_path ∈ ["env"; "json"; "yaml"; "yml"] <->
          exists word,
            word ∈ ["env"; "json"; "yaml"; "yml"]
            /\ spells word file_path = true)).
Proof.
  assert (Hspelling : forall ext,
             lower ext ∈ ["env"; "json"; "yaml"; "yml"] <->
             exists word,
               word ∈ ["env"; "json"; "yaml"; "yml"]
               /\ spells word ext = true).
  { intros ext. split.
    - intros Hin. exists (lower ext). split; [assumption|].
      apply spells_lower; [|reflexivity].
      repeat (apply elem_of_cons in Hin as [->|Hin]; [reflexivity|]).
      inversion Hin.
    - intros (word & Hin & Hspells).
      apply spells_lower in Hspells; [now rewrite Hspells|].
      repeat (apply elem_of_cons in Hin as [->|Hin]; [reflexivity|]).
      inversion Hin. }
  split; [|split; [|split; [|split]]].
  - unfold run, _parse_secret_file, bind, path_exists, raise, ret.
    intros Hnone. rewrite Hnone. reflexivity.
  - unfold run, _parse_secret_file, bind, path_exists, raise, ret.
    intros [entry Hsome] Hext. rewrite Hsome. simpl.
    apply FILE_PARSERS_unsupported in Hext. rewrite Hext. reflexivity.
  - unfold run, _parse_secret_file, bind, path_exists, raise, ret.
    intros [entry Hsome] Hext. rewrite Hsome. simpl.
    destruct (FILE_PARSERS !! extension file_path) as [parser|] eqn:Hp.
    + exists parser. split; [reflexivity|].
      intros secrets parse_errors tr Hrun. rewrite Hrun.
      split; intros Herr.
      * destruct parse_errors; [congruence | reflexivity].
      * subst parse_errors. reflexivity.
    + apply FILE_PARSERS_unsupported in Hp. contradiction.
  - intros base ext Hnot ->.
    rewrite (extension_dotted base ext Hnot). split; [reflexivity|].
    apply Hspelling.
  - intros Hnot. rewrite (extension_plain file_path Hnot).
    split; [reflexivity | apply Hspelling].
Qed.

(** *** Connection builder *)


Lemma normalize_extra_cases (fields : list (string * value)) :
  match dict_get "extra_dejson" fields with
  | Some dejson =>
      match json_dumps dejson with
      | inl e => normalize_extra fields = inl e
      | inr text =>
          normalize_extra fields
          = inr (dict_del "extra_dejson"
                   (dict_set "extra" (VStr text) fields))
      end
  | None => normalize_extra fields = inr fields
  end.
Proof.
  unfold normalize_extra. destruct (dict_get "extra_dejson" fields);
    [|reflexivity].
  destruct (json_dumps v); reflexivity.
Qed.

Lemma normalize_extra_other (fields fields1 : list (string * value))
  (k : string) :
  normalize_extra fields = inr fields1 ->
  k <> "extra" -> k <> "extra_dejson" ->
  dict_get k fields1 = dict_get k fields.
Proof.
  intros Hn He Hd. unfold normalize_extra in Hn.
  destruct (dict_get "extra_dejson" fields); [|congruence].
  destruct (json_dumps v); [discriminate|]. injection Hn as <-.
  rewrite dict_get_del_ne by congruence. apply dict_get_set_ne. congruence.
Qed.

Lemma normalize_extra_conn_id (fields fields1 : list (string * value)) :
  normalize_extra fields = inr fields1 ->
  dict_get "conn_id" fields1 = dict_get "conn_id" fields.
Proof.
  intros Hn. apply (normalize_extra_other _ _ _ Hn); discriminate.
Qed.

Lemma normalize_extra_dejson (fields fields1 : list (string * value)) :
  normalize_extra fields = inr fields1 ->
  dict_get "extra_dejson" fields1 = None.
Proof.
  unfold normalize_extra.
  destruct (dict_get "extra_dejson" fields) eqn:Hd; [|congruence].
  destruct (json_dumps v); [discriminate|]. intros Hn. injection Hn as <-.
  apply dict_get_del_eq.
Qed.

Lemma normalize_extra_extra (fields fields1 : list (string * value)) :
  normalize_extra fields = inr fields1 ->
  match dict_get "extra_dejson" fields with
  | Some dejson =>
      exists text,
        json_dumps dejson = inr text
        /\ dict_get "extra" fields1 = Some (VStr text)
  | None => dict_get "extra" fields1 = dict_get "extra" fields
  end.
Proof.
  unfold normalize_extra.
  destruct (dict_get "extra_dejson" fields); [|congruence].
  destruct (json_dumps v) as [e|text]; [discriminate|].
  intros Hn. injection Hn as <-. exists text. split; [reflexivity|].
  rewrite dict_get_del_ne by discriminate. apply dict_get_set_eq.
Qed.

(** The object branch by the outcome of its tests; the subscript
    [value["conn_id"]] never raises. *)
Lemma create_connection_object_cases (conn_id : string)
  (fields : list (string * value)) :
  create_connection_object conn_id fields =
    let allowed : gset string :=
      get_connection_parameter_names ∪ {["extra_dejson"]} in
    let keys : gset string := list_to_set (dict_keys fields) in
    if bool_decide (keys ⊆ allowed) then
      if (dict_in "extra" fields && dict_in "extra_dejson" fields)%bool then
        (inl (AirflowException
                [Lit "The extra and extra_dejson parameters are mutually exclusive. Please provide only one parameter."]),
         fields)
      else
        match normalize_extra fields with
        | inl e => (inl e, fields)
        | inr fields1 =>
            let kwargs := dict_set "conn_id" (VStr conn_id) fields1 in
            match dict_get "conn_id" fields with
            | Some declared =>
                if str_ne conn_id declared then
                  (inl (AirflowException
                          [Lit "Mismatch conn_id. ";
                           Lit "The dictionary key has the value: ";
                           FValue declared;
                           Lit ". The item has the value: "; FStr conn_id;
                           Lit "."]),
                   fields1)
                else (Connection kwargs, kwargs)
            | None => (Connection kwargs, kwargs)
            end
        end
    else
      (inl (AirflowException
              [Lit "The object have illegal keys: ";
               FJoinSet ", " (keys ∖ allowed);
               Lit ". The dictionary can only contain the following keys: ";
               FStrSet allowed]),
       fields).
Proof.
  unfold create_connection_object. cbv zeta.
  destruct (bool_decide _); cbn [negb]; [|reflexivity].
  destruct (dict_in "extra" fields && dict_in "extra_dejson" fields)%bool;
    [reflexivity|].
  destruct (normalize_extra fields) as [e|fields1] eqn:Hn; [reflexivity|].
  rewrite (normalize_extra_conn_id _ _ Hn).
  case_bool_decide as Hin.
  - rewrite elem_of_list_to_set in Hin. apply dict_keys_get in Hin.
    destruct (dict_get "conn_id" fields); [reflexivity | congruence].
  - rewrite elem_of_list_to_set in Hin.
    apply dict_get_None_keys in Hin. now rewrite Hin.
Qed.

Lemma str_keyed_None (items : list (value * value)) :
  str_keyed items = None <->
  exists k v, (k, v) ∈ items /\ type_of k <> TStr.
Proof.
  induction items as [|[k v] items IH].
  - split; [discriminate|]. intros (k & v & Hin & _). inversion Hin.
  - cbn [str_keyed].
    assert (Hlater : (exists k' v', (k', v') ∈ items /\ type_of k' <> TStr) ->
                     exists k' v',
                       (k', v') ∈ (k, v) :: items /\ type_of k' <> TStr).
    { intros (k' & v' & Hin & Hty). exists k', v'.
      split; [now right | assumption]. }
    destruct k as [| | | |key| | | | |];
      try (split; [intros _; eexists _, v; split; [left | discriminate]
                  | reflexivity]).
    destruct (str_keyed items) as [fields|].
    + split; [discriminate|]. intros (k' & v' & Hin & Hty).
      apply elem_of_cons in Hin as [Heq|Hin].
      * injection Heq as -> _. now cbn in Hty.
      * assert (Hbad : Some fields = None) by (apply IH; eauto).
        discriminate.
    + split; [|reflexivity]. intros _. apply Hlater. now apply IH.
Qed.


(** *** Variable resolver *)

Lemma invalid_keys_of_cons (key : string) (values : value)
  (rest : list (string * value)) :
  invalid_keys_of ((key, values) :: rest) =
    if is_invalid values then key :: invalid_keys_of rest
    else invalid_keys_of rest.
Proof.
  unfold invalid_keys_of. simpl. destruct (is_invalid values); reflexivity.
Qed.

Lemma invalid_keys_of_spec (secrets : list (string * value)) (key : string) :
  key ∈ invalid_keys_of secrets <->
  exists items, (key, VList items) ∈ secrets /\ length items <> 1%nat.
Proof.
  induction secrets as [|[k v] rest IH].
  - split; [intros Hin; inversion Hin|].
    intros (items & Hin & _). inversion Hin.
  - rewrite invalid_keys_of_cons. split.
    + intros Hin.
      assert (Hcase : (is_invalid v = true /\ key = k)
                      \/ key ∈ invalid_keys_of rest).
      { destruct (is_invalid v); [|now right].
        apply elem_of_cons in Hin as [->|Hin]; [left|right]; auto. }
      destruct Hcase as [[Hinv ->]|Hin'].
      * destruct v; try discriminate. exists items. split; [left|].
        simpl in Hinv. apply negb_true_iff, Nat.eqb_neq in Hinv. exact Hinv.
      * apply IH in Hin' as (items & Hin' & Hlen).
        exists items. split; [now right | exact Hlen].
    + intros (items & Hin & Hlen).
      apply elem_of_cons in Hin as [Heq|Hin].
      * injection Heq as Hk Hv. subst k v. simpl.
        apply Nat.eqb_neq in Hlen. rewrite Hlen. simpl. left.
      * assert (key ∈ invalid_keys_of rest) by (apply IH; eauto).
        destruct (is_invalid v); [now right | assumption].
Qed.

Lemma unwrap_all_valid (secrets : list (string * value)) :
  invalid_keys_of secrets = [] ->
  unwrap_all secrets =
    inr (map (fun '(key, values) => (key, unwrap_singleton values)) secrets).
Proof.
  induction secrets as [|[k v] rest IH]; [reflexivity|].
  rewrite invalid_keys_of_cons.
  destruct (is_invalid v) eqn:Hinv; [discriminate|].
  intros Hrest. simpl. rewrite (IH Hrest).
  destruct v as [| | | | |items| | | |]; try reflexivity.
  destruct items as [|x [|y items]]; simpl in Hinv; try discriminate.
  reflexivity.
Qed.

Lemma load_variables_invalid (file_path : string)
  (secrets : list (string * value)) (tr : list fs_event) :
  run (_parse_secret_file file_path) = (inr secrets, tr) ->
  invalid_keys_of secrets <> [] ->
  run (load_variables file_path) =
    (inl (AirflowException
            [Lit ("The " ++ dquote); FStr file_path;
             Lit (dquote ++ " file contains multiple values for keys: ");
             FStrList (invalid_keys_of secrets)]), tr).
Proof.
  intros Hparse Hinv. unfold run, load_variables, bind in *. rewrite Hparse.
  destruct (invalid_keys_of secrets); [congruence | reflexivity].
Qed.

Lemma load_variables_valid (file_path : string)
  (secrets : list (string * value)) (tr : list fs_event) :
  run (_parse_secret_file file_path) = (inr secrets, tr) ->
  invalid_keys_of secrets = [] ->
  run (load_variables file_path) =
    (inr (map (fun '(key, values) => (key, unwrap_singleton values)) secrets),
     tr).
Proof.
  intros Hparse Hinv. unfold run, load_variables, bind in *. rewrite Hparse.
  rewrite Hinv. unfold lift. now rewrite unwrap_all_valid.
Qed.

(** C3. The resolver [load_variables], on the map the dispatcher returned:
    when some key has a list value whose length is not 1, it raises the
    multiple-values error carrying the file path and every such key (and
    only those: a value that is not a list is never checked); otherwise it
    returns the map with every singleton list replaced by its element and
    every other value as it is. The dotenv content [A=1], [A=2] fails
    naming [A]; the JSON content [{"A":"1"}] resolves to [A] mapped to
    the string 1. *)
Theorem load_variables_cases :
  (forall file_path secrets tr,
      run (_parse_secret_file file_path) = (inr secrets, tr) ->
      (forall key,
          key ∈ invalid_keys_of secrets <->
          exists items, (key, VList items) ∈ secrets /\ length items <> 1%nat)
      /\ (invalid_keys_of secrets <> [] ->
          run (load_variables file_path) =
            (inl (AirflowException
                    [Lit ("The " ++ dquote); FStr file_path;
                     Lit (dquote ++ " file contains multiple values for keys: ");
                     FStrList (invalid_keys_of secrets)]), tr))
      /\ (invalid_keys_of secrets = [] ->
          run (load_variables file_path) =
            (inr (map (fun '(key, values) => (key, unwrap_singleton values))
                      secrets), tr)))
  /\ (forall file_path,
         fs file_path = Some (RegularFile dotenv_A1_A2) ->
         extension file_path = "env" ->
         COMMENT_PATTERN "A=1" = false ->
         COMMENT_PATTERN "A=2" = false ->
         result (load_variables file_path) =
           inl (AirflowException
                  [Lit ("The " ++ dquote); FStr file_path;
                   Lit (dquote ++ " file contains multiple values for keys: ");
                   FStrList ["A"]]))
  /\ (forall file_path,
         fs file_path = Some (RegularFile json_A1) ->
         extension file_path = "json" ->
         json_loads json_A1 = JsonValue (VDict [("A", VStr "1")]) ->
         result (load_variables file_path) = inr [("A", VStr "1")]).
Proof.
  split; [|split].
  - intros file_path secrets tr Hparse.
    split; [intros key; apply invalid_keys_of_spec|].
    split; intros Hinv.
    + now apply load_variables_invalid.
    + now apply load_variables_valid.
  - intros file_path Hfs Hext Hc1 Hc2.
    unfold result, run, load_variables, _parse_secret_file, bind, path_exists.
    rewrite Hfs, Hext. simpl. rewrite FILE_PARSERS_lookup. simpl.
    unfold _parse_env_file, bind, read_file. rewrite Hfs.
    unfold parse_env_content.
    change (splitlines dotenv_A1_A2) with ["A=1"; "A=2"].
    simpl. rewrite Hc1. simpl. rewrite Hc2. reflexivity.
  - intros file_path Hfs Hext Hjson.
    unfold result, run, load_variables, _parse_secret_file, bind, path_exists.
    rewrite Hfs, Hext. simpl. rewrite FILE_PARSERS_lookup. simpl.
    unfold _parse_json_file, bind, read_file. rewrite Hfs.
    unfold ret, parse_json_content. rewrite Hjson. reflexivity.
Qed.

(** *** Objects held at several places *)

Lemma value_induction (P : value -> Prop) :
  P VNone ->
  (forall b, P (VBool b)) ->
  (forall n, P (VInt n)) ->
  (forall bits, P (VFloat bits)) ->
  (forall s, P (VStr s)) ->
  (forall items, Forall P items -> P (VList items)) ->
  (forall items, Forall (fun entry => P (snd entry)) items -> P (VDict items)) ->
  (forall id items,
      Forall (fun entry => P (snd entry)) items -> P (VShared id items)) ->
  (forall items,
      Forall (fun entry => P (snd entry)) items -> P (VMapping items)) ->
  (forall type_name, P (VOther type_name)) ->
  forall v, P v.
Proof.
  intros HNone HBool HInt HFloat HStr HList HDict HShared HMapping HOther.
  fix IH 1. intros [|b|n|bits|s|items|items|id items|items|type_name].
  - exact HNone.
  - apply HBool.
  - apply HInt.
  - apply HFloat.
  - apply HStr.
  - apply HList. induction items as [|x items IHitems]; constructor;
      [apply IH | exact IHitems].
  - apply HDict. induction items as [|[k x] items IHitems]; constructor;
      [apply IH | exact IHitems].
  - apply HShared. induction items as [|[k x] items IHitems]; constructor;
      [apply IH | exact IHitems].
  - apply HMapping. induction items as [|[k x] items IHitems]; constructor;
      [apply IH | exact IHitems].
  - apply HOther.
Qed.

Lemma subst_type (n : nat) (new : list (string * value)) (v : value) :
  type_of (subst n new v) = type_of v.
Proof.
  destruct v as [| | | | | | |m items| |]; try reflexivity.
  cbn. now destruct (Nat.eqb m n).
Qed.

Lemma map_entries_unchanged {K} (f : value -> value)
  (items : list (K * value)) :
  Forall (fun entry => f (snd entry) = snd entry) items ->
  map (fun '(k, x) => (k, f x)) items = items.
Proof.
  induction 1 as [|[k x] items Hx _ IH]; [reflexivity|].
  cbn in *. now rewrite Hx, IH.
Qed.

(** A value no part of which is held at several places is not touched by
    any write. *)
Lemma subst_unshared (n : nat) (new : list (string * value)) (v : value) :
  unshared v = true -> subst n new v = v.
Proof.
  induction v as [| | | | |items IH|items IH|id items IH|items IH|]
    using value_induction; try reflexivity; cbn [unshared subst];
    intros Hun.
  - f_equal. induction IH as [|x items Hx _ IHitems]; [reflexivity|].
    cbn in Hun. apply andb_true_iff in Hun as [Hux Huitems].
    cbn. now rewrite Hx, IHitems.
  - f_equal. apply map_entries_unchanged.
    induction IH as [|[k x] items Hx _ IHitems]; constructor;
      cbn in Hun; apply andb_true_iff in Hun as [Hux Huitems]; auto.
  - discriminate.
  - f_equal. apply map_entries_unchanged.
    induction IH as [|[k x] items Hx _ IHitems]; constructor;
      cbn in Hun; apply andb_true_iff in Hun as [Hux Huitems]; auto.
Qed.

Lemma current_cons (x : nat * list (string * value)) (w : writes)
  (v : value) :
  current (x :: w) v = current w (subst (fst x) (snd x) v).
Proof. reflexivity. Qed.

Lemma current_app (w1 w2 : writes) (v : value) :
  current (w1 ++ w2)%list v = current w2 (current w1 v).
Proof. apply fold_left_app. Qed.

Lemma current_type (w : writes) (v : value) :
  type_of (current w v) = type_of v.
Proof.
  revert v. induction w as [|x w IH]; intros v; [reflexivity|].
  rewrite current_cons, IH. apply subst_type.
Qed.

Lemma current_unshared (w : writes) (v : value) :
  unshared v = true -> current w v = v.
Proof.
  intros Hun. induction w as [|x w IH]; [reflexivity|].
  now rewrite current_cons, subst_unshared.
Qed.

Lemma current_VList (w : writes) (items : list value) :
  current w (VList items) = VList (map (current w) items).
Proof.
  revert items. induction w as [|x w IH]; intros items.
  - cbn. now rewrite List.map_id.
  - rewrite current_cons. cbn [subst]. rewrite IH, map_map. reflexivity.
Qed.


(** *** Connection resolver *)

(** One turn of the loop, by the shape of the value under the key. *)
Lemma connections_loop_from_step (file_path key : string) (v : value)
  (rest : list (string * value)) (acc : list (string * Conn)) (w : writes) :
  connections_loop_from file_path ((key, v) :: rest) acc w =
    match v with
    | VList [] => connections_loop_from file_path rest acc w
    | VList (_ :: _ :: _) =>
        inl (ConnectionNotUnique
               [Lit "Found multiple values for "; FStr key; Lit " in ";
                FStr file_path; Lit "."])
    | _ =>
        match _create_connection key (current w (unwrap_singleton v)) with
        | inl e => inl e
        | inr c =>
            connections_loop_from file_path rest (dict_set key c acc)
              (w ++ written_by key (current w (unwrap_singleton v)))%list
        end
    end.
Proof.
  cbn [connections_loop_from].
  destruct v as [| | | | |values| | | |]; cbv zeta; cbn [unwrap_singleton];
    try reflexivity.
  destruct values as [|x [|y values]]; cbn; [reflexivity | | reflexivity].
  now destruct (_create_connection key (current w x)).
Qed.

(** The three shapes of a value under a key: the empty list, a list of
    more than one element, and a value that goes to the builder, itself or
    as the single element of a list. *)
Lemma secret_value_shapes (v : value) :
  v = VList []
  \/ (exists x y values, v = VList (x :: y :: values))
  \/ (is_empty_list v = false
      /\ (forall values, v = VList values -> length values = 1%nat)
      /\ forall file_path key rest acc w,
          connections_loop_from file_path ((key, v) :: rest) acc w =
            match _create_connection key (current w (unwrap_singleton v)) with
            | inl e => inl e
            | inr c =>
                connections_loop_from file_path rest (dict_set key c acc)
                  (w ++ written_by key
                          (current w (unwrap_singleton v)))%list
            end).
Proof.
  destruct v as [| | | | |values| | | |];
    try (right; right; split; [reflexivity|]; split; [discriminate|];
         intros; now rewrite connections_loop_from_step).
  destruct values as [|x [|y values]]; [now left | | right; left; eauto].
  right; right. split; [reflexivity|].
  split; [intros values Hv; now injection Hv as <-|].
  intros. now rewrite connections_loop_from_step.
Qed.

Lemma connections_loop_from_app (file_path : string)
  (pre post : list (string * value)) :
  forall (acc0 : list (string * Conn)) (w0 : writes),
    connections_loop_from file_path (pre ++ post)%list acc0 w0 =
      match connections_loop_from file_path pre acc0 w0 with
      | inl e => inl e
      | inr (acc, w) => connections_loop_from file_path post acc w
      end.
Proof.
  induction pre as [|[key v] pre IH]; intros acc0 w0; [reflexivity|].
  cbn [app].
  destruct (secret_value_shapes v)
    as [-> | [(x & y & values & ->) | (_ & _ & Hstep)]].
  - rewrite !connections_loop_from_step. apply IH.
  - now rewrite !connections_loop_from_step.
  - rewrite !Hstep.
    destruct (_create_connection key _); [reflexivity | apply IH].
Qed.

(** A turn that does not raise: an empty list changes nothing, anything
    else stores one connection under the key. *)
Lemma connections_loop_from_turn (file_path key : string) (v : value)
  (items : list (string * value)) (acc result : list (string * Conn))
  (w w' : writes) :
  connections_loop_from file_path ((key, v) :: items) acc w
  = inr (result, w') ->
  exists acc1 w1,
    connections_loop_from file_path items acc1 w1 = inr (result, w')
    /\ if is_empty_list v then acc1 = acc /\ w1 = w
       else (forall values, v = VList values -> length values = 1%nat)
            /\ exists c,
                _create_connection key (current w (unwrap_singleton v))
                = inr c
                /\ acc1 = dict_set key c acc
                /\ w1 = (w ++ written_by key
                                (current w (unwrap_singleton v)))%list.
Proof.
  destruct (secret_value_shapes v)
    as [-> | [(x & y & values & ->) | (Hne & Hlen & Hstep)]].
  - rewrite connections_loop_from_step. intros Hloop.
    exists acc, w. split; [exact Hloop | split; reflexivity].
  - rewrite connections_loop_from_step. discriminate.
  - rewrite Hstep, Hne.
    destruct (_create_connection key _) as [e|c]; [discriminate|].
    intros Hloop. eexists _, _. split; [exact Hloop|].
    split; [exact Hlen|]. exists c. auto.
Qed.


(** Where the loop raises: at the first key, in the order of the map, whose
    value is a list of more than one element or is refused by the builder
    as the writes so far have left it. *)
Lemma connections_loop_from_failure (file_path : string)
  (items : list (string * value)) :
  forall (acc0 : list (string * Conn)) (w0 : writes) (e : exn),
    connections_loop_from file_path items acc0 w0 = inl e ->
    exists pre key v post acc w,
      items = (pre ++ (key, v) :: post)%list
      /\ connections_loop_from file_path pre acc0 w0 = inr (acc, w)
      /\ ((exists values,
              v = VList values /\ (1 < length values)%nat
              /\ e = ConnectionNotUnique
                       [Lit "Found multiple values for "; FStr key;
                        Lit " in "; FStr file_path; Lit "."])
          \/ (is_empty_list v = false
              /\ (forall values, v = VList values -> length values = 1%nat)
              /\ _create_connection key (current w (unwrap_singleton v))
                 = inl e)).
Proof.
  induction items as [|[k v] items IH]; intros acc0 w0 e Hloop;
    [discriminate|].
  assert (Hlater : forall acc1 w1,
             connections_loop_from file_path [(k, v)] acc0 w0
             = inr (acc1, w1) ->
             connections_loop_from file_path items acc1 w1 = inl e ->
             exists pre key v0 post acc w,
               (k, v) :: items = (pre ++ (key, v0) :: post)%list
               /\ connections_loop_from file_path pre acc0 w0 = inr (acc, w)
               /\ ((exists values,
                       v0 = VList values /\ (1 < length values)%nat
                       /\ e = ConnectionNotUnique
                                [Lit "Found multiple values for "; FStr key;
                                 Lit " in "; FStr file_path; Lit "."])
                   \/ (is_empty_list v0 = false
                       /\ (forall values,
                              v0 = VList values -> length values = 1%nat)
                       /\ _create_connection key
                            (current w (unwrap_singleton v0)) = inl e))).
  { intros acc1 w1 Hhead Hrest.
    destruct (IH acc1 w1 e Hrest)
      as (pre & key & v0 & post & acc & w & -> & Hpre & Hcase).
    exists ((k, v) :: pre), key, v0, post, acc, w.
    split; [reflexivity|]. split; [|exact Hcase].
    change ((k, v) :: pre) with ([(k, v)] ++ pre)%list.
    now rewrite connections_loop_from_app, Hhead. }
  destruct (secret_value_shapes v)
    as [-> | [(x & y & values & ->) | (Hne & Hlen & Hstep)]].
  - rewrite connections_loop_from_step in Hloop.
    apply (Hlater acc0 w0); [reflexivity | exact Hloop].
  - rewrite connections_loop_from_step in Hloop. injection Hloop as <-.
    exists [], k, (VList (x :: y :: values)), items, acc0, w0.
    split; [reflexivity|]. split; [reflexivity|].
    left. exists (x :: y :: values). repeat split. cbn. lia.
  - rewrite Hstep in Hloop.
    pose proof (Hstep file_path k [] acc0 w0) as Hone.
    destruct (_create_connection k (current w0 (unwrap_singleton v)))
      as [e'|c] eqn:Hc.
    + injection Hloop as <-. exists [], k, v, items, acc0, w0.
      split; [reflexivity|]. split; [reflexivity|]. right. auto.
    + exact (Hlater _ _ Hone Hloop).
Qed.

Lemma load_connections_dict_run (file_path : string)
  (secrets : list (string * value)) (tr : list fs_event) :
  run (_parse_secret_file file_path) = (inr secrets, tr) ->
  run (load_connections_dict file_path) =
    (connections_loop file_path secrets [], tr).
Proof.
  unfold run, load_connections_dict, bind, lift. now intros ->.
Qed.

Lemma connections_loop_inversion (file_path : string)
  (items : list (string * value)) (acc result : list (string * Conn)) :
  connections_loop file_path items acc = inr result ->
  exists w, connections_loop_from file_path items acc [] = inr (result, w).
Proof.
  unfold connections_loop.
  destruct (connections_loop_from file_path items acc [])
    as [e|[connections w]]; [discriminate|].
  intros Heq. injection Heq as <-. now exists w.
Qed.

Lemma object_kwargs_keys (conn_id : string)
  (fields kwargs : list (string * value)) (k : string) :
  object_kwargs conn_id fields = inr kwargs ->
  k ∈ dict_keys kwargs ->
  k = "conn_id" \/ k = "extra"
  \/ (k ∈ dict_keys fields /\ k <> "extra_dejson").
Proof.
  unfold object_kwargs.
  destruct (normalize_extra fields) as [e|fields1] eqn:Hn; [discriminate|].
  intros Heq Hk. injection Heq as <-.
  destruct (decide (k = "conn_id")) as [|Hc]; [now left|].
  destruct (decide (k = "extra")) as [|He]; [right; now left|].
  right. right. apply dict_keys_get in Hk.
  rewrite dict_get_set_ne in Hk by congruence.
  destruct (decide (k = "extra_dejson")) as [->|Hd].
  - now rewrite (normalize_extra_dejson _ _ Hn) in Hk.
  - rewrite (normalize_extra_other _ _ _ Hn) in Hk by assumption.
    split; [now apply dict_keys_get | assumption].
Qed.



Lemma connections_loop_skip_empty (file_path : string)
  (pre post : list (string * value)) (key : string)
  (acc0 : list (string * Conn)) :
  connections_loop file_path (pre ++ (key, VList []) :: post)%list acc0 =
    connections_loop file_path (pre ++ post)%list acc0.
Proof.
  unfold connections_loop. rewrite !connections_loop_from_app.
  destruct (connections_loop_from file_path pre acc0 []) as [e|[acc w]];
    [reflexivity|].
  now rewrite connections_loop_from_step.
Qed.

Lemma connections_loop_from_keys (file_path : string)
  (items : list (string * value)) :
  forall (acc result : list (string * Conn)) (w w' : writes),
    NoDup (dict_keys items) ->
    (forall k, k ∈ dict_keys items -> k ∉ dict_keys acc) ->
    connections_loop_from file_path items acc w = inr (result, w') ->
    dict_keys result
    = (dict_keys acc
       ++ dict_keys (List.filter
                       (fun entry => negb (is_empty_list (snd entry))) items))%list.
Proof.
  induction items as [|[k v] items IH]; intros acc result w w' Hnd Hout Hloop.
  - cbn in Hloop. injection Hloop as <- _. cbn. now rewrite app_nil_r.
  - cbn [dict_keys map fst] in Hnd. apply NoDup_cons in Hnd as [Hk Hnd].
    apply connections_loop_from_turn in Hloop as (acc1 & w1 & Hloop & Hacc1).
    cbn [List.filter snd].
    destruct (is_empty_list v); cbn [negb].
    + destruct Hacc1 as [-> ->]. apply (IH acc result w w' Hnd); [|assumption].
      intros k' Hk'. apply Hout. now right.
    + destruct Hacc1 as (_ & c & _ & -> & ->).
      rewrite dict_set_new in Hloop by (apply Hout; left).
      assert (Hout' : forall k', k' ∈ dict_keys items ->
                                  k' ∉ dict_keys (acc ++ [(k, c)])%list).
      { intros k' Hk'. unfold dict_keys. rewrite map_app.
        intros Hin. apply elem_of_app in Hin as [Hin|Hin].
        - apply (Hout k'); [now right | assumption].
        - apply list_elem_of_singleton in Hin. cbn in Hin. subst k'.
          exact (Hk Hk'). }
      rewrite (IH (acc ++ [(k, c)])%list result _ w' Hnd Hout' Hloop).
      unfold dict_keys. rewrite map_app, <- app_assoc. reflexivity.
Qed.


(** *** Empty lists *)

(** C10, as amended. A key whose value is an empty list raises nothing in
    [load_connections_dict] and no connection is built for it: the loop
    runs as on the map without that entry, so it returns a mapping exactly
    when the other entries build, and that mapping does not hold the key;
    [load_variables] on a map with such a key raises its multiple-values
    error naming the key. For the JSON content [{"a": []}] the first
    returns the empty mapping and the second raises. *)
Theorem empty_list_value (file_path : string) :
  (forall pre key post acc0,
      connections_loop file_path (pre ++ (key, VList []) :: post)%list acc0 =
        connections_loop file_path (pre ++ post)%list acc0)
  /\ (forall secrets key result,
         NoDup (dict_keys secrets) ->
         (key, VList []) ∈ secrets ->
         connections_loop file_path secrets [] = inr result ->
         dict_get key result = None)
  /\ (forall secrets tr key,
         run (_parse_secret_file file_path) = (inr secrets, tr) ->
         (key, VList []) ∈ secrets ->
         key ∈ invalid_keys_of secrets
         /\ run (load_variables file_path) =
              (inl (AirflowException
                      [Lit ("The " ++ dquote); FStr file_path;
                       Lit (dquote ++ " file contains multiple values for keys: ");
                       FStrList (invalid_keys_of secrets)]), tr))
  /\ (fs file_path = Some (RegularFile json_a_empty) ->
      extension file_path = "json" ->
      json_loads json_a_empty = JsonValue (VDict [("a", VList [])]) ->
      result (load_connections_dict file_path) = inr []
      /\ result (load_variables file_path) =
           inl (AirflowException
                  [Lit ("The " ++ dquote); FStr file_path;
                   Lit (dquote ++ " file contains multiple values for keys: ");
                   FStrList ["a"]])).
Proof.
  split; [intros; apply connections_loop_skip_empty|].
  split; [|split].
  - intros secrets key result Hnd Hin Hloop.
    apply connections_loop_inversion in Hloop as [w Hloop].
    apply connections_loop_from_keys in Hloop; [|assumption|].
    2:{ intros k _ Hk. inversion Hk. }
    apply dict_get_None_keys. rewrite Hloop. cbn [dict_keys map app].
    intros Hkey. apply list_elem_of_fmap in Hkey as ([k v] & -> & Hkey).
    apply list_elem_of_In, filter_In in Hkey as [Hkey Hne].
    apply list_elem_of_In in Hkey. cbn [fst snd] in *.
    apply (dict_get_elem _ _ _ Hnd) in Hkey.
    rewrite (dict_get_elem _ _ _ Hnd Hin) in Hkey.
    injection Hkey as <-. discriminate.
  - intros secrets tr key Hparse Hin.
    assert (Hkey : key ∈ invalid_keys_of secrets).
    { apply invalid_keys_of_spec. exists []. split; [assumption | discriminate]. }
    split; [assumption|].
    apply load_variables_invalid; [assumption|].
    intros Hnil. rewrite Hnil in Hkey. inversion Hkey.
  - intros Hfs Hext Hjson.
    assert (Hparse : run (_parse_secret_file file_path) =
                       (inr [("a", VList [])],
                        [EvExists file_path; EvOpen file_path])).
    { unfold run, _parse_secret_file, bind, path_exists.
      rewrite Hfs, Hext. simpl. rewrite FILE_PARSERS_lookup. simpl.
      unfold _parse_json_file, bind, read_file. rewrite Hfs.
      unfold ret, parse_json_content. rewrite Hjson. reflexivity. }
    unfold result. split.
    + now rewrite (load_connections_dict_run _ _ _ Hparse).
    + unfold run, load_variables, bind in *. now rewrite Hparse.
Qed.

(** *** Dotenv parser *)

Lemma partition_no_sep (sep : ascii) (s : string) :
  ~ In sep (list_ascii_of_string s) ->
  partition sep s = (s, EmptyString, EmptyString).
Proof.
  induction s as [|c s IH]; simpl; [reflexivity|].
  intros Hnot. destruct (Ascii.eqb_spec c sep) as [->|Hne].
  - exfalso. apply Hnot. now left.
  - rewrite IH; [reflexivity|]. intros Hin. apply Hnot. now right.
Qed.

Lemma partition_at_sep (sep : ascii) (key value : string) :
  ~ In sep (list_ascii_of_string key) ->
  partition sep (key ++ String sep value) = (key, String sep EmptyString, value).
Proof.
  induction key as [|c key IH]; simpl.
  - now rewrite Ascii.eqb_refl.
  - intros Hnot. destruct (Ascii.eqb_spec c sep) as [->|Hne].
    + exfalso. apply Hnot. now left.
    + rewrite IH; [reflexivity|]. intros Hin. apply Hnot. now right.
Qed.

Lemma env_step_eq (secrets : list (string * list string))
  (errors : list FileSyntaxError) (n : Z) (line : string) :
  env_step (secrets, errors) n line =
    (match line_pair line with
     | Some (key, value) => dict_append key value secrets
     | None => secrets
     end,
     (errors ++ line_errors n line)%list).
Proof.
  unfold env_step, line_pair, line_errors, ignored.
  destruct (is_empty line); simpl; [now rewrite app_nil_r|].
  destruct (COMMENT_PATTERN line); simpl; [now rewrite app_nil_r|].
  destruct (partition "=" line) as [[key sep] value].
  destruct (is_empty sep); [reflexivity|].
  destruct (is_empty value); [reflexivity | now rewrite app_nil_r].
Qed.

Lemma env_loop_eq (lines : list string) :
  forall n secrets errors,
    env_loop n lines (secrets, errors) =
      (record_all (omap line_pair lines) secrets,
       (errors ++ errors_from n lines)%list).
Proof.
  induction lines as [|line rest IH]; intros n secrets errors.
  - simpl. now rewrite app_nil_r.
  - cbn [env_loop errors_from]. rewrite env_step_eq, IH, <- app_assoc.
    change (omap line_pair (line :: rest)) with
      (match line_pair line with
       | Some p => p :: omap line_pair rest
       | None => omap line_pair rest
       end).
    destruct (line_pair line) as [[key value]|]; reflexivity.
Qed.

Lemma parse_env_content_eq (content : string) :
  parse_env_content content =
    (record_all (omap line_pair (splitlines content)) [],
     errors_from 1 (splitlines content)).
Proof.
  unfold parse_env_content. now rewrite env_loop_eq.
Qed.

Lemma line_errors_line_no (n : Z) (line : string) (e : FileSyntaxError) :
  In e (line_errors n line) -> line_no e = n.
Proof.
  unfold line_errors. destruct (ignored line); [intros []|].
  destruct (partition "=" line) as [[key sep] value].
  destruct (is_empty sep); [intros [<-|[]]; reflexivity|].
  destruct (is_empty value); [intros [<-|[]]; reflexivity | intros []].
Qed.

Lemma errors_from_ge (lines : list string) :
  forall m e, In e (errors_from m lines) -> m <= line_no e.
Proof.
  induction lines as [|line rest IH]; intros m e; simpl; [intros []|].
  rewrite in_app_iff. intros [Hin|Hin].
  - apply line_errors_line_no in Hin. lia.
  - apply IH in Hin. lia.
Qed.

Lemma errors_at_all (n : Z) (errors : list FileSyntaxError) :
  (forall e, In e errors -> line_no e = n) -> errors_at n errors = errors.
Proof.
  induction errors as [|e errors IH]; intros Hall; [reflexivity|].
  unfold errors_at in *. simpl.
  rewrite (Hall e (or_introl eq_refl)), Z.eqb_refl, IH; [reflexivity|].
  intros e' Hin. apply Hall. now right.
Qed.

Lemma errors_at_none (n : Z) (errors : list FileSyntaxError) :
  (forall e, In e errors -> line_no e <> n) -> errors_at n errors = [].
Proof.
  induction errors as [|e errors IH]; intros Hall; [reflexivity|].
  unfold errors_at in *. simpl.
  destruct (Z.eqb_spec (line_no e) n) as [Heq|_].
  - exfalso. apply (Hall e); [now left | assumption].
  - apply IH. intros e' Hin. apply Hall. now right.
Qed.

Lemma errors_at_app (n : Z) (l1 l2 : list FileSyntaxError) :
  errors_at n (l1 ++ l2)%list = (errors_at n l1 ++ errors_at n l2)%list.
Proof. apply List.filter_app. Qed.

(** The errors at the number of a line are the errors of that line. *)
Lemma errors_at_line (lines : list string) :
  forall m i line,
    lines !! i = Some line ->
    errors_at (m + Z.of_nat i) (errors_from m lines)
    = line_errors (m + Z.of_nat i) line.
Proof.
  induction lines as [|l0 rest IH]; intros m i line Hi; [discriminate|].
  cbn [errors_from]. rewrite errors_at_app. destruct i as [|i].
  - injection Hi as ->. rewrite Z.add_0_r.
    rewrite errors_at_all by apply line_errors_line_no.
    rewrite errors_at_none; [apply app_nil_r|].
    intros e Hin. apply errors_from_ge in Hin. lia.
  - rewrite errors_at_none.
    2:{ intros e Hin. apply line_errors_line_no in Hin. lia. }
    replace (m + Z.of_nat (S i)) with ((m + 1) + Z.of_nat i) by lia.
    now apply IH.
Qed.

Lemma line_ignored (n : Z) (line : string) :
  ignored line = true -> line_errors n line = [] /\ line_pair line = None.
Proof.
  unfold line_errors, line_pair. now intros ->.
Qed.

Lemma line_no_equal_sign (n : Z) (line : string) :
  ignored line = false -> no_equal_sign line ->
  line_errors n line = [mkFileSyntaxError n msg_no_equal_sign]
  /\ line_pair line = None.
Proof.
  unfold line_errors, line_pair, no_equal_sign. intros -> Hno.
  now rewrite partition_no_sep.
Qed.

Lemma line_key_value (n : Z) (key value : string) :
  ignored (key ++ String "=" value) = false ->
  ~ In "="%char (list_ascii_of_string key) ->
  line_errors n (key ++ String "=" value) =
    (if is_empty value then [mkFileSyntaxError n msg_key_empty] else [])
  /\ line_pair (key ++ String "=" value) = Some (key, value).
Proof.
  unfold line_errors, line_pair. intros -> Hno.
  now rewrite partition_at_sep.
Qed.

Lemma record_all_app (p1 p2 : list (string * string))
  (secrets : list (string * list string)) :
  record_all (p1 ++ p2)%list secrets = record_all p2 (record_all p1 secrets).
Proof.
  revert secrets. induction p1 as [|[k v] p1 IH]; intros secrets; simpl; auto.
Qed.

Lemma dict_get_append (key value k : string)
  (d : list (string * list string)) :
  dict_get k (dict_append key value d) =
    if String.eqb key k
    then Some (match dict_get k d with Some vs => vs | None => [] end
               ++ [value])%list
    else dict_get k d.
Proof.
  induction d as [|[k0 vs0] d IH]; simpl.
  - destruct (String.eqb key k); reflexivity.
  - destruct (String.eqb_spec k0 key) as [->|Hne]; simpl.
    + destruct (String.eqb key k); reflexivity.
    + rewrite IH. destruct (String.eqb_spec k0 k) as [->|Hne'];
        [|reflexivity].
      apply not_eq_sym, String.eqb_neq in Hne. now rewrite Hne.
Qed.

Lemma dict_get_record_all (k : string) (pairs : list (string * string)) :
  forall secrets,
    dict_get k (record_all pairs secrets) =
      match values_of k pairs with
      | [] => dict_get k secrets
      | vs => Some (match dict_get k secrets with Some vs0 => vs0 | None => [] end
                    ++ vs)%list
      end.
Proof.
  induction pairs as [|[key value] pairs IH]; intros secrets; [reflexivity|].
  cbn [record_all]. rewrite IH, dict_get_append.
  unfold values_of. cbn [List.filter fst].
  destruct (String.eqb key k); cbn [map snd].
  - destruct (map snd _); [reflexivity|]. now rewrite <- app_assoc.
  - reflexivity.
Qed.

Lemma values_for_app (key : string) (l1 l2 : list string) :
  values_for key (l1 ++ l2)%list
  = (values_for key l1 ++ values_for key l2)%list.
Proof.
  unfold values_for, values_of.
  now rewrite omap_app, List.filter_app, map_app.
Qed.

(** Under every key the dotenv map holds the values of its lines, in the
    order of the lines. *)
Lemma dotenv_secrets_get (content : string) (key : string) :
  dict_get key (fst (parse_env_content content)) =
    match values_for key (splitlines content) with
    | [] => None
    | vs => Some vs
    end.
Proof.
  rewrite parse_env_content_eq. cbn [fst]. now rewrite dict_get_record_all.
Qed.

Lemma record_all_nonempty (pairs : list (string * string)) :
  forall secrets,
    Forall (fun entry => snd entry <> []) secrets ->
    Forall (fun entry => snd entry <> []) (record_all pairs secrets).
Proof.
  induction pairs as [|[key value] pairs IH]; intros secrets Hall; [assumption|].
  apply IH. clear IH. induction Hall as [|[k vs] d Hvs Hall IHd]; simpl.
  - constructor; [discriminate | constructor].
  - destruct (String.eqb k key); constructor; try assumption.
    simpl. destruct vs; discriminate.
Qed.

(** What [_parse_env_file] returns for a file that reads as [content]. *)
Lemma parse_env_file_run (file_path content : string) (tr : list fs_event) :
  fs file_path = Some (RegularFile content) ->
  _parse_env_file file_path tr
  = (inr (as_raw (fst (parse_env_content content)),
          snd (parse_env_content content)),
     (tr ++ [EvOpen file_path])%list).
Proof.
  intros Hfs. unfold _parse_env_file, bind, read_file, ret. rewrite Hfs.
  now destruct (parse_env_content content).
Qed.

Lemma dict_get_as_raw (key : string) (secrets : list (string * list string)) :
  dict_get key (as_raw secrets)
  = option_map (fun values => VList (map VStr values)) (dict_get key secrets).
Proof.
  induction secrets as [|[k values] secrets IH]; [reflexivity|].
  cbn [as_raw map dict_get]. now destruct (String.eqb k key).
Qed.

Lemma errors_at_middle (l1 l2 : list string) (line : string) :
  errors_at (Z.of_nat (length l1) + 1)
    (errors_from 1 (l1 ++ line :: l2)%list)
  = line_errors (Z.of_nat (length l1) + 1) line.
Proof.
  rewrite Z.add_comm. apply errors_at_line. now apply list_lookup_middle.
Qed.

Lemma record_all_skip (l1 l2 : list string) (line : string) :
  line_pair line = None ->
  omap line_pair (l1 ++ line :: l2)%list = omap line_pair (l1 ++ l2)%list.
Proof.
  intros Hpair. rewrite !omap_app.
  change (omap line_pair (line :: l2)) with
    (match line_pair line with
     | Some p => p :: omap line_pair l2
     | None => omap line_pair l2
     end).
  now rewrite Hpair.
Qed.

(** C5, as amended. In every dotenv file, an empty line or a comment line
    leaves no error at its number and nothing in the map; a line that is
    neither and holds no equal sign (a line of white space that the comment
    pattern does not match is such a line) leaves exactly one error, the
    missing-equal-sign one, at its 1-based number, and nothing in the map;
    and the loop goes on with the lines after it, whatever the lines before
    it produced. This is what [_parse_env_file] returns for the file. *)
Theorem dotenv_skipped_lines (content : string) :
  (forall file_path tr,
      fs file_path = Some (RegularFile content) ->
      _parse_env_file file_path tr
      = (inr (as_raw (fst (parse_env_content content)),
              snd (parse_env_content content)),
         (tr ++ [EvOpen file_path])%list))
  /\ (forall file_path tr l1 line l2,
         fs file_path = Some (RegularFile content) ->
         splitlines content = (l1 ++ line :: l2)%list ->
         exists secrets errors,
           _parse_env_file file_path tr
           = (inr (secrets, errors), (tr ++ [EvOpen file_path])%list)
           /\ (ignored line = true ->
               errors_at (Z.of_nat (length l1) + 1) errors = [])
           /\ (ignored line = false ->
               no_equal_sign line ->
               errors_at (Z.of_nat (length l1) + 1) errors
               = [mkFileSyntaxError (Z.of_nat (length l1) + 1)
                    msg_no_equal_sign])
           /\ (ignored line = true \/ no_equal_sign line ->
               secrets
               = as_raw (fst (env_loop 1 (l1 ++ l2)%list ([], [])))))
  /\ (forall line,
         ignored line = true <->
         line = EmptyString \/ COMMENT_PATTERN line = true)
  /\ (forall i line,
         splitlines content !! i = Some line ->
         ignored line = true ->
         errors_at (Z.of_nat i + 1) (snd (parse_env_content content)) = [])
  /\ (forall i line,
         splitlines content !! i = Some line ->
         ignored line = false ->
         no_equal_sign line ->
         errors_at (Z.of_nat i + 1) (snd (parse_env_content content))
         = [mkFileSyntaxError (Z.of_nat i + 1) msg_no_equal_sign])
  /\ (forall l1 line l2,
         splitlines content = (l1 ++ line :: l2)%list ->
         ignored line = true \/ no_equal_sign line ->
         fst (parse_env_content content)
         = fst (env_loop 1 (l1 ++ l2)%list ([], [])))
  /\ (forall l1 l2,
         splitlines content = (l1 ++ l2)%list ->
         parse_env_content content
         = env_loop (1 + Z.of_nat (length l1)) l2 (env_loop 1 l1 ([], []))).
Proof.
  assert (Hskip : forall l1 line l2,
             splitlines content = (l1 ++ line :: l2)%list ->
             ignored line = true \/ no_equal_sign line ->
             fst (parse_env_content content)
             = fst (env_loop 1 (l1 ++ l2)%list ([], []))).
  { intros l1 line l2 Hlines Hline.
    assert (Hpair : line_pair line = None).
    { destruct (ignored line) eqn:Hign.
      - now apply (line_ignored 0).
      - destruct Hline as [Hline|Hline]; [discriminate|].
        now apply (line_no_equal_sign 0). }
    rewrite parse_env_content_eq, env_loop_eq, Hlines. cbn [fst].
    now rewrite (record_all_skip _ _ _ Hpair). }
  split; [intros; now apply parse_env_file_run|].
  split; [|split; [|split; [|split; [|split]]]].
  - intros file_path tr l1 line l2 Hfs Hlines.
    exists (as_raw (fst (parse_env_content content))),
      (snd (parse_env_content content)).
    split; [now apply parse_env_file_run|].
    rewrite parse_env_content_eq, Hlines. cbn [snd].
    rewrite errors_at_middle.
    split; [intros Hign; now apply line_ignored|].
    split; [intros Hign Hno; now apply line_no_equal_sign|].
    intros Hline. rewrite <- Hlines, <- parse_env_content_eq.
    f_equal. now apply (Hskip l1 line l2).
  - intros line. unfold ignored. rewrite orb_true_iff.
    destruct line; cbn [is_empty]; split; intros [H|H]; auto; discriminate.
  - intros i line Hi Hign.
    rewrite parse_env_content_eq. cbn [snd].
    rewrite Z.add_comm, (errors_at_line _ _ _ _ Hi).
    now apply line_ignored.
  - intros i line Hi Hign Hno.
    rewrite parse_env_content_eq. cbn [snd].
    rewrite Z.add_comm, (errors_at_line _ _ _ _ Hi).
    now apply line_no_equal_sign.
  - exact Hskip.
  - intros l1 l2 Hlines. unfold parse_env_content. rewrite Hlines.
    generalize (([], []) : list (string * list string) * list FileSyntaxError).
    generalize 1. clear Hlines Hskip.
    induction l1 as [|l l1 IH]; intros n st.
    + simpl. now rewrite Z.add_0_r.
    + cbn [app env_loop length]. rewrite IH. f_equal. lia.
Qed.

(** C6. In every dotenv file, a line [KEY=] that is not a comment leaves
    exactly one error at its number, worded "Key is empty", and the key is
    still recorded, with the empty string among its values; under every key
    the map holds the values of all its lines in the order of the lines.
    This is what [_parse_env_file] returns for the file. *)
Theorem dotenv_empty_value (content : string) :
  (forall file_path tr,
      fs file_path = Some (RegularFile content) ->
      _parse_env_file file_path tr
      = (inr (as_raw (fst (parse_env_content content)),
              snd (parse_env_content content)),
         (tr ++ [EvOpen file_path])%list))
  /\ (forall file_path tr l1 key l2,
         fs file_path = Some (RegularFile content) ->
         splitlines content = (l1 ++ (key ++ "=")%string :: l2)%list ->
         COMMENT_PATTERN (key ++ "=") = false ->
         ~ In "="%char (list_ascii_of_string key) ->
         exists secrets errors,
           _parse_env_file file_path tr
           = (inr (secrets, errors), (tr ++ [EvOpen file_path])%list)
           /\ errors_at (Z.of_nat (length l1) + 1) errors
              = [mkFileSyntaxError (Z.of_nat (length l1) + 1)
                   "Invalid line format. Key is empty."]
           /\ dict_get key secrets
              = Some (VList (map VStr (values_for key l1 ++ EmptyString
                                         :: values_for key l2)%list)))
  /\ (forall i key,
         splitlines content !! i = Some (key ++ "=") ->
         COMMENT_PATTERN (key ++ "=") = false ->
         ~ In "="%char (list_ascii_of_string key) ->
         errors_at (Z.of_nat i + 1) (snd (parse_env_content content))
         = [mkFileSyntaxError (Z.of_nat i + 1)
              "Invalid line format. Key is empty."])
  /\ (forall l1 key l2,
         splitlines content = (l1 ++ (key ++ "=")%string :: l2)%list ->
         COMMENT_PATTERN (key ++ "=") = false ->
         ~ In "="%char (list_ascii_of_string key) ->
         dict_get key (fst (parse_env_content content))
         = Some (values_for key l1 ++ EmptyString :: values_for key l2)%list)
  /\ (forall key,
         dict_get key (fst (parse_env_content content)) =
           match values_for key (splitlines content) with
           | [] => None
           | vs => Some vs
           end).
Proof.
  assert (Hign : forall key,
             COMMENT_PATTERN (key ++ "=") = false ->
             ignored (key ++ "=") = false).
  { intros key Hc. unfold ignored. rewrite Hc.
    destruct key; reflexivity. }
  assert (Hrecorded : forall l1 key l2,
             splitlines content = (l1 ++ (key ++ "=")%string :: l2)%list ->
             COMMENT_PATTERN (key ++ "=") = false ->
             ~ In "="%char (list_ascii_of_string key) ->
             dict_get key (fst (parse_env_content content))
             = Some (values_for key l1 ++ EmptyString
                       :: values_for key l2)%list).
  { intros l1 key l2 Hlines Hc Hno.
    rewrite dotenv_secrets_get, Hlines, values_for_app.
    change ((key ++ "=") :: l2) with ([(key ++ "=")%string] ++ l2)%list.
    rewrite values_for_app.
    assert (Hone : values_for key [key ++ "="] = [EmptyString]).
    { unfold values_for, values_of. cbn.
      destruct (line_key_value 0 key EmptyString (Hign key Hc) Hno) as [_ ->].
      cbn. now rewrite String.eqb_refl. }
    rewrite Hone. now destruct (values_for key l1). }
  split; [intros; now apply parse_env_file_run|].
  split; [|split; [|split]].
  - intros file_path tr l1 key l2 Hfs Hlines Hc Hno.
    exists (as_raw (fst (parse_env_content content))),
      (snd (parse_env_content content)).
    split; [now apply parse_env_file_run|]. split.
    + rewrite parse_env_content_eq, Hlines. cbn [snd].
      rewrite errors_at_middle.
      now apply (line_key_value _ key EmptyString); [apply Hign|].
    + rewrite dict_get_as_raw, (Hrecorded l1 key l2) by assumption.
      reflexivity.
  - intros i key Hi Hc Hno.
    rewrite parse_env_content_eq. cbn [snd].
    rewrite Z.add_comm, (errors_at_line _ _ _ _ Hi).
    now apply (line_key_value _ key EmptyString); [apply Hign|].
  - exact Hrecorded.
  - intros key. apply dotenv_secrets_get.
Qed.

(** *** JSON and YAML parsers *)

(** C7, as amended. The JSON and the YAML parser: empty content gives the
    empty map and the single error "The file is empty." at line 1; a decoded
    value that is not an object gives the empty map and the single error
    "The file should contain the object." at line 1; the decode error that
    the parser catches ([JSONDecodeError], [MarkedYAMLError]) gives the
    empty map and a single error with the decoder's message, at the
    decoder's line for JSON and at the line of the problem mark, or -1
    without a mark, for YAML; any other exception of the decoder is raised
    by the parser, with no error record; a decoded object is returned as it
    is with no error. Both parsers apply this to the content read from the
    file, and raise what [open] or [read] raises. *)
Theorem json_yaml_parsers :
  (parse_json_content EmptyString
   = inr ([], [mkFileSyntaxError 1 "The file is empty."])
   /\ parse_yaml_content EmptyString
      = inr ([], [mkFileSyntaxError 1 "The file is empty."]))
  /\ (forall content v,
         content <> EmptyString -> type_of v <> TDict ->
         (json_loads content = JsonValue v ->
          parse_json_content content
          = inr ([], [mkFileSyntaxError 1
                        "The file should contain the object."]))
         /\ (yaml_safe_load content = YamlValue v ->
             parse_yaml_content content
             = inr ([], [mkFileSyntaxError 1
                           "The file should contain the object."])))
  /\ (forall content lineno msg,
         content <> EmptyString ->
         json_loads content = JSONDecodeError lineno msg ->
         parse_json_content content = inr ([], [mkFileSyntaxError lineno msg]))
  /\ (forall content problem_mark str,
         content <> EmptyString ->
         yaml_safe_load content = MarkedYAMLError problem_mark str ->
         parse_yaml_content content
         = inr ([], [mkFileSyntaxError
                       (match problem_mark with
                        | Some m => mark_line m
                        | None => -1
                        end) str]))
  /\ (forall content error,
         content <> EmptyString ->
         (json_loads content = JsonRaises error ->
          parse_json_content content = inl error)
         /\ (yaml_safe_load content = YamlRaises error ->
             parse_yaml_content content = inl error))
  /\ (forall content secrets,
         content <> EmptyString ->
         (json_loads content = JsonValue (VDict secrets) ->
          parse_json_content content = inr (secrets, []))
         /\ (yaml_safe_load content = YamlValue (VDict secrets) ->
             parse_yaml_content content = inr (secrets, [])))
  /\ (forall file_path content tr,
         fs file_path = Some (RegularFile content) ->
         _parse_json_file file_path tr
         = (parse_json_content content, (tr ++ [EvOpen file_path])%list)
         /\ _parse_yaml_file file_path tr
            = (parse_yaml_content content, (tr ++ [EvOpen file_path])%list))
  /\ (forall file_path error tr,
         fs file_path = Some (Unreadable error) ->
         _parse_json_file file_path tr
         = (inl error, (tr ++ [EvOpen file_path])%list)
         /\ _parse_yaml_file file_path tr
            = (inl error, (tr ++ [EvOpen file_path])%list)).
Proof.
  unfold parse_json_content, parse_yaml_content.
  split; [split; reflexivity|].
  split; [|split; [|split; [|split; [|split; [|split]]]]].
  - intros content v Hne Hty.
    destruct content; [congruence|]. cbn [is_empty].
    split; intros ->; destruct v; simpl in Hty; congruence.
  - intros content lineno msg Hne ->. now destruct content.
  - intros content problem_mark str Hne ->. now destruct content.
  - intros content error Hne.
    destruct content; [congruence|]. cbn [is_empty].
    split; now intros ->.
  - intros content secrets Hne.
    destruct content; [congruence|]. cbn [is_empty].
    split; now intros ->.
  - intros file_path content tr Hfs.
    unfold _parse_json_file, _parse_yaml_file, bind, read_file, lift.
    rewrite Hfs. split; reflexivity.
  - intros file_path error tr Hfs.
    unfold _parse_json_file, _parse_yaml_file, bind, read_file, lift.
    rewrite Hfs. split; reflexivity.
Qed.

(** *** Backend facade *)

(** C8. The facade: with no variables file configured [get_variable]
    returns [None] and the trace of filesystem calls is left as it was, and
    likewise [get_connection] with no connections file; with a file
    configured, a key or connection id absent from the resolved mapping
    gives [None], not an error; and whatever the resolver of a configured
    file raises, the lookup raises the same. *)
Theorem backend_lookups (self : LocalFilesystemBackend) :
  (configured (variables_file self) = false ->
   forall key tr, get_variable self key tr = (inr None, tr))
  /\ (configured (connections_file self) = false ->
      forall conn_id tr, get_connection self conn_id tr = (inr None, tr))
  /\ (forall path key variables tr,
         variables_file self = Some path -> path <> EmptyString ->
         run (load_variables path) = (inr variables, tr) ->
         dict_get key variables = None ->
         run (get_variable self key) = (inr None, tr))
  /\ (forall path conn_id connections tr,
         connections_file self = Some path -> path <> EmptyString ->
         run (load_connections_dict path) = (inr connections, tr) ->
         dict_get conn_id connections = None ->
         run (get_connection self conn_id) = (inr None, tr))
  /\ (forall path key e,
         variables_file self = Some path -> path <> EmptyString ->
         result (load_variables path) = inl e ->
         result (get_variable self key) = inl e)
  /\ (forall path conn_id e,
         connections_file self = Some path -> path <> EmptyString ->
         result (load_connections_dict path) = inl e ->
         result (get_connection self conn_id) = inl e).
Proof.
  unfold result, run, get_variable, get_connection, _local_variables,
    _local_connections, configured, bind, ret.
  split; [|split; [|split; [|split; [|split]]]].
  - intros Hconf key tr.
    destruct (variables_file self) as [[|c path]|]; try reflexivity.
    discriminate.
  - intros Hconf conn_id tr.
    destruct (connections_file self) as [[|c path]|]; try reflexivity.
    discriminate.
  - intros path key variables tr -> Hne Hrun Hget.
    destruct path; [congruence|]. cbn [is_empty].
    now rewrite Hrun, Hget.
  - intros path conn_id connections tr -> Hne Hrun Hget.
    destruct path; [congruence|]. cbn [is_empty].
    rewrite Hrun. unfold dict_in. now rewrite Hget.
  - intros path key e -> Hne Hrun.
    destruct path; [congruence|]. cbn [is_empty] in *.
    destruct (load_variables (String a path) []) as [[e'|vars] tr'];
      simpl in Hrun; [injection Hrun as ->; reflexivity | discriminate].
  - intros path conn_id e -> Hne Hrun.
    destruct path; [congruence|]. cbn [is_empty] in *.
    destruct (load_connections_dict (String a path) []) as [[e'|conns] tr'];
      simpl in Hrun; [injection Hrun as ->; reflexivity | discriminate].
Qed.

(** *** Filesystem calls *)

Lemma framed_ret {A} (a : A) : framed (ret a).
Proof. intros tr. unfold ret. cbn. now rewrite app_nil_r. Qed.

Lemma framed_raise {A} (e : exn) : framed (raise (A:=A) e).
Proof. intros tr. unfold raise. cbn. now rewrite app_nil_r. Qed.

Lemma framed_lift {A} (r : exn + A) : framed (lift r).
Proof. intros tr. unfold lift. cbn. now rewrite app_nil_r. Qed.

Lemma framed_path_exists (path : string) : framed (path_exists path).
Proof. intros tr. reflexivity. Qed.

Lemma framed_read_file (path : string) : framed (read_file path).
Proof. intros tr. reflexivity. Qed.

Lemma framed_bind {A B} (m : IO A) (k : A -> IO B) :
  framed m -> (forall a, framed (k a)) -> framed (bind m k).
Proof.
  intros Hm Hk tr. unfold bind. rewrite (Hm tr).
  destruct (m []) as [[e|a] t0]; cbn [fst snd].
  - reflexivity.
  - rewrite (Hk a (tr ++ t0)%list). cbn [app].
    rewrite (Hk a t0). cbn [fst snd]. now rewrite app_assoc.
Qed.

Lemma framed_parse_env_file (path : string) : framed (_parse_env_file path).
Proof.
  apply framed_bind; [apply framed_read_file|]. intros content.
  destruct (parse_env_content content). apply framed_ret.
Qed.

Lemma framed_parse_json_file (path : string) : framed (_parse_json_file path).
Proof.
  apply framed_bind; [apply framed_read_file|]. intros. apply framed_lift.
Qed.

Lemma framed_parse_yaml_file (path : string) : framed (_parse_yaml_file path).
Proof.
  apply framed_bind; [apply framed_read_file|]. intros. apply framed_lift.
Qed.

Lemma framed_FILE_PARSERS (ext : string) parser (path : string) :
  FILE_PARSERS !! ext = Some parser -> framed (parser path).
Proof.
  rewrite FILE_PARSERS_lookup. repeat case_decide; intros Hp;
    try discriminate; injection Hp as <-;
    auto using framed_parse_env_file, framed_parse_json_file,
      framed_parse_yaml_file.
Qed.

Lemma framed_parse_secret_file (path : string) :
  framed (_parse_secret_file path).
Proof.
  apply framed_bind; [apply framed_path_exists|]. intros found.
  destruct (negb found); [apply framed_raise|]. cbv zeta.
  destruct (FILE_PARSERS !! extension path) as [parser|] eqn:Hp;
    [|apply framed_raise].
  apply framed_bind; [now apply (framed_FILE_PARSERS _ _ _ Hp)|].
  intros [secrets [|e errors]]; [apply framed_ret | apply framed_raise].
Qed.

Lemma framed_load_variables (path : string) : framed (load_variables path).
Proof.
  apply framed_bind; [apply framed_parse_secret_file|]. intros secrets.
  destruct (invalid_keys_of secrets); [apply framed_lift | apply framed_raise].
Qed.

Lemma framed_load_connections_dict (path : string) :
  framed (load_connections_dict path).
Proof.
  apply framed_bind; [apply framed_parse_secret_file|]. intros.
  apply framed_lift.
Qed.

Lemma framed_local_variables (self : LocalFilesystemBackend) :
  framed (_local_variables self).
Proof.
  unfold _local_variables. destruct (variables_file self) as [path|];
    [|apply framed_ret].
  destruct (is_empty path); [apply framed_ret | apply framed_load_variables].
Qed.

Lemma framed_local_connections (self : LocalFilesystemBackend) :
  framed (_local_connections self).
Proof.
  unfold _local_connections. destruct (connections_file self) as [path|];
    [|apply framed_ret].
  destruct (is_empty path);
    [apply framed_ret | apply framed_load_connections_dict].
Qed.

(** The calls the dispatcher makes, by the outcome of its two tests. *)
Lemma parse_secret_file_calls (path : string) :
  snd (run (_parse_secret_file path)) =
    match fs path, FILE_PARSERS !! extension path with
    | Some _, Some _ => [EvExists path; EvOpen path]
    | _, _ => [EvExists path]
    end.
Proof.
  unfold run, _parse_secret_file, bind, path_exists, raise.
  destruct (fs path) as [entry|] eqn:Hfs; [|reflexivity]. cbn.
  rewrite FILE_PARSERS_lookup.
  repeat case_decide; try reflexivity;
    unfold _parse_env_file, _parse_json_file, _parse_yaml_file, bind,
      read_file, ret, lift; rewrite Hfs; destruct entry as [content| |error];
    try reflexivity.
  - destruct (parse_env_content content) as [? [|? ?]]; reflexivity.
  - destruct (parse_json_content content) as [?|[? [|? ?]]]; reflexivity.
  - destruct (parse_yaml_content content) as [?|[? [|? ?]]]; reflexivity.
  - destruct (parse_yaml_content content) as [?|[? [|? ?]]]; reflexivity.
Qed.

Lemma parse_secret_file_calls_own (path : string) (ev : fs_event) :
  ev ∈ snd (run (_parse_secret_file path)) ->
  ev = EvExists path \/ ev = EvOpen path.
Proof.
  rewrite parse_secret_file_calls. intros Hin.
  destruct (fs path); [destruct (FILE_PARSERS !! extension path)|];
    repeat (apply elem_of_cons in Hin as [->|Hin]; [auto|]);
    inversion Hin.
Qed.

Lemma load_variables_calls (path : string) :
  snd (run (load_variables path)) = snd (run (_parse_secret_file path)).
Proof.
  unfold run, load_variables, bind.
  destruct (_parse_secret_file path []) as [[e|secrets] tr]; [reflexivity|].
  destruct (invalid_keys_of secrets); reflexivity.
Qed.

Lemma load_connections_dict_calls (path : string) :
  snd (run (load_connections_dict path))
  = snd (run (_parse_secret_file path)).
Proof.
  unfold run, load_connections_dict, bind.
  destruct (_parse_secret_file path []) as [[e|secrets] tr]; reflexivity.
Qed.

(** X1. The dispatcher asks once whether the path exists and, only when it
    does and its extension is supported, opens it once; it makes no other
    filesystem call. Both resolvers make exactly the dispatcher's calls. *)
Theorem resolution_filesystem_calls (file_path : string) :
  snd (run (_parse_secret_file file_path)) =
    (if bool_decide (is_Some (fs file_path)
                     /\ extension file_path ∈ ["env"; "json"; "yaml"; "yml"])
     then [EvExists file_path; EvOpen file_path]
     else [EvExists file_path])
  /\ snd (run (load_variables file_path))
     = snd (run (_parse_secret_file file_path))
  /\ snd (run (load_connections_dict file_path))
     = snd (run (_parse_secret_file file_path)).
Proof.
  split; [|split].
  - rewrite parse_secret_file_calls.
    destruct (fs file_path) as [entry|].
    + destruct (FILE_PARSERS !! extension file_path) eqn:Hp.
      * rewrite bool_decide_eq_true_2; [reflexivity|].
        split; [eauto|].
        destruct (decide (extension file_path ∈ ["env"; "json"; "yaml"; "yml"]))
          as [Hin|Hout]; [assumption|].
        apply FILE_PARSERS_unsupported in Hout. congruence.
      * rewrite bool_decide_eq_false_2; [reflexivity|].
        intros [_ Hin]. now apply FILE_PARSERS_unsupported in Hp.
    + rewrite bool_decide_eq_false_2; [reflexivity|].
      intros [[? Hsome] _]. discriminate.
  - apply load_variables_calls.
  - apply load_connections_dict_calls.
Qed.

(** *** Lookups of the facade *)

Lemma framed_get_variable (self : LocalFilesystemBackend) (key : string) :
  framed (get_variable self key).
Proof.
  apply framed_bind; [apply framed_local_variables|]. intros.
  apply framed_ret.
Qed.

Lemma framed_get_connection (self : LocalFilesystemBackend)
  (conn_id : string) :
  framed (get_connection self conn_id).
Proof.
  apply framed_bind; [apply framed_local_connections|]. intros connections.
  destruct (dict_in conn_id connections); [|apply framed_ret].
  apply framed_bind; [apply framed_local_connections|]. intros connections'.
  destruct (dict_get conn_id connections');
    [apply framed_ret | apply framed_raise].
Qed.

Lemma local_variables_calls (self : LocalFilesystemBackend) :
  forall ev, ev ∈ snd (run (_local_variables self)) ->
    exists path, variables_file self = Some path
                 /\ (ev = EvExists path \/ ev = EvOpen path).
Proof.
  intros ev. unfold run, _local_variables.
  destruct (variables_file self) as [path|];
    [|cbn; intros Hin; inversion Hin].
  destruct (is_empty path); [cbn; intros Hin; inversion Hin|].
  intros Hin. exists path. split; [reflexivity|].
  apply parse_secret_file_calls_own. now rewrite <- load_variables_calls.
Qed.

Lemma local_connections_calls (self : LocalFilesystemBackend) :
  forall ev, ev ∈ snd (run (_local_connections self)) ->
    exists path, connections_file self = Some path
                 /\ (ev = EvExists path \/ ev = EvOpen path).
Proof.
  intros ev. unfold run, _local_connections.
  destruct (connections_file self) as [path|];
    [|cbn; intros Hin; inversion Hin].
  destruct (is_empty path); [cbn; intros Hin; inversion Hin|].
  intros Hin. exists path. split; [reflexivity|].
  apply parse_secret_file_calls_own.
  now rewrite <- load_connections_dict_calls.
Qed.

(** X3. A variable lookup only ever asks for, and opens, the variables
    file, and a connection lookup the connections file: every filesystem
    call of a lookup is on the path configured for it. *)
Theorem lookups_touch_their_file (self : LocalFilesystemBackend)
  (name : string) :
  (forall ev, ev ∈ snd (run (get_variable self name)) ->
     exists path, variables_file self = Some path
                  /\ (ev = EvExists path \/ ev = EvOpen path))
  /\ (forall ev, ev ∈ snd (run (get_connection self name)) ->
        exists path, connections_file self = Some path
                     /\ (ev = EvExists path \/ ev = EvOpen path)).
Proof.
  split; intros ev Hin.
  - apply local_variables_calls.
    unfold run, get_variable, bind, ret in *.
    now destruct (_local_variables self []) as [[e|variables] tr].
  - unfold run, get_connection, bind in Hin.
    pose proof (framed_local_connections self) as Hframe.
    destruct (_local_connections self []) as [[e|connections] tr] eqn:Hfirst.
    + apply local_connections_calls. unfold run. now rewrite Hfirst.
    + assert (Hown : forall ev', ev' ∈ tr ->
                exists path, connections_file self = Some path
                             /\ (ev' = EvExists path \/ ev' = EvOpen path)).
      { intros ev' Hin'. apply local_connections_calls.
        unfold run. now rewrite Hfirst. }
      destruct (dict_in name connections); [|now apply Hown].
      rewrite (Hframe tr), Hfirst in Hin. cbn [fst snd] in Hin.
      destruct (dict_get name connections); cbn [snd] in Hin;
        apply elem_of_app in Hin as [Hin|Hin]; now apply Hown.
Qed.

(** X4. With a file configured, a key that the resolver maps is looked up
    to its value: [get_variable] returns it after one resolution of the
    file, [get_connection] returns it after two resolutions (one for the
    membership test, one for the subscript) and never raises [KeyError]. *)
Theorem lookups_found (self : LocalFilesystemBackend) :
  (forall path key variables tr v,
      variables_file self = Some path -> path <> EmptyString ->
      run (load_variables path) = (inr variables, tr) ->
      dict_get key variables = Some v ->
      run (get_variable self key) = (inr (Some v), tr))
  /\ (forall path conn_id connections tr c,
         connections_file self = Some path -> path <> EmptyString ->
         run (load_connections_dict path) = (inr connections, tr) ->
         dict_get conn_id connections = Some c ->
         run (get_connection self conn_id) = (inr (Some c), (tr ++ tr)%list)).
Proof.
  split.
  - intros path key variables tr v Hfile Hne Hrun Hget.
    unfold run, get_variable, _local_variables, bind, ret in *.
    rewrite Hfile. destruct path; [congruence|]. cbn [is_empty].
    now rewrite Hrun, Hget.
  - intros path conn_id connections tr c Hfile Hne Hrun Hget.
    assert (Hlocal : _local_connections self = load_connections_dict path).
    { unfold _local_connections. rewrite Hfile.
      destruct path; [congruence | reflexivity]. }
    unfold run, get_connection, bind in *. rewrite Hlocal, Hrun.
    unfold dict_in. rewrite Hget.
    rewrite (framed_load_connections_dict path tr), Hrun. cbn [fst snd].
    now rewrite Hget.
Qed.

(** *** What a returned map tells *)

Lemma parse_json_content_clean (content : string)
  (secrets : list (string * value)) :
  parse_json_content content = inr (secrets, []) ->
  content <> EmptyString /\ json_loads content = JsonValue (VDict secrets).
Proof.
  unfold parse_json_content. destruct content as [|c content];
    cbn [is_empty]; [discriminate|].
  destruct (json_loads (String c content)) as [[]| |]; try discriminate.
  intros Heq. injection Heq as <-. split; [discriminate | reflexivity].
Qed.

Lemma parse_yaml_content_clean (content : string)
  (secrets : list (string * value)) :
  parse_yaml_content content = inr (secrets, []) ->
  content <> EmptyString
  /\ yaml_safe_load content = YamlValue (VDict secrets).
Proof.
  unfold parse_yaml_content. destruct content as [|c content];
    cbn [is_empty]; [discriminate|].
  destruct (yaml_safe_load (String c content)) as [[]| |]; try discriminate.
  intros Heq. injection Heq as <-. split; [discriminate | reflexivity].
Qed.

(** When the JSON or the YAML parser raises, the decoder raised an exception
    that the parser does not catch, or decoded a top-level mapping that is
    not represented. *)
Lemma parse_json_content_raises (content : string) (e : exn) :
  parse_json_content content = inl e ->
  content <> EmptyString
  /\ (json_loads content = JsonRaises e
      \/ (e = Unrepresented
          /\ exists v, json_loads content = JsonValue v
                       /\ type_of v = TDict)).
Proof.
  unfold parse_json_content. destruct content as [|c content];
    cbn [is_empty]; [discriminate|].
  destruct (json_loads (String c content)) as [[]| |]; try discriminate;
    intros Heq; injection Heq as <-; (split; [discriminate|]);
    first [now left | right; split; [reflexivity|]; eexists; split;
                      reflexivity].
Qed.

Lemma parse_yaml_content_raises (content : string) (e : exn) :
  parse_yaml_content content = inl e ->
  content <> EmptyString
  /\ (yaml_safe_load content = YamlRaises e
      \/ (e = Unrepresented
          /\ exists v, yaml_safe_load content = YamlValue v
                       /\ type_of v = TDict)).
Proof.
  unfold parse_yaml_content. destruct content as [|c content];
    cbn [is_empty]; [discriminate|].
  destruct (yaml_safe_load (String c content)) as [[]| |]; try discriminate;
    intros Heq; injection Heq as <-; (split; [discriminate|]);
    first [now left | right; split; [reflexivity|]; eexists; split;
                      reflexivity].
Qed.

(** X5. What the JSON and the YAML parser return is all or nothing: never
    more than one error, the empty map whenever there is an error, and no
    error only for a content that is not empty and that the decoder decodes
    to the very object returned. *)
Theorem json_yaml_all_or_nothing (content : string) :
  (forall secrets errors,
      parse_json_content content = inr (secrets, errors) ->
      (length errors <= 1)%nat
      /\ (errors <> [] -> secrets = [])
      /\ (errors = [] ->
          content <> EmptyString
          /\ json_loads content = JsonValue (VDict secrets)))
  /\ (forall secrets errors,
         parse_yaml_content content = inr (secrets, errors) ->
         (length errors <= 1)%nat
         /\ (errors <> [] -> secrets = [])
         /\ (errors = [] ->
             content <> EmptyString
             /\ yaml_safe_load content = YamlValue (VDict secrets))).
Proof.
  split; intros secrets errors Hparse.
  - split; [|split].
    + unfold parse_json_content in Hparse.
      destruct content as [|c content]; cbn [is_empty] in Hparse;
        [injection Hparse as <- <-; cbn; lia|].
      destruct (json_loads (String c content)) as [[]| |];
        try discriminate; injection Hparse as <- <-; cbn; lia.
    + unfold parse_json_content in Hparse.
      destruct content as [|c content]; cbn [is_empty] in Hparse;
        [now injection Hparse as <- <-|].
      destruct (json_loads (String c content)) as [[]| |];
        try discriminate; injection Hparse as <- <-; congruence.
    + intros ->. now apply parse_json_content_clean.
  - split; [|split].
    + unfold parse_yaml_content in Hparse.
      destruct content as [|c content]; cbn [is_empty] in Hparse;
        [injection Hparse as <- <-; cbn; lia|].
      destruct (yaml_safe_load (String c content)) as [[]| |];
        try discriminate; injection Hparse as <- <-; cbn; lia.
    + unfold parse_yaml_content in Hparse.
      destruct content as [|c content]; cbn [is_empty] in Hparse;
        [now injection Hparse as <- <-|].
      destruct (yaml_safe_load (String c content)) as [[]| |];
        try discriminate; injection Hparse as <- <-; congruence.
    + intros ->. now apply parse_yaml_content_clean.
Qed.

Lemma parse_secret_file_inversion (file_path : string)
  (secrets : list (string * value)) (tr : list fs_event) :
  run (_parse_secret_file file_path) = (inr secrets, tr) ->
  exists content,
    fs file_path = Some (RegularFile content)
    /\ tr = [EvExists file_path; EvOpen file_path]
    /\ ((extension file_path = "env"
         /\ snd (parse_env_content content) = []
         /\ secrets = as_raw (fst (parse_env_content content)))
        \/ (extension file_path = "json"
            /\ content <> EmptyString
            /\ json_loads content = JsonValue (VDict secrets))
        \/ ((extension file_path = "yaml" \/ extension file_path = "yml")
            /\ content <> EmptyString
            /\ yaml_safe_load content = YamlValue (VDict secrets))).
Proof.
  unfold run, _parse_secret_file, bind, path_exists, raise, ret.
  destruct (fs file_path) as [entry|] eqn:Hfs; cbn; [|discriminate].
  rewrite FILE_PARSERS_lookup.
  repeat case_decide; try discriminate;
    unfold _parse_env_file, _parse_json_file, _parse_yaml_file, bind,
      read_file, ret, lift; rewrite Hfs; destruct entry as [content| |error];
    try discriminate.
  - destruct (parse_env_content content) as [m [|e errors]] eqn:Hparse;
      [|discriminate].
    intros Heq. injection Heq as <- <-. exists content.
    split; [reflexivity|]. split; [reflexivity|]. left.
    rewrite Hparse. auto.
  - destruct (parse_json_content content) as [e0|[m [|e errors]]] eqn:Hparse;
      try discriminate.
    intros Heq. injection Heq as <- <-. exists content.
    apply parse_json_content_clean in Hparse.
    split; [reflexivity|]. split; [reflexivity|]. right. left.
    destruct Hparse; auto.
  - destruct (parse_yaml_content content) as [e0|[m [|e errors]]] eqn:Hparse;
      try discriminate.
    intros Heq. injection Heq as <- <-. exists content.
    apply parse_yaml_content_clean in Hparse.
    split; [reflexivity|]. split; [reflexivity|]. right. right.
    destruct Hparse; auto.
  - destruct (parse_yaml_content content) as [e0|[m [|e errors]]] eqn:Hparse;
      try discriminate.
    intros Heq. injection Heq as <- <-. exists content.
    apply parse_yaml_content_clean in Hparse.
    split; [reflexivity|]. split; [reflexivity|]. right. right.
    destruct Hparse; auto.
Qed.

(** X6. The dispatcher returns a map exactly when the path is a regular
    file with a supported extension whose parser finds no error, and the
    map is then what that parser made of the content: for [env] the dotenv
    map, for [json] and for [yaml] or [yml] the object the decoder decoded
    from a content that is not empty. The file is asked for and opened
    once. *)
Theorem parse_secret_file_returns (file_path : string)
  (secrets : list (string * value)) (tr : list fs_event) :
  run (_parse_secret_file file_path) = (inr secrets, tr) <->
  exists content,
    fs file_path = Some (RegularFile content)
    /\ tr = [EvExists file_path; EvOpen file_path]
    /\ ((extension file_path = "env"
         /\ snd (parse_env_content content) = []
         /\ secrets = as_raw (fst (parse_env_content content)))
        \/ (extension file_path = "json"
            /\ content <> EmptyString
            /\ json_loads content = JsonValue (VDict secrets))
        \/ ((extension file_path = "yaml" \/ extension file_path = "yml")
            /\ content <> EmptyString
            /\ yaml_safe_load content = YamlValue (VDict secrets))).
Proof.
  split; [apply parse_secret_file_inversion|].
  intros (content & Hfs & -> & Hcases).
  unfold run, _parse_secret_file, bind, path_exists, raise, ret.
  rewrite Hfs. cbn [negb]. cbv zeta.
  destruct Hcases as [(Hext & Herr & ->)|[(Hext & Hne & Hdec)|(Hext & Hne & Hdec)]].
  - assert (Hp : FILE_PARSERS !! extension file_path = Some _parse_env_file)
      by (rewrite FILE_PARSERS_lookup, Hext; reflexivity).
    rewrite Hp. unfold _parse_env_file, bind, read_file, ret.
    rewrite Hfs. destruct (parse_env_content content) as [m errors].
    cbn in Herr. now subst errors.
  - assert (Hp : FILE_PARSERS !! extension file_path = Some _parse_json_file)
      by (rewrite FILE_PARSERS_lookup, Hext; reflexivity).
    rewrite Hp. unfold _parse_json_file, bind, read_file, ret, lift.
    rewrite Hfs. unfold parse_json_content.
    destruct content; [congruence|]. cbn [is_empty]. now rewrite Hdec.
  - assert (Hp : FILE_PARSERS !! extension file_path = Some _parse_yaml_file)
      by (rewrite FILE_PARSERS_lookup; destruct Hext as [-> | ->];
          reflexivity).
    rewrite Hp. unfold _parse_yaml_file, bind, read_file, ret, lift.
    rewrite Hfs. unfold parse_yaml_content.
    destruct content; [congruence|]. cbn [is_empty]. now rewrite Hdec.
Qed.

(** *** Invariants of the dotenv parser *)

Lemma partition_cases (sep : ascii) (s : string) :
  (partition sep s = (s, EmptyString, EmptyString)
   /\ ~ In sep (list_ascii_of_string s))
  \/ (exists key value,
         partition sep s = (key, String sep EmptyString, value)
         /\ s = key ++ String sep value
         /\ ~ In sep (list_ascii_of_string key)).
Proof.
  induction s as [|c s IH]; [left; split; [reflexivity | intros []]|].
  cbn [partition]. destruct (Ascii.eqb_spec c sep) as [->|Hne].
  - right. exists EmptyString, s. repeat split. intros [].
  - destruct IH as [[Hp Hno]|(key & value & Hp & Hs & Hno)]; rewrite Hp.
    + left. split; [reflexivity|]. intros [Heq|Hin]; auto.
    + right. exists (String c key), value. subst s.
      repeat split. intros [Heq|Hin]; auto.
Qed.

Lemma line_pair_Some (line key value : string) :
  line_pair line = Some (key, value) ->
  ignored line = false
  /\ line = key ++ String "=" value
  /\ no_equal_sign key.
Proof.
  unfold line_pair, no_equal_sign.
  destruct (ignored line); [discriminate|].
  destruct (partition_cases "=" line)
    as [[Hp _]|(k & v & Hp & Hline & Hno)]; rewrite Hp; cbn [is_empty];
    [discriminate|].
  intros Heq. injection Heq as <- <-. auto.
Qed.

Lemma line_pair_value (n : Z) (line key value : string) :
  line_errors n line = [] ->
  line_pair line = Some (key, value) ->
  value <> EmptyString.
Proof.
  unfold line_errors, line_pair. destruct (ignored line); [discriminate|].
  destruct (partition "=" line) as [[k sep] v].
  destruct (is_empty sep); [discriminate|].
  destruct v; cbn [is_empty]; [discriminate|].
  intros _ Heq. injection Heq as <- <-. discriminate.
Qed.

Lemma omap_line_pair_elem (lines : list string) (pair : string * string) :
  In pair (omap line_pair lines) ->
  exists line, In line lines /\ line_pair line = Some pair.
Proof.
  induction lines as [|line lines IH]; [intros []|].
  change (omap line_pair (line :: lines)) with
    (match line_pair line with
     | Some p => p :: omap line_pair lines
     | None => omap line_pair lines
     end).
  destruct (line_pair line) as [p|] eqn:Hp.
  - intros [<-|Hin].
    + exists line. split; [now left | assumption].
    + destruct (IH Hin) as (l & Hl & Hpl). exists l. split; [now right|auto].
  - intros Hin. destruct (IH Hin) as (l & Hl & Hpl).
    exists l. split; [now right|auto].
Qed.

Lemma values_of_elem (key value : string) (pairs : list (string * string)) :
  In value (values_of key pairs) -> In (key, value) pairs.
Proof.
  unfold values_of. rewrite in_map_iff.
  intros ([k v] & Hv & Hin). apply filter_In in Hin as [Hin Hk].
  cbn in Hv, Hk. apply String.eqb_eq in Hk. now subst.
Qed.

Lemma dict_append_keys (key value : string)
  (d : list (string * list string)) :
  dict_keys (dict_append key value d) =
    if dict_in key d then dict_keys d else (dict_keys d ++ [key])%list.
Proof.
  unfold dict_in. induction d as [|[k vs] d IH]; [reflexivity|].
  cbn [dict_append dict_get]. destruct (String.eqb k key); [reflexivity|].
  change (dict_keys ((k, vs) :: dict_append key value d))
    with (k :: dict_keys (dict_append key value d)).
  rewrite IH. now destruct (dict_get key d).
Qed.

Lemma dict_append_NoDup (key value : string)
  (d : list (string * list string)) :
  NoDup (dict_keys d) -> NoDup (dict_keys (dict_append key value d)).
Proof.
  intros Hnd. rewrite dict_append_keys.
  destruct (dict_in key d) eqn:Hin; [assumption|].
  apply NoDup_app. split; [assumption|]. split.
  - intros k Hk Hk'. apply list_elem_of_singleton in Hk'. subst k.
    apply dict_in_keys in Hk. congruence.
  - apply NoDup_singleton.
Qed.

Lemma record_all_NoDup (pairs : list (string * string)) :
  forall secrets,
    NoDup (dict_keys secrets) -> NoDup (dict_keys (record_all pairs secrets)).
Proof.
  induction pairs as [|[k v] pairs IH]; intros secrets Hnd; [assumption|].
  apply IH. now apply dict_append_NoDup.
Qed.

Lemma dotenv_keys_NoDup (content : string) :
  NoDup (dict_keys (fst (parse_env_content content))).
Proof.
  rewrite parse_env_content_eq. cbn [fst].
  apply record_all_NoDup. apply NoDup_nil_2.
Qed.

Lemma dotenv_values_of_entry (content key : string) (values : list string) :
  (key, values) ∈ fst (parse_env_content content) ->
  values = values_for key (splitlines content) /\ values <> [].
Proof.
  intros Hin.
  apply (dict_get_elem _ _ _ (dotenv_keys_NoDup content)) in Hin.
  rewrite dotenv_secrets_get in Hin.
  destruct (values_for key (splitlines content)); [discriminate|].
  injection Hin as <-. split; [reflexivity | discriminate].
Qed.

(** Every entry of the dotenv map is backed by lines of the content. *)
Lemma dotenv_entry_backed (content key : string) (values : list string) :
  (key, values) ∈ fst (parse_env_content content) ->
  no_equal_sign key
  /\ forall value,
      value ∈ values ->
      (key ++ String "=" value) ∈ splitlines content
      /\ ignored (key ++ String "=" value) = false.
Proof.
  intros Hin.
  destruct (dotenv_values_of_entry _ _ _ Hin) as [-> Hne].
  assert (Hline : forall value,
             In value (values_for key (splitlines content)) ->
             exists line, In line (splitlines content)
                          /\ line_pair line = Some (key, value)).
  { intros value Hv. apply omap_line_pair_elem. now apply values_of_elem. }
  split.
  - destruct (values_for key (splitlines content)) as [|v vs] eqn:Hvs;
      [congruence|].
    destruct (Hline v (or_introl eq_refl)) as (line & _ & Hpair).
    now apply line_pair_Some in Hpair.
  - intros value Hv. apply list_elem_of_In in Hv.
    destruct (Hline value Hv) as (line & Hl & Hpair).
    apply line_pair_Some in Hpair as (Hign & -> & _).
    split; [now apply list_elem_of_In | assumption].
Qed.

(** X7. The map of the dotenv parser is a well-formed dictionary that
    holds nothing the file does not: no key comes twice, no key holds an
    equal sign, and every value [v] recorded under a key [k] stands in the
    content as a line [k=v] that is neither blank nor a comment. *)
Theorem dotenv_map_faithful (content : string) :
  NoDup (dict_keys (fst (parse_env_content content)))
  /\ forall key values,
      (key, values) ∈ fst (parse_env_content content) ->
      no_equal_sign key
      /\ forall value,
          value ∈ values ->
          (key ++ String "=" value) ∈ splitlines content
          /\ ignored (key ++ String "=" value) = false.
Proof.
  split; [apply dotenv_keys_NoDup | apply dotenv_entry_backed].
Qed.

Lemma as_raw_elem (secrets : list (string * list string)) (key : string)
  (v : value) :
  (key, v) ∈ as_raw secrets ->
  exists values, v = VList (map VStr values) /\ (key, values) ∈ secrets.
Proof.
  unfold as_raw. intros Hin. apply list_elem_of_In, in_map_iff in Hin
    as ([k values] & Heq & Hin).
  injection Heq as -> <-. exists values.
  split; [reflexivity | now apply list_elem_of_In].
Qed.


Lemma line_errors_cases (n : Z) (line : string) :
  line_errors n line = []
  \/ line_errors n line = [mkFileSyntaxError n msg_no_equal_sign]
  \/ line_errors n line = [mkFileSyntaxError n msg_key_empty].
Proof.
  unfold line_errors. destruct (ignored line); [now left|].
  destruct (partition "=" line) as [[key sep] value].
  destruct (is_empty sep); [right; now left|].
  destruct (is_empty value); [right; now right | now left].
Qed.

Lemma errors_from_sorted (lines : list string) :
  forall m, StronglySorted Z.lt (map line_no (errors_from m lines)).
Proof.
  induction lines as [|line lines IH]; intros m; [constructor|].
  cbn [errors_from].
  assert (Hrest : Forall (Z.lt m) (map line_no (errors_from (m + 1) lines))).
  { apply List.Forall_forall. intros n Hn. apply in_map_iff in Hn as (e & <- & He).
    apply errors_from_ge in He. lia. }
  destruct (line_errors_cases m line) as [->|[->| ->]]; cbn [app map line_no];
    [apply IH | constructor; [apply IH | exact Hrest]
     | constructor; [apply IH | exact Hrest]].
Qed.

Lemma errors_from_bounds (lines : list string) :
  forall m e,
    In e (errors_from m lines) ->
    m <= line_no e < m + Z.of_nat (length lines)
    /\ (message e = msg_no_equal_sign \/ message e = msg_key_empty).
Proof.
  induction lines as [|line lines IH]; intros m e; [intros []|].
  cbn [errors_from length]. rewrite in_app_iff. intros [Hin|Hin].
  - destruct (line_errors_cases m line) as [Hl|[Hl|Hl]]; rewrite Hl in Hin;
      [destruct Hin | |]; destruct Hin as [<-|[]]; cbn; split; auto; lia.
  - apply IH in Hin as [Hb Hm]. split; [lia | assumption].
Qed.

(** X8. The dotenv parser reports its errors in the order of the lines:
    the line numbers of the error list increase strictly, so no line is
    reported twice, every number is the 1-based number of a line of the
    content, and every message is one of the parser's two messages. *)
Theorem dotenv_errors_in_line_order (content : string) :
  StronglySorted Z.lt (map line_no (snd (parse_env_content content)))
  /\ forall e,
      e ∈ snd (parse_env_content content) ->
      1 <= line_no e <= Z.of_nat (length (splitlines content))
      /\ (message e = msg_no_equal_sign \/ message e = msg_key_empty).
Proof.
  rewrite parse_env_content_eq. cbn [snd]. split.
  - apply errors_from_sorted.
  - intros e He. apply list_elem_of_In, errors_from_bounds in He as [Hb Hm].
    split; [lia | assumption].
Qed.

Lemma errors_from_nil (lines : list string) :
  forall m,
    errors_from m lines = [] ->
    forall line key value,
      In line lines -> line_pair line = Some (key, value) ->
      value <> EmptyString.
Proof.
  induction lines as [|l lines IH]; intros m Herr line key value;
    [intros []|].
  cbn [errors_from] in Herr. apply app_eq_nil in Herr as [Hl Hrest].
  intros [<-|Hin] Hpair.
  - now apply (line_pair_value m l key).
  - now apply (IH (m + 1) Hrest line key).
Qed.

Lemma dotenv_clean_entry (content key : string) (values : list string) :
  snd (parse_env_content content) = [] ->
  (key, values) ∈ fst (parse_env_content content) ->
  values <> [] /\ (EmptyString ∉ values) /\ no_equal_sign key.
Proof.
  intros Herr Hin.
  destruct (dotenv_values_of_entry _ _ _ Hin) as [Hvalues Hne].
  rewrite parse_env_content_eq in Herr. cbn [snd] in Herr.
  assert (Hline : forall value, In value values ->
             exists line, In line (splitlines content)
                          /\ line_pair line = Some (key, value)).
  { intros value Hv. subst values.
    apply omap_line_pair_elem. now apply values_of_elem. }
  split; [assumption|]. split.
  - intros Hempty. apply list_elem_of_In in Hempty.
    destruct (Hline _ Hempty) as (line & Hl & Hpair).
    now apply (errors_from_nil _ _ Herr line key EmptyString).
  - destruct values as [|v vs]; [congruence|].
    destruct (Hline v (or_introl eq_refl)) as (line & _ & Hpair).
    now apply line_pair_Some in Hpair.
Qed.

(** X9. A map that the dispatcher returns for an [env] file has no empty
    value: under every key stands a list of at least one string, none of
    them empty, and no key holds an equal sign. (A line [KEY=] is an error,
    and any error makes the dispatcher raise.) *)
Theorem dotenv_dispatched_values (file_path : string)
  (secrets : list (string * value)) (tr : list fs_event) :
  run (_parse_secret_file file_path) = (inr secrets, tr) ->
  extension file_path = "env" ->
  forall key v,
    (key, v) ∈ secrets ->
    exists values,
      v = VList (map VStr values)
      /\ values <> [] /\ (EmptyString ∉ values) /\ no_equal_sign key.
Proof.
  intros Hrun Hext key v Hin.
  apply parse_secret_file_inversion in Hrun
    as (content & _ & _ & [(_ & Herr & ->)|[(Hj & _)|([Hy|Hy] & _)]]);
    try congruence.
  apply as_raw_elem in Hin as (values & -> & Hin).
  exists values. split; [reflexivity|].
  now apply (dotenv_clean_entry content).
Qed.

(** *** Dotenv files through the resolvers *)

Lemma dotenv_entry_lines (content key : string) (values : list string) :
  (key, values) ∈ fst (parse_env_content content) ->
  forall value,
    In value values -> In (key ++ String "=" value) (splitlines content).
Proof.
  intros Hin value Hv.
  destruct (dotenv_values_of_entry _ _ _ Hin) as [-> _].
  apply values_of_elem, omap_line_pair_elem in Hv as (line & Hl & Hpair).
  apply line_pair_Some in Hpair as (_ & -> & _). exact Hl.
Qed.

Lemma load_variables_inversion (file_path : string)
  (variables : list (string * value)) (tr : list fs_event) :
  run (load_variables file_path) = (inr variables, tr) ->
  exists secrets,
    run (_parse_secret_file file_path) = (inr secrets, tr)
    /\ invalid_keys_of secrets = []
    /\ variables
       = map (fun '(key, values) => (key, unwrap_singleton values)) secrets.
Proof.
  unfold run, load_variables, bind.
  destruct (_parse_secret_file file_path []) as [[e|secrets] tr'];
    [discriminate|].
  destruct (invalid_keys_of secrets) eqn:Hinv; [|discriminate].
  unfold lift. rewrite (unwrap_all_valid _ Hinv).
  intros Heq. injection Heq as <- <-. exists secrets. auto.
Qed.

(** X10. The variables that [load_variables] returns for an [env] file
    are strings read off the file: the keys are pairwise different, and
    every variable [k] has as value a string [s] that is not empty and for
    which [k=s] is a line of the file. *)
Theorem dotenv_variables_are_lines (file_path : string)
  (variables : list (string * value)) (tr : list fs_event) :
  run (load_variables file_path) = (inr variables, tr) ->
  extension file_path = "env" ->
  exists content,
    fs file_path = Some (RegularFile content)
    /\ NoDup (dict_keys variables)
    /\ forall key v,
        (key, v) ∈ variables ->
        exists s, v = VStr s /\ s <> EmptyString
                  /\ (key ++ String "=" s) ∈ splitlines content.
Proof.
  intros Hrun Hext.
  apply load_variables_inversion in Hrun as (secrets & Hrun & Hinv & ->).
  apply parse_secret_file_inversion in Hrun
    as (content & Hfs & _ & [(_ & Herr & ->)|[(Hj & _)|([Hy|Hy] & _)]]);
    try congruence.
  exists content. split; [assumption|]. split.
  - unfold dict_keys, as_raw. rewrite !map_map.
    erewrite map_ext; [apply (dotenv_keys_NoDup content)|].
    now intros [k vs].
  - intros key v Hin.
    apply list_elem_of_In, in_map_iff in Hin as ([k raw] & Heq & Hin).
    injection Heq as -> <-.
    apply list_elem_of_In in Hin.
    pose proof Hin as Hraw.
    apply as_raw_elem in Hraw as (values & -> & Hentry).
    destruct (dotenv_clean_entry _ _ _ Herr Hentry) as (Hne & Hempty & _).
    assert (Hlen : length (map VStr values) = 1%nat).
    { destruct (Nat.eq_dec (length (map VStr values)) 1%nat) as [|Hlen];
        [assumption|].
      assert (Hbad : key ∈ invalid_keys_of
                       (as_raw (fst (parse_env_content content)))).
      { apply invalid_keys_of_spec. eauto. }
      rewrite Hinv in Hbad. inversion Hbad. }
    destruct values as [|s [|s' values]]; try discriminate.
    exists s. split; [reflexivity|]. split.
    + intros ->. apply Hempty. left.
    + apply list_elem_of_In.
      apply (dotenv_entry_lines content key [s] Hentry). now left.
Qed.

(** X11. On a map read from a dotenv file the connection resolver only
    ever hands strings to the builder: its loop can fail with
    [ConnectionNotUnique] for a key of the map, or with what the
    constructor raises for [Connection(conn_id=key, uri=value)], and with
    nothing else (no illegal keys, no unexpected type, no mismatch). *)
Theorem dotenv_connections_failures (file_path : string)
  (secrets : list (string * list string)) :
  forall acc e,
    connections_loop file_path (as_raw secrets) acc = inl e ->
    (exists key,
        key ∈ dict_keys secrets
        /\ e = ConnectionNotUnique
                 [Lit "Found multiple values for "; FStr key; Lit " in ";
                  FStr file_path; Lit "."])
    \/ (exists key uri,
           (key, [uri]) ∈ secrets
           /\ Connection [("conn_id", VStr key); ("uri", VStr uri)] = inl e).
Proof.
  intros acc e Hloop. unfold connections_loop in Hloop.
  destruct (connections_loop_from file_path (as_raw secrets) acc [])
    as [e'|[connections w']] eqn:Hfrom; [|discriminate].
  injection Hloop as ->.
  apply connections_loop_from_failure in Hfrom
    as (pre & key & v & post & acc1 & w & Hitems & _ & Hcase).
  assert (Hin : (key, v) ∈ as_raw secrets).
  { rewrite Hitems. apply elem_of_app. right. left. }
  apply as_raw_elem in Hin as (values & -> & Hin).
  destruct Hcase as [(values' & _ & _ & ->)|(_ & Hlen & Hbuilt)].
  - left. exists key. split; [|reflexivity].
    apply list_elem_of_fmap. now exists (key, values).
  - right. specialize (Hlen _ eq_refl).
    destruct values as [|uri [|uri' values]]; try discriminate.
    exists key, uri. split; [assumption|].
    cbn [map unwrap_singleton] in Hbuilt.
    now rewrite current_unshared in Hbuilt.
Qed.

(** *** Reading back a written dotenv file *)

Lemma splitlines_one_line (line : string) :
  has_no_linebreak line -> line <> EmptyString -> splitlines line = [line].
Proof.
  unfold has_no_linebreak.
  induction line as [|c line IH]; intros Hno Hne; [congruence|].
  cbn [list_ascii_of_string] in Hno. apply Forall_cons in Hno as [Hc Hno].
  cbn [splitlines]. rewrite Hc.
  destruct line as [|c' line]; [reflexivity|].
  rewrite IH; [reflexivity | assumption | discriminate].
Qed.

Lemma splitlines_first_line (line rest : string) :
  has_no_linebreak line ->
  splitlines (line ++ String LF rest) = line :: splitlines rest.
Proof.
  unfold has_no_linebreak.
  induction line as [|c line IH]; intros Hno.
  - cbn [String.append splitlines].
    change (is_linebreak LF) with true. cbn match.
    change (Ascii.eqb LF CR) with false. cbn [andb].
    now destruct rest.
  - cbn [list_ascii_of_string] in Hno. apply Forall_cons in Hno as [Hc Hno].
    change (String c line ++ String LF rest)
      with (String c (line ++ String LF rest)).
    cbn [splitlines]. rewrite Hc, (IH Hno). reflexivity.
Qed.

Lemma splitlines_concat (lines : list string) :
  Forall (fun line => has_no_linebreak line /\ line <> EmptyString) lines ->
  splitlines (String.concat (String LF EmptyString) lines) = lines.
Proof.
  induction lines as [|line lines IH]; intros Hall; [reflexivity|].
  apply Forall_cons in Hall as [[Hno Hne] Hall].
  destruct lines as [|line' lines].
  - cbn [String.concat]. now apply splitlines_one_line.
  - change (String.concat (String LF EmptyString) (line :: line' :: lines))
      with (line ++ String LF
                     (String.concat (String LF EmptyString) (line' :: lines))).
    rewrite splitlines_first_line by assumption. now rewrite IH.
Qed.

Lemma dotenv_line_ok (pair : string * string) :
  dotenv_pair_ok pair ->
  has_no_linebreak (dotenv_line pair)
  /\ dotenv_line pair <> EmptyString
  /\ ignored (dotenv_line pair) = false.
Proof.
  destruct pair as [k v]. unfold dotenv_pair_ok, dotenv_line, ignored.
  cbn [fst snd]. intros (_ & Hk & Hv & _ & Hc). split; [|split].
  - unfold has_no_linebreak in *. rewrite list_ascii_of_string_app.
    apply Forall_app. split; [assumption|].
    cbn [list_ascii_of_string]. now constructor.
  - destruct k; discriminate.
  - rewrite Hc. destruct k; reflexivity.
Qed.

Lemma splitlines_render_dotenv (pairs : list (string * string)) :
  Forall dotenv_pair_ok pairs ->
  splitlines (render_dotenv pairs) = map dotenv_line pairs.
Proof.
  intros Hall. apply splitlines_concat.
  apply List.Forall_map. eapply Forall_impl; [exact Hall|].
  intros pair Hok. now apply dotenv_line_ok in Hok as (? & ? & _).
Qed.

Lemma dotenv_lines_pairs (pairs : list (string * string)) :
  Forall dotenv_pair_ok pairs ->
  omap line_pair (map dotenv_line pairs) = pairs
  /\ forall m, errors_from m (map dotenv_line pairs) = [].
Proof.
  induction pairs as [|[k v] pairs IH]; intros Hall; [split; reflexivity|].
  apply Forall_cons in Hall as [Hok Hall]. destruct (IH Hall) as [IHp IHe].
  pose proof (dotenv_line_ok _ Hok) as (_ & _ & Hign).
  destruct Hok as (Hkey & _ & _ & Hv & _). cbn [fst snd] in *.
  unfold dotenv_line in Hign. cbn [fst snd] in Hign.
  split.
  - cbn [map].
    change (omap line_pair (dotenv_line (k, v) :: map dotenv_line pairs)) with
      (match line_pair (dotenv_line (k, v)) with
       | Some p => p :: omap line_pair (map dotenv_line pairs)
       | None => omap line_pair (map dotenv_line pairs)
       end).
    unfold dotenv_line at 1. cbn [fst snd].
    destruct (line_key_value 0 k v Hign Hkey) as [_ ->]. now rewrite IHp.
  - intros m. cbn [map errors_from]. rewrite IHe.
    unfold dotenv_line. cbn [fst snd].
    destruct (line_key_value m k v Hign Hkey) as [-> _].
    now destruct v.
Qed.

Lemma dict_append_new (key value : string)
  (d : list (string * list string)) :
  key ∉ dict_keys d -> dict_append key value d = (d ++ [(key, [value])])%list.
Proof.
  induction d as [|[k vs] d IH]; intros Hout; [reflexivity|].
  cbn [dict_keys map fst] in Hout. apply not_elem_of_cons in Hout as [Hne Hout].
  cbn [dict_append app]. apply not_eq_sym, String.eqb_neq in Hne.
  rewrite Hne. now rewrite IH.
Qed.

Lemma record_all_distinct (pairs : list (string * string)) :
  forall d,
    NoDup (map fst pairs) ->
    (forall k, k ∈ map fst pairs -> k ∉ dict_keys d) ->
    record_all pairs d
    = (d ++ map (fun pair => (fst pair, [snd pair])) pairs)%list.
Proof.
  induction pairs as [|[k v] pairs IH]; intros d Hnd Hout.
  - cbn. now rewrite app_nil_r.
  - cbn [map fst] in Hnd. apply NoDup_cons in Hnd as [Hk Hnd].
    cbn [record_all]. rewrite dict_append_new by (apply Hout; left).
    rewrite IH; [now rewrite <- app_assoc | assumption |].
    intros k' Hk'. unfold dict_keys. rewrite map_app.
    intros Hin. apply elem_of_app in Hin as [Hin|Hin].
    + apply (Hout k'); [now right | assumption].
    + apply list_elem_of_singleton in Hin. cbn in Hin. congruence.
Qed.

Lemma parse_render_dotenv (pairs : list (string * string)) :
  NoDup (map fst pairs) ->
  Forall dotenv_pair_ok pairs ->
  parse_env_content (render_dotenv pairs)
  = (map (fun pair => (fst pair, [snd pair])) pairs, []).
Proof.
  intros Hnd Hall.
  rewrite parse_env_content_eq, splitlines_render_dotenv by assumption.
  destruct (dotenv_lines_pairs pairs Hall) as [-> ->].
  rewrite record_all_distinct; [reflexivity | assumption |].
  intros k _ Hin. inversion Hin.
Qed.

Lemma parse_secret_file_env (file_path content : string) :
  fs file_path = Some (RegularFile content) ->
  extension file_path = "env" ->
  snd (parse_env_content content) = [] ->
  run (_parse_secret_file file_path)
  = (inr (as_raw (fst (parse_env_content content))),
     [EvExists file_path; EvOpen file_path]).
Proof.
  intros Hfs Hext Herr.
  unfold run, _parse_secret_file, bind, path_exists, raise, ret.
  rewrite Hfs. cbn [negb]. cbv zeta.
  assert (Hp : FILE_PARSERS !! extension file_path = Some _parse_env_file)
    by (rewrite FILE_PARSERS_lookup, Hext; reflexivity).
  rewrite Hp. unfold _parse_env_file, bind, read_file, ret.
  rewrite Hfs. destruct (parse_env_content content) as [m errors].
  cbn in Herr. now subst errors.
Qed.

(** X12. Writing and reading back variables. For pairs with pairwise
    different keys, each fit for one dotenv line, the dotenv parser reads
    the written file back as exactly those pairs, in order and without any
    error, and [load_variables] returns each key with its value as a
    string. *)
Theorem dotenv_variables_round_trip (pairs : list (string * string)) :
  NoDup (map fst pairs) ->
  Forall dotenv_pair_ok pairs ->
  parse_env_content (render_dotenv pairs)
  = (map (fun pair => (fst pair, [snd pair])) pairs, [])
  /\ forall file_path,
      fs file_path = Some (RegularFile (render_dotenv pairs)) ->
      extension file_path = "env" ->
      run (load_variables file_path)
      = (inr (map (fun pair => (fst pair, VStr (snd pair))) pairs),
         [EvExists file_path; EvOpen file_path]).
Proof.
  intros Hnd Hall.
  pose proof (parse_render_dotenv pairs Hnd Hall) as Hparse.
  split; [assumption|].
  intros file_path Hfs Hext.
  assert (Hrun := parse_secret_file_env _ _ Hfs Hext).
  rewrite Hparse in Hrun. specialize (Hrun eq_refl). cbn [fst] in Hrun.
  rewrite (load_variables_valid _ _ _ Hrun).
  - f_equal. f_equal. unfold as_raw. rewrite !map_map.
    apply map_ext. now intros [k v].
  - clear. induction pairs as [|[k v] pairs IH]; [reflexivity|].
    cbn [map as_raw]. now rewrite invalid_keys_of_cons.
Qed.

Lemma connections_loop_from_uris (file_path : string)
  (pairs : list (string * string)) :
  forall (conns acc : list (string * Conn)) (w : writes),
    NoDup (map fst pairs) ->
    (forall k, k ∈ map fst pairs -> k ∉ dict_keys acc) ->
    Forall2 (fun pair entry =>
               fst entry = fst pair
               /\ Connection [("conn_id", VStr (fst pair));
                              ("uri", VStr (snd pair))]
                  = inr (snd entry)) pairs conns ->
    connections_loop_from file_path
      (as_raw (map (fun pair => (fst pair, [snd pair])) pairs)) acc w
    = inr ((acc ++ conns)%list, w).
Proof.
  induction pairs as [|[k v] pairs IH]; intros conns acc w Hnd Hout Hall.
  - inversion Hall. cbn. now rewrite app_nil_r.
  - inversion Hall as [|? [k' c] ? conns' [Hk Hc] Hall']; subst.
    cbn [fst snd] in *. subst k'.
    cbn [map fst] in Hnd. apply NoDup_cons in Hnd as [Hfresh Hnd].
    cbn [map as_raw fst snd]. rewrite connections_loop_from_step.
    cbn [map unwrap_singleton]. rewrite current_unshared by reflexivity.
    cbn [_create_connection written_by]. rewrite Hc, app_nil_r.
    rewrite dict_set_new by (apply Hout; left).
    change (map (fun '(k0, vs) => (k0, VList (map VStr vs)))
              (map (fun pair => (pair.1, [pair.2])) pairs))
      with (as_raw (map (fun pair => (fst pair, [snd pair])) pairs)).
    rewrite (IH conns'); [now rewrite <- app_assoc | assumption | | assumption].
    intros k' Hk'. unfold dict_keys. rewrite map_app.
    intros Hin. apply elem_of_app in Hin as [Hin|Hin].
    + apply (Hout k'); [now right | assumption].
    + apply list_elem_of_singleton in Hin. cbn in Hin. congruence.
Qed.

Lemma connections_loop_uris (file_path : string)
  (pairs : list (string * string)) :
  forall (conns acc : list (string * Conn)),
    NoDup (map fst pairs) ->
    (forall k, k ∈ map fst pairs -> k ∉ dict_keys acc) ->
    Forall2 (fun pair entry =>
               fst entry = fst pair
               /\ Connection [("conn_id", VStr (fst pair));
                              ("uri", VStr (snd pair))]
                  = inr (snd entry)) pairs conns ->
    connections_loop file_path
      (as_raw (map (fun pair => (fst pair, [snd pair])) pairs)) acc
    = inr (acc ++ conns)%list.
Proof.
  intros conns acc Hnd Hout Hall. unfold connections_loop.
  now rewrite (connections_loop_from_uris file_path pairs conns acc []).
Qed.

(** X13. Writing and reading back connections. For pairs of an id and a
    URI with pairwise different ids, each fit for one dotenv line,
    [load_connections_dict] on the written file returns, in the order of
    the lines, each id with what the constructor returns for
    [Connection(conn_id=id, uri=URI)]. *)
Theorem dotenv_connections_round_trip (pairs : list (string * string))
  (conns : list (string * Conn)) :
  NoDup (map fst pairs) ->
  Forall dotenv_pair_ok pairs ->
  Forall2 (fun pair entry =>
             fst entry = fst pair
             /\ Connection [("conn_id", VStr (fst pair));
                            ("uri", VStr (snd pair))]
                = inr (snd entry)) pairs conns ->
  forall file_path,
    fs file_path = Some (RegularFile (render_dotenv pairs)) ->
    extension file_path = "env" ->
    run (load_connections_dict file_path)
    = (inr conns, [EvExists file_path; EvOpen file_path]).
Proof.
  intros Hnd Hall Hconns file_path Hfs Hext.
  assert (Hrun := parse_secret_file_env _ _ Hfs Hext).
  rewrite (parse_render_dotenv pairs Hnd Hall) in Hrun.
  specialize (Hrun eq_refl). cbn [fst] in Hrun.
  rewrite (load_connections_dict_run _ _ _ Hrun).
  rewrite (connections_loop_uris file_path pairs conns []); auto.
  intros k _ Hin. inversion Hin.
Qed.

(** *** What the builder passes on *)

(** X14. Every outcome of the builder. Whatever the value, the builder
    raises an [AirflowException] of its own, or the [TypeError] of joining
    illegal keys one of which is not a string, or what [json.dumps] raises
    on the [extra_dejson] of an object, or it returns what the constructor
    returns, called with [conn_id] set to the supplied id and without
    [extra_dejson]; it never raises the [KeyError] of its subscript. The
    keyword arguments made of an object hold [extra] as the serialized
    [extra_dejson] when there was one, every other field as it was, and no
    key besides [conn_id], [extra] and the constructor's parameter names. *)
Theorem create_connection_outcomes (conn_id : string) :
  (forall value,
      (exists msg,
          _create_connection conn_id value = inl (AirflowException msg))
      \/ (_create_connection conn_id value = inl TypeError
          /\ exists items k v,
              value = VMapping items
              /\ (k, v) ∈ items /\ type_of k <> TStr)
      \/ (exists fields dejson e,
             object_fields value = Some fields
             /\ dict_get "extra_dejson" fields = Some dejson
             /\ json_dumps dejson = inl e
             /\ _create_connection conn_id value = inl e)
      \/ (exists kwargs,
             _create_connection conn_id value = Connection kwargs
             /\ dict_get "conn_id" kwargs = Some (VStr conn_id)
             /\ dict_get "extra_dejson" kwargs = None
             /\ forall fields,
                 object_fields value = Some fields ->
                 object_kwargs conn_id fields = inr kwargs))
  /\ (forall fields kwargs,
         object_kwargs conn_id fields = inr kwargs ->
         match dict_get "extra_dejson" fields with
         | Some dejson =>
             exists text,
               json_dumps dejson = inr text
               /\ dict_get "extra" kwargs = Some (VStr text)
         | None => dict_get "extra" kwargs = dict_get "extra" fields
         end
         /\ (forall k,
                k <> "conn_id" -> k <> "extra" -> k <> "extra_dejson" ->
                dict_get k kwargs = dict_get k fields)
         /\ ((list_to_set (dict_keys fields) : gset string)
               ⊆ get_connection_parameter_names ∪ {["extra_dejson"]} ->
             forall k,
               k ∈ dict_keys kwargs ->
               k = "conn_id" \/ k = "extra"
               \/ k ∈ get_connection_parameter_names)).
Proof.
  assert (Hobject : forall value fields,
             object_fields value = Some fields ->
             _create_connection conn_id value
             = fst (create_connection_object conn_id fields)).
  { intros value fields Hfields.
    destruct value; try discriminate; cbn in Hfields |- *;
      [now injection Hfields as -> | now injection Hfields as ->
      | now rewrite Hfields]. }
  assert (Hcases : forall fields,
             (exists msg,
                 fst (create_connection_object conn_id fields)
                 = inl (AirflowException msg))
             \/ (exists dejson e,
                    dict_get "extra_dejson" fields = Some dejson
                    /\ json_dumps dejson = inl e
                    /\ fst (create_connection_object conn_id fields) = inl e)
             \/ (exists kwargs,
                    object_kwargs conn_id fields = inr kwargs
                    /\ fst (create_connection_object conn_id fields)
                       = Connection kwargs)).
  { intros fields. rewrite create_connection_object_cases. cbv zeta.
    unfold object_kwargs.
    destruct (bool_decide _); [|left; eauto].
    destruct (dict_in "extra" fields && dict_in "extra_dejson" fields)%bool;
      [left; eauto|].
    pose proof (normalize_extra_cases fields) as Hn.
    destruct (normalize_extra fields) as [e|fields1].
    - right. left.
      destruct (dict_get "extra_dejson" fields) as [dejson|];
        [|discriminate].
      exists dejson, e. split; [reflexivity|].
      destruct (json_dumps dejson); [|discriminate].
      injection Hn as ->. auto.
    - destruct (dict_get "conn_id" fields) as [declared|].
      + destruct (str_ne conn_id declared); [left; eauto|].
        right. right. eauto.
      + right. right. eauto. }
  assert (Hkwargs : forall fields kwargs,
             object_kwargs conn_id fields = inr kwargs ->
             dict_get "conn_id" kwargs = Some (VStr conn_id)
             /\ dict_get "extra_dejson" kwargs = None).
  { intros fields kwargs Hk. unfold object_kwargs in Hk.
    destruct (normalize_extra fields) as [e|fields1] eqn:Hn; [discriminate|].
    injection Hk as <-. split; [apply dict_get_set_eq|].
    rewrite dict_get_set_ne by discriminate.
    now apply (normalize_extra_dejson fields). }
  split.
  - intros value.
    destruct (object_fields value) as [fields|] eqn:Hfields.
    + rewrite (Hobject _ _ Hfields).
      destruct (Hcases fields)
        as [Hraise|[(dejson & e & Hd & He & Hr)|(kwargs & Hk & Hr)]].
      * now left.
      * right. right. left. exists fields, dejson, e. auto.
      * right. right. right. exists kwargs.
        destruct (Hkwargs _ _ Hk) as [Hid Hdejson].
        repeat split; try assumption.
        intros fields' Heq. now injection Heq as <-.
    + destruct value as [| | | |uri| | | |items|];
        try discriminate; try (left; eexists; reflexivity).
      * right. right. right. eexists.
        split; [reflexivity|]. split; [reflexivity|].
        split; [reflexivity | discriminate].
      * cbn in Hfields. right. left. cbn [_create_connection].
        rewrite Hfields. split; [reflexivity|].
        apply str_keyed_None in Hfields as (k & v & Hin & Hty).
        exists items, k, v. auto.
  - intros fields kwargs Hk.
    pose proof (object_kwargs_keys conn_id fields kwargs) as Hkeys.
    unfold object_kwargs in Hk.
    destruct (normalize_extra fields) as [e|fields1] eqn:Hn; [discriminate|].
    injection Hk as <-.
    split; [|split].
    + pose proof (normalize_extra_extra _ _ Hn) as Hextra.
      destruct (dict_get "extra_dejson" fields).
      * destruct Hextra as (text & Hdumps & Hget). exists text.
        split; [assumption|]. now rewrite dict_get_set_ne by discriminate.
      * now rewrite dict_get_set_ne by discriminate.
    + intros k Hc He Hd. rewrite dict_get_set_ne by congruence.
      now apply (normalize_extra_other fields).
    + intros Hsub k Hin.
      assert (Hobj : object_kwargs conn_id fields
                     = inr (dict_set "conn_id" (VStr conn_id) fields1))
        by (unfold object_kwargs; now rewrite Hn).
      destruct (Hkeys k Hobj Hin) as [->|[->|[Hfield Hd]]]; auto.
      right. right.
      assert (Hallowed : k ∈ get_connection_parameter_names
                             ∪ ({["extra_dejson"]} : gset string)).
      { apply Hsub. now apply elem_of_list_to_set. }
      apply elem_of_union in Hallowed as [|Hx]; [assumption|].
      apply elem_of_singleton in Hx. congruence.
Qed.

(** *** The keys of the returned connections *)

(** X15. When [load_connections_dict] returns, it returns one connection
    for every key of the dispatched map whose value is not the empty list,
    under that key and in the order of the map, and nothing else. *)
Theorem load_connections_dict_keys (file_path : string)
  (secrets : list (string * value)) (connections : list (string * Conn))
  (tr tr' : list fs_event) :
  run (_parse_secret_file file_path) = (inr secrets, tr) ->
  NoDup (dict_keys secrets) ->
  run (load_connections_dict file_path) = (inr connections, tr') ->
  dict_keys connections
  = dict_keys (List.filter (fun entry => negb (is_empty_list (snd entry)))
                 secrets)
  /\ NoDup (dict_keys connections)
  /\ tr' = tr.
Proof.
  intros Hparse Hnd Hload.
  rewrite (load_connections_dict_run _ _ _ Hparse) in Hload.
  injection Hload as Hloop <-.
  apply connections_loop_inversion in Hloop as [w Hloop].
  apply connections_loop_from_keys in Hloop; [|assumption|].
  - cbn [dict_keys map app] in Hloop. split; [exact Hloop|].
    split; [|reflexivity]. rewrite Hloop.
    clear -Hnd. induction secrets as [|[k v] secrets IH]; [constructor|].
    cbn [dict_keys map fst] in Hnd. apply NoDup_cons in Hnd as [Hk Hnd].
    cbn [List.filter snd].
    destruct (negb (is_empty_list v)); [|now apply IH].
    cbn [dict_keys map fst]. apply NoDup_cons. split; [|now apply IH].
    intros Hin. apply Hk.
    apply list_elem_of_fmap in Hin as ([k' v'] & -> & Hin).
    apply list_elem_of_In, filter_In in Hin as [Hin _].
    apply list_elem_of_fmap. exists (k', v').
    split; [reflexivity | now apply list_elem_of_In].
  - intros k _ Hin. inversion Hin.
Qed.

(** *** The extension of a path, end to end *)

(** X16. The extension is the text after the last dot, in lower case, and
    a path without any dot is its own extension: a regular file named
    [base.EXT] is dispatched on the lowered [EXT] whatever [base] is, and
    raises the unsupported-format error when that is none of env, json,
    yaml, yml. *)
Theorem extension_after_last_dot (base ext : string) :
  ~ In "."%char (list_ascii_of_string ext) ->
  extension (base ++ String "." ext) = lower ext
  /\ extension ext = lower ext
  /\ (is_Some (fs (base ++ String "." ext)) ->
      lower ext ∉ ["env"; "json"; "yaml"; "yml"] ->
      run (_parse_secret_file (base ++ String "." ext)) =
        (inl (AirflowException
                [Lit "Unsupported file format. The file must have one of the following extensions: .env .json .yaml .yml"]),
         [EvExists (base ++ String "." ext)])).
Proof.
  intros Hnot.
  pose proof (extension_dotted base ext Hnot) as Hext.
  split; [assumption|]. split; [now apply extension_plain|].
  intros [entry Hfs] Hout.
  unfold run, _parse_secret_file, bind, path_exists, raise.
  rewrite Hfs. cbn [negb]. cbv zeta. rewrite Hext.
  apply FILE_PARSERS_unsupported in Hout. now rewrite Hout.
Qed.

(** *** Every way to fail *)

(** X17. Every way for the dispatcher to fail. The path does not exist;
    it exists with an unsupported extension; with a supported extension,
    [open] or [read] raises (for a directory, for a file that may not be
    read or that holds no text); the JSON or the YAML decoder raises an
    exception that the parser does not catch (or decodes a top-level mapping
    that is not represented); or the parser returns errors, and then the
    exception carries the path and exactly the parser's errors. Only with a
    supported extension is the file opened. *)
Theorem parse_secret_file_failures (file_path : string) (e : exn)
  (tr : list fs_event) :
  run (_parse_secret_file file_path) = (inl e, tr) ->
  (fs file_path = None
   /\ e = AirflowException
            [Lit "File "; FStr file_path;
             Lit " was not found. Check the configuration of your Secrets backend."]
   /\ tr = [EvExists file_path])
  \/ (is_Some (fs file_path)
      /\ (extension file_path ∉ ["env"; "json"; "yaml"; "yml"])
      /\ e = AirflowException
               [Lit "Unsupported file format. The file must have one of the following extensions: .env .json .yaml .yml"]
      /\ tr = [EvExists file_path])
  \/ (extension file_path ∈ ["env"; "json"; "yaml"; "yml"]
      /\ tr = [EvExists file_path; EvOpen file_path]
      /\ ((fs file_path = Some Directory /\ e = OSError file_path)
          \/ fs file_path = Some (Unreadable e)
          \/ (exists content,
                 fs file_path = Some (RegularFile content)
                 /\ ((extension file_path = "json"
                      /\ parse_json_content content = inl e
                      /\ content <> EmptyString
                      /\ (json_loads content = JsonRaises e
                          \/ (e = Unrepresented
                              /\ exists v,
                                  json_loads content = JsonValue v
                                  /\ type_of v = TDict)))
                     \/ ((extension file_path = "yaml"
                          \/ extension file_path = "yml")
                         /\ parse_yaml_content content = inl e
                         /\ content <> EmptyString
                         /\ (yaml_safe_load content = YamlRaises e
                             \/ (e = Unrepresented
                                 /\ exists v,
                                     yaml_safe_load content = YamlValue v
                                     /\ type_of v = TDict)))))
          \/ (exists content errors,
                 fs file_path = Some (RegularFile content)
                 /\ errors <> []
                 /\ e = AirflowFileParseException
                          [Lit "Failed to load the secret file."]
                          file_path errors
                 /\ ((extension file_path = "env"
                      /\ errors = snd (parse_env_content content))
                     \/ (extension file_path = "json"
                         /\ exists secrets,
                             parse_json_content content
                             = inr (secrets, errors))
                     \/ ((extension file_path = "yaml"
                          \/ extension file_path = "yml")
                         /\ exists secrets,
                             parse_yaml_content content
                             = inr (secrets, errors)))))).
Proof.
  unfold run, _parse_secret_file, bind, path_exists, raise, ret.
  destruct (fs file_path) as [entry|] eqn:Hfs; cbn [negb]; cbv zeta.
  2:{ intros Heq. injection Heq as <- <-. left. auto. }
  destruct (FILE_PARSERS !! extension file_path) as [parser|] eqn:Hp.
  2:{ intros Heq. injection Heq as <- <-. right. left.
      apply FILE_PARSERS_unsupported in Hp. eauto 6. }
  assert (Hsupported : extension file_path ∈ ["env"; "json"; "yaml"; "yml"]).
  { destruct (decide (extension file_path ∈ ["env"; "json"; "yaml"; "yml"]))
      as [|Hout]; [assumption|].
    apply FILE_PARSERS_unsupported in Hout. congruence. }
  rewrite FILE_PARSERS_lookup in Hp.
  intros Hrun. right. right. split; [assumption|].
  destruct entry as [content| |error].
  - assert (Hyaml : parser = _parse_yaml_file ->
              tr = [EvExists file_path; EvOpen file_path]
              /\ ((parse_yaml_content content = inl e
                   /\ content <> EmptyString
                   /\ (yaml_safe_load content = YamlRaises e
                       \/ (e = Unrepresented
                           /\ exists v,
                               yaml_safe_load content = YamlValue v
                               /\ type_of v = TDict)))
                  \/ (exists secrets errors,
                         errors <> []
                         /\ e = AirflowFileParseException
                                  [Lit "Failed to load the secret file."]
                                  file_path errors
                         /\ parse_yaml_content content
                            = inr (secrets, errors)))).
    { intros ->. unfold _parse_yaml_file, bind, read_file, lift in Hrun.
      rewrite Hfs in Hrun.
      destruct (parse_yaml_content content) as [e0|[m [|e0 errors]]]
        eqn:Hparse; try discriminate; injection Hrun as <- <-;
        (split; [reflexivity|]).
      - left. split; [reflexivity|].
        now apply parse_yaml_content_raises.
      - right. exists m, (e0 :: errors). repeat split. discriminate. }
    repeat case_decide; try discriminate; injection Hp as Hparser.
    + subst parser.
      unfold _parse_env_file, bind, read_file, ret in Hrun.
      rewrite Hfs in Hrun.
      destruct (parse_env_content content) as [m [|e0 errors]] eqn:Hparse;
        [discriminate|]. injection Hrun as <- <-.
      split; [reflexivity|]. right. right. right.
      exists content, (e0 :: errors).
      split; [reflexivity|]. split; [discriminate|].
      split; [reflexivity|]. left. split; [assumption|].
      now rewrite Hparse.
    + subst parser.
      unfold _parse_json_file, bind, read_file, lift in Hrun.
      rewrite Hfs in Hrun.
      destruct (parse_json_content content) as [e0|[m [|e0 errors]]]
        eqn:Hparse; try discriminate; injection Hrun as <- <-;
        (split; [reflexivity|]).
      * right. right. left. exists content. split; [reflexivity|].
        left. split; [assumption|]. split; [assumption|].
        now apply parse_json_content_raises.
      * right. right. right. exists content, (e0 :: errors).
        split; [reflexivity|]. split; [discriminate|].
        split; [reflexivity|]. right. left. eauto.
    + destruct (Hyaml (eq_sym Hparser))
        as [-> [(Hraise & Hne & Hdec)|(m & errors & Hne & -> & Hparse)]];
        (split; [reflexivity|]).
      * right. right. left. exists content. split; [reflexivity|].
        right. auto.
      * right. right. right. exists content, errors.
        split; [reflexivity|]. split; [assumption|].
        split; [reflexivity|]. right. right. eauto.
    + destruct (Hyaml (eq_sym Hparser))
        as [-> [(Hraise & Hne & Hdec)|(m & errors & Hne & -> & Hparse)]];
        (split; [reflexivity|]).
      * right. right. left. exists content. split; [reflexivity|].
        right. auto.
      * right. right. right. exists content, errors.
        split; [reflexivity|]. split; [assumption|].
        split; [reflexivity|]. right. right. eauto.
  - repeat case_decide; try discriminate; injection Hp as <-;
      unfold _parse_env_file, _parse_json_file, _parse_yaml_file, bind,
        read_file, ret, lift in Hrun; rewrite Hfs in Hrun;
      injection Hrun as <- <-; auto.
  - repeat case_decide; try discriminate; injection Hp as <-;
      unfold _parse_env_file, _parse_json_file, _parse_yaml_file, bind,
        read_file, ret, lift in Hrun; rewrite Hfs in Hrun;
      injection Hrun as <- <-; auto.
Qed.

(** X18. [load_variables] fails only with what the dispatcher raised or
    with its own multiple-values error for a map the dispatcher returned;
    its subscript [values[0]] never raises [IndexError]. *)
Theorem load_variables_failures (file_path : string) (e : exn)
  (tr : list fs_event) :
  run (load_variables file_path) = (inl e, tr) ->
  run (_parse_secret_file file_path) = (inl e, tr)
  \/ (exists secrets,
         run (_parse_secret_file file_path) = (inr secrets, tr)
         /\ invalid_keys_of secrets <> []
         /\ e = AirflowException
                  [Lit ("The " ++ dquote); FStr file_path;
                   Lit (dquote ++ " file contains multiple values for keys: ");
                   FStrList (invalid_keys_of secrets)]).
Proof.
  unfold run, load_variables, bind.
  destruct (_parse_secret_file file_path []) as [[e'|secrets] tr'].
  - intros Heq. left. exact Heq.
  - destruct (invalid_keys_of secrets) as [|k ks] eqn:Hinv.
    + unfold lift. rewrite (unwrap_all_valid _ Hinv). discriminate.
    + unfold raise. intros Heq. injection Heq as <- <-. right.
      exists secrets. rewrite Hinv. repeat split. discriminate.
Qed.

(** X19. [load_connections_dict] fails only with what the dispatcher
    raised, or, for a map the dispatcher returned, at the first key, in the
    order of the map, at which the loop raises: with [ConnectionNotUnique]
    for a key whose list has more than one element, or with what the
    builder raised for the key's value (a singleton list unwrapped), read
    as the builds under the earlier keys have left it. *)
Theorem load_connections_dict_failures (file_path : string) (e : exn)
  (tr : list fs_event) :
  run (load_connections_dict file_path) = (inl e, tr) ->
  run (_parse_secret_file file_path) = (inl e, tr)
  \/ (exists secrets pre key v post acc w,
         run (_parse_secret_file file_path) = (inr secrets, tr)
         /\ secrets = (pre ++ (key, v) :: post)%list
         /\ connections_loop_from file_path pre [] [] = inr (acc, w)
         /\ ((exists values,
                 v = VList values /\ (1 < length values)%nat
                 /\ e = ConnectionNotUnique
                          [Lit "Found multiple values for "; FStr key;
                           Lit " in "; FStr file_path; Lit "."])
             \/ (is_empty_list v = false
                 /\ (forall values,
                        v = VList values -> length values = 1%nat)
                 /\ _create_connection key (current w (unwrap_singleton v))
                    = inl e))).
Proof.
  unfold run, load_connections_dict, bind, lift.
  destruct (_parse_secret_file file_path []) as [[e'|secrets] tr'].
  - intros Heq. injection Heq as <- <-. now left.
  - intros Heq. injection Heq as Hloop <-. right.
    unfold connections_loop in Hloop.
    destruct (connections_loop_from file_path secrets [] [])
      as [e'|[connections w']] eqn:Hfrom; [|discriminate].
    injection Hloop as ->.
    apply connections_loop_from_failure in Hfrom
      as (pre & key & v & post & acc & w & Hitems & Hpre & Hcase).
    exists secrets, pre, key, v, post, acc, w. auto.
Qed.

End LocalFilesystem.

(** ** The program on the sample installation *)

Local Abbreviation sample_parse_secret_file :=
  (_parse_secret_file Sample.fs Sample.COMMENT_PATTERN Sample.json_loads
     Sample.yaml_safe_load).
Local Abbreviation sample_load_variables :=
  (load_variables Sample.fs Sample.COMMENT_PATTERN Sample.json_loads
     Sample.yaml_safe_load).
Local Abbreviation sample_create_connection :=
  (_create_connection Sample.json_dumps Sample.Conn
     Sample.get_connection_parameter_names Sample.Connection).
Local Abbreviation sample_connections_loop :=
  (connections_loop Sample.json_dumps Sample.Conn
     Sample.get_connection_parameter_names Sample.Connection).
Local Abbreviation sample_connections_loop_from :=
  (connections_loop_from Sample.json_dumps Sample.Conn
     Sample.get_connection_parameter_names Sample.Connection).
Local Abbreviation sample_written_by :=
  (written_by Sample.json_dumps Sample.Conn
     Sample.get_connection_parameter_names Sample.Connection).
Local Abbreviation sample_load_connections_dict :=
  (load_connections_dict Sample.fs Sample.COMMENT_PATTERN Sample.json_loads
     Sample.yaml_safe_load Sample.json_dumps Sample.Conn
     Sample.get_connection_parameter_names Sample.Connection).
Local Abbreviation sample_parse_env_content :=
  (parse_env_content Sample.COMMENT_PATTERN).

(** The dispatcher on a missing path, on a text file, on a dotenv file with
    four faulty lines, on a JSON file, and on a JSON file whose name ends in
    capitals. *)
Lemma parse_secret_file_dispatch_witness :
  run (sample_parse_secret_file "missing.json") =
    (inl (AirflowException
            [Lit "File "; FStr "missing.json";
             Lit " was not found. Check the configuration of your Secrets backend."]),
     [EvExists "missing.json"])
  /\ run (sample_parse_secret_file "notes.txt") =
       (inl (AirflowException
               [Lit "Unsupported file format. The file must have one of the following extensions: .env .json .yaml .yml"]),
        [EvExists "notes.txt"])
  /\ run (sample_parse_secret_file "broken.env") =
       (inl (AirflowFileParseException
               [Lit "Failed to load the secret file."] "broken.env"
               [mkFileSyntaxError 3 msg_no_equal_sign;
                mkFileSyntaxError 4 msg_key_empty]),
        [EvExists "broken.env"; EvOpen "broken.env"])
  /\ run (sample_parse_secret_file "variables.json") =
       (inr [("A", VStr "1")],
        [EvExists "variables.json"; EvOpen "variables.json"])
  /\ (extension "conf.d/Secrets.JSON" = lower "JSON"
      /\ extension "conf.d/Secrets.JSON" ∈ ["env"; "json"; "yaml"; "yml"])
  /\ run (_parse_secret_file (single_file "conf.d/Secrets.JSON" json_A1)
            Sample.COMMENT_PATTERN Sample.json_loads Sample.yaml_safe_load
            "conf.d/Secrets.JSON")
     = (inr [("A", VStr "1")],
        [EvExists "conf.d/Secrets.JSON"; EvOpen "conf.d/Secrets.JSON"])
  /\ (extension "YML" = lower "YML"
      /\ extension "YML" ∈ ["env"; "json"; "yaml"; "yml"]).
Proof.
  pose proof (parse_secret_file_dispatch Sample.fs Sample.COMMENT_PATTERN
                Sample.json_loads Sample.yaml_safe_load) as Hdispatch.
  pose proof (parse_secret_file_dispatch
                (single_file "conf.d/Secrets.JSON" json_A1)
                Sample.COMMENT_PATTERN Sample.json_loads
                Sample.yaml_safe_load "conf.d/Secrets.JSON")
    as (_ & _ & Hcapitals & Hdotted & _).
  split; [|split; [|split; [|split; [|split; [|split]]]]].
  - apply (proj1 (Hdispatch "missing.json")). reflexivity.
  - apply (proj1 (proj2 (Hdispatch "notes.txt"))).
    + eexists. reflexivity.
    + decide_by_computation.
  - destruct (proj1 (proj2 (proj2 (Hdispatch "broken.env"))))
      as (parser & Hp & Hrun).
    + eexists. reflexivity.
    + decide_by_computation.
    + rewrite FILE_PARSERS_lookup in Hp. injection Hp as <-.
      refine (proj1 (Hrun _ _ _ _) _); [by_computation | discriminate].
  - destruct (proj1 (proj2 (proj2 (Hdispatch "variables.json"))))
      as (parser & Hp & Hrun).
    + eexists. reflexivity.
    + decide_by_computation.
    + rewrite FILE_PARSERS_lookup in Hp. injection Hp as <-.
      refine (proj2 (Hrun _ _ _ _) _); [by_computation | reflexivity].
  - destruct (Hdotted "conf.d/Secrets" "JSON") as [Hext Hcase].
    + no_equal_sign_by_cases.
    + reflexivity.
    + split; [exact Hext|]. apply Hcase. exists "json".
      split; [decide_by_computation | reflexivity].
  - destruct Hcapitals as (parser & Hp & Hrun).
    + eexists. reflexivity.
    + decide_by_computation.
    + rewrite FILE_PARSERS_lookup in Hp. injection Hp as <-.
      refine (proj2 (Hrun _ _ _ _) _); [by_computation | reflexivity].
  - destruct (proj2 (proj2 (proj2 (proj2 (Hdispatch "YML")))))
      as [Hext Hcase].
    + no_equal_sign_by_cases.
    + split; [exact Hext|]. apply Hcase. exists "yml".
      split; [decide_by_computation | reflexivity].
Defined.



(** The variable resolver on the two contents of the specification. *)
Lemma load_variables_cases_witness :
  run (sample_load_variables "variables.env") =
    (inl (AirflowException
            [Lit ("The " ++ dquote); FStr "variables.env";
             Lit (dquote ++ " file contains multiple values for keys: ");
             FStrList ["A"]]),
     [EvExists "variables.env"; EvOpen "variables.env"])
  /\ run (sample_load_variables "variables.json") =
       (inr [("A", VStr "1")],
        [EvExists "variables.json"; EvOpen "variables.json"])
  /\ result (sample_load_variables "variables.env") =
       inl (AirflowException
              [Lit ("The " ++ dquote); FStr "variables.env";
               Lit (dquote ++ " file contains multiple values for keys: ");
               FStrList ["A"]])
  /\ result (sample_load_variables "variables.json") = inr [("A", VStr "1")].
Proof.
  destruct (load_variables_cases Sample.fs Sample.COMMENT_PATTERN
              Sample.json_loads Sample.yaml_safe_load)
    as (Hgeneral & Hdotenv & Hjson).
  split; [|split; [|split]].
  - destruct (Hgeneral "variables.env" [("A", VList [VStr "1"; VStr "2"])]
                [EvExists "variables.env"; EvOpen "variables.env"])
      as (_ & Hfail & _); [by_computation|].
    apply Hfail. discriminate.
  - destruct (Hgeneral "variables.json" [("A", VStr "1")]
                [EvExists "variables.json"; EvOpen "variables.json"])
      as (_ & _ & Hok); [by_computation|].
    apply Hok. reflexivity.
  - apply Hdotenv; reflexivity.
  - apply Hjson; reflexivity.
Defined.



(** C10 as first stated fails: the map decoded from [{"a": [], "b": 5}]
    holds the key [a] with an empty list, and [load_connections_dict] does
    not return a mapping for it: it raises on the number under [b]. *)
Lemma empty_list_value_counterexample :
  run (sample_parse_secret_file "mixed.json") =
    (inr [("a", VList []); ("b", VInt 5)],
     [EvExists "mixed.json"; EvOpen "mixed.json"])
  /\ result (sample_load_connections_dict "mixed.json") =
       inl (AirflowException
              [Lit "Unexpected value type: "; FType TInt;
               Lit ". The connection can only be defined using a string or object."]).
Proof. split; by_computation. Defined.

(** The empty list in the loop, in the returned mapping and in the two
    resolvers. *)
Lemma empty_list_value_witness :
  sample_connections_loop "c.json"
    [("db", VStr "sqlite://"); ("a", VList []); ("n", VInt 5)] []
  = sample_connections_loop "c.json"
      [("db", VStr "sqlite://"); ("n", VInt 5)] []
  /\ dict_get "a"
       ([("db", [("conn_id", VStr "db"); ("uri", VStr "sqlite://")])]
        : list (string * Sample.Conn)) = None
  /\ ("a" ∈ invalid_keys_of [("a", VList []); ("b", VInt 5)]
      /\ run (sample_load_variables "mixed.json") =
           (inl (AirflowException
                   [Lit ("The " ++ dquote); FStr "mixed.json";
                    Lit (dquote ++ " file contains multiple values for keys: ");
                    FStrList ["a"]]),
            [EvExists "mixed.json"; EvOpen "mixed.json"]))
  /\ (result (sample_load_connections_dict "connections.json") = inr []
      /\ result (sample_load_variables "connections.json") =
           inl (AirflowException
                  [Lit ("The " ++ dquote); FStr "connections.json";
                   Lit (dquote ++ " file contains multiple values for keys: ");
                   FStrList ["a"]])).
Proof.
  pose proof (empty_list_value Sample.fs Sample.COMMENT_PATTERN
                Sample.json_loads Sample.yaml_safe_load Sample.json_dumps
                Sample.Conn Sample.get_connection_parameter_names
                Sample.Connection) as Hempty.
  split; [|split; [|split]].
  - apply (proj1 (Hempty "c.json") [("db", VStr "sqlite://")] "a"
             [("n", VInt 5)] []).
  - apply (proj1 (proj2 (Hempty "c.json"))
             [("db", VStr "sqlite://"); ("a", VList [])] "a").
    + decide_by_computation.
    + right. left.
    + reflexivity.
  - apply (proj1 (proj2 (proj2 (Hempty "mixed.json")))
             [("a", VList []); ("b", VInt 5)]
             [EvExists "mixed.json"; EvOpen "mixed.json"] "a").
    + by_computation.
    + left.
  - apply (proj2 (proj2 (proj2 (Hempty "connections.json"))));
      reflexivity.
Defined.

Local Abbreviation sample_parse_env_file :=
  (_parse_env_file Sample.fs Sample.COMMENT_PATTERN).

(** C5 as first stated fails: a line of three spaces is blank, and it is
    not skipped: the comment pattern does not match it, and the dotenv
    parser reports it as a line without equal sign. *)
Lemma dotenv_skipped_lines_counterexample :
  Sample.COMMENT_PATTERN "   " = false
  /\ run (sample_parse_env_file "spaces.env")
     = (inr ([], [mkFileSyntaxError 1 msg_no_equal_sign]),
        [EvOpen "spaces.env"])
  /\ run (sample_parse_secret_file "spaces.env")
     = (inl (AirflowFileParseException
               [Lit "Failed to load the secret file."] "spaces.env"
               [mkFileSyntaxError 1 msg_no_equal_sign]),
        [EvExists "spaces.env"; EvOpen "spaces.env"]).
Proof. repeat split; by_computation. Defined.

(** The dotenv parser on a file with a comment, an empty line and a line
    without equal sign: lines 1 and 2 leave no error, line 3 leaves one. *)
Lemma dotenv_skipped_lines_witness :
  run (sample_parse_env_file "broken.env")
  = (inr (as_raw (fst (sample_parse_env_content Sample.dotenv_broken)),
          snd (sample_parse_env_content Sample.dotenv_broken)),
     [EvOpen "broken.env"])
  /\ (exists secrets errors,
         run (sample_parse_env_file "broken.env")
         = (inr (secrets, errors), [EvOpen "broken.env"])
         /\ errors_at 3 errors = [mkFileSyntaxError 3 msg_no_equal_sign]
         /\ secrets
            = as_raw (fst (env_loop Sample.COMMENT_PATTERN 1
                             ["# comment"; EmptyString; "KEY="; "=x"; "A=1";
                              "A=2"] ([], []))))
  /\ (exists secrets errors,
         run (sample_parse_env_file "broken.env")
         = (inr (secrets, errors), [EvOpen "broken.env"])
         /\ errors_at 2 errors = [])
  /\ (ignored Sample.COMMENT_PATTERN "  # note" = true
      /\ ignored Sample.COMMENT_PATTERN EmptyString = true)
  /\ errors_at 1 (snd (sample_parse_env_content Sample.dotenv_broken)) = []
  /\ errors_at 2 (snd (sample_parse_env_content Sample.dotenv_broken)) = []
  /\ errors_at 3 (snd (sample_parse_env_content Sample.dotenv_broken))
     = [mkFileSyntaxError 3 msg_no_equal_sign]
  /\ fst (sample_parse_env_content Sample.dotenv_broken)
     = fst (env_loop Sample.COMMENT_PATTERN 1
              ["# comment"; EmptyString; "KEY="; "=x"; "A=1"; "A=2"] ([], []))
  /\ sample_parse_env_content Sample.dotenv_broken
     = env_loop Sample.COMMENT_PATTERN 4 ["KEY="; "=x"; "A=1"; "A=2"]
         (env_loop Sample.COMMENT_PATTERN 1
            ["# comment"; EmptyString; "NOEQUAL"] ([], [])).
Proof.
  pose proof (dotenv_skipped_lines Sample.fs Sample.COMMENT_PATTERN
                Sample.dotenv_broken)
    as (Hfile & Hline & Hwhich & Hignored & Hmissing & Hskip & Hcontinue).
  split; [|split; [|split; [|split; [|split; [|split; [|split; [|split]]]]]]].
  - apply (Hfile "broken.env" []). reflexivity.
  - destruct (Hline "broken.env" [] ["# comment"; EmptyString] "NOEQUAL"
                ["KEY="; "=x"; "A=1"; "A=2"] eq_refl eq_refl)
      as (secrets & errors & Hrun & _ & Herror & Hmap).
    exists secrets, errors. split; [exact Hrun|]. split.
    + apply Herror; [reflexivity|]. unfold no_equal_sign.
      no_equal_sign_by_cases.
    + apply Hmap. right. unfold no_equal_sign. no_equal_sign_by_cases.
  - destruct (Hline "broken.env" [] ["# comment"] EmptyString
                ["NOEQUAL"; "KEY="; "=x"; "A=1"; "A=2"] eq_refl eq_refl)
      as (secrets & errors & Hrun & Hnone & _).
    exists secrets, errors. split; [exact Hrun|]. now apply Hnone.
  - split.
    + apply (Hwhich "  # note"). now right.
    + apply (Hwhich EmptyString). now left.
  - apply (Hignored 0%nat "# comment"); reflexivity.
  - apply (Hignored 1%nat EmptyString); reflexivity.
  - apply (Hmissing 2%nat "NOEQUAL"); try reflexivity.
    unfold no_equal_sign. no_equal_sign_by_cases.
  - apply (Hskip ["# comment"; EmptyString] "NOEQUAL"
             ["KEY="; "=x"; "A=1"; "A=2"]); [reflexivity|].
    right. unfold no_equal_sign. no_equal_sign_by_cases.
  - apply (Hcontinue ["# comment"; EmptyString; "NOEQUAL"]
             ["KEY="; "=x"; "A=1"; "A=2"]). reflexivity.
Defined.

(** The dotenv parser on the line [KEY=] of the same file, and on the key
    [A] that comes twice. *)
Lemma dotenv_empty_value_witness :
  run (sample_parse_env_file "broken.env")
  = (inr (as_raw (fst (sample_parse_env_content Sample.dotenv_broken)),
          snd (sample_parse_env_content Sample.dotenv_broken)),
     [EvOpen "broken.env"])
  /\ (exists secrets errors,
         run (sample_parse_env_file "broken.env")
         = (inr (secrets, errors), [EvOpen "broken.env"])
         /\ errors_at 4 errors
            = [mkFileSyntaxError 4 "Invalid line format. Key is empty."]
         /\ dict_get "KEY" secrets = Some (VList [VStr EmptyString]))
  /\ errors_at 4 (snd (sample_parse_env_content Sample.dotenv_broken))
     = [mkFileSyntaxError 4 "Invalid line format. Key is empty."]
  /\ dict_get "KEY" (fst (sample_parse_env_content Sample.dotenv_broken))
     = Some [EmptyString]
  /\ dict_get "A" (fst (sample_parse_env_content Sample.dotenv_broken))
     = Some ["1"; "2"].
Proof.
  pose proof (dotenv_empty_value Sample.fs Sample.COMMENT_PATTERN
                Sample.dotenv_broken)
    as (Hfile & Hline & Herror & Hrecorded & Hvalues).
  split; [|split; [|split; [|split]]].
  - apply (Hfile "broken.env" []). reflexivity.
  - apply (Hline "broken.env" [] ["# comment"; EmptyString; "NOEQUAL"] "KEY"
             ["=x"; "A=1"; "A=2"]); try reflexivity.
    no_equal_sign_by_cases.
  - apply (Herror 3%nat "KEY"); try reflexivity. no_equal_sign_by_cases.
  - apply (Hrecorded ["# comment"; EmptyString; "NOEQUAL"] "KEY"
             ["=x"; "A=1"; "A=2"]); try reflexivity.
    no_equal_sign_by_cases.
  - apply (Hvalues "A").
Defined.



(** C7 as first stated fails: the YAML reader refuses the control character
    U+0001 with a [ReaderError], which is no [MarkedYAMLError]; the parser
    does not catch it and returns no error record, and the dispatcher and
    the resolvers raise it. A file that may not be read raises too. *)
Lemma json_yaml_parsers_counterexample :
  parse_yaml_content Sample.yaml_safe_load Sample.yaml_control_character
  = inl ReaderError
  /\ run (_parse_yaml_file Sample.fs Sample.yaml_safe_load "control.yaml")
     = (inl ReaderError, [EvOpen "control.yaml"])
  /\ run (sample_parse_secret_file "control.yaml")
     = (inl ReaderError, [EvExists "control.yaml"; EvOpen "control.yaml"])
  /\ run (sample_load_variables "control.yaml")
     = (inl ReaderError, [EvExists "control.yaml"; EvOpen "control.yaml"])
  /\ run (_parse_json_file Sample.fs Sample.json_loads "locked.json")
     = (inl (OtherError "PermissionError"), [EvOpen "locked.json"]).
Proof. repeat split; by_computation. Defined.

(** The JSON and YAML parsers on a list, on a malformed JSON content, on a
    decoder that raises the caught error with and without mark, on the
    character that the YAML reader refuses, on objects, and on files. *)
Lemma json_yaml_parsers_witness :
  (parse_json_content Sample.json_loads "[1]"
   = inr ([], [mkFileSyntaxError 1 "The file should contain the object."])
   /\ parse_yaml_content Sample.yaml_safe_load "- 1"
      = inr ([], [mkFileSyntaxError 1 "The file should contain the object."]))
  /\ parse_json_content Sample.json_loads "{"
     = inr ([], [mkFileSyntaxError 1
                   "Expecting property name enclosed in double quotes"])
  /\ parse_yaml_content
       (Sample.yaml_error_at 2 0 "mapping values are not allowed here")
       "a: b: c"
     = inr ([], [mkFileSyntaxError 2 "mapping values are not allowed here"])
  /\ parse_yaml_content (Sample.yaml_error_unmarked "no mark") "a: b: c"
     = inr ([], [mkFileSyntaxError (-1) "no mark"])
  /\ parse_yaml_content Sample.yaml_safe_load Sample.yaml_control_character
     = inl ReaderError
  /\ (parse_json_content Sample.json_loads json_A1
      = inr ([("A", VStr "1")], [])
      /\ parse_yaml_content Sample.yaml_safe_load "a: b"
         = inr ([("a", VStr "b")], []))
  /\ (_parse_json_file Sample.fs Sample.json_loads "bad.json" []
      = (parse_json_content Sample.json_loads "{", [EvOpen "bad.json"])
      /\ _parse_yaml_file Sample.fs Sample.yaml_safe_load "empty.yaml" []
         = (inr ([], [mkFileSyntaxError 1 "The file is empty."]),
            [EvOpen "empty.yaml"]))
  /\ _parse_json_file Sample.fs Sample.json_loads "locked.json" []
     = (inl (OtherError "PermissionError"), [EvOpen "locked.json"]).
Proof.
  destruct (json_yaml_parsers Sample.fs Sample.json_loads
              Sample.yaml_safe_load)
    as ([_ Hempty] & Hother & Hjson & _ & Hraises & Hobject & Hfile & Hopen).
  split; [|split; [|split; [|split; [|split; [|split; [|split]]]]]].
  - split.
    + apply (proj1 (Hother "[1]" (VList [VInt 1])
                      ltac:(discriminate) ltac:(discriminate))).
      reflexivity.
    + apply (proj2 (Hother "- 1" (VList [VInt 1])
                      ltac:(discriminate) ltac:(discriminate))).
      reflexivity.
  - apply Hjson; [discriminate | reflexivity].
  - apply (proj1 (proj2 (proj2 (proj2
             (json_yaml_parsers Sample.fs Sample.json_loads
                (Sample.yaml_error_at 2 0
                   "mapping values are not allowed here")))))
             "a: b: c" (Some (mkMark 2 0)));
      [discriminate | reflexivity].
  - apply (proj1 (proj2 (proj2 (proj2
             (json_yaml_parsers Sample.fs Sample.json_loads
                (Sample.yaml_error_unmarked "no mark")))))
             "a: b: c" None);
      [discriminate | reflexivity].
  - apply (proj2 (Hraises Sample.yaml_control_character ReaderError
                    ltac:(discriminate))).
    reflexivity.
  - split.
    + apply (proj1 (Hobject json_A1 _ ltac:(discriminate))). reflexivity.
    + apply (proj2 (Hobject "a: b" _ ltac:(discriminate))). reflexivity.
  - split.
    + apply (proj1 (Hfile "bad.json" "{" [] eq_refl)).
    + rewrite <- Hempty.
      apply (proj2 (Hfile "empty.yaml" EmptyString [] eq_refl)).
  - apply (proj1 (Hopen "locked.json" (OtherError "PermissionError") []
                    eq_refl)).
Defined.

Local Abbreviation sample_get_variable :=
  (get_variable Sample.fs Sample.COMMENT_PATTERN Sample.json_loads
     Sample.yaml_safe_load).
Local Abbreviation sample_get_connection :=
  (get_connection Sample.fs Sample.COMMENT_PATTERN Sample.json_loads
     Sample.yaml_safe_load Sample.json_dumps Sample.Conn
     Sample.get_connection_parameter_names Sample.Connection).

(** The facade with no file, with files that lack the key, and with a
    missing or unsupported file. *)
Lemma backend_lookups_witness :
  sample_get_variable (mkBackend None None) "A" [EvOpen "elsewhere"]
  = (inr None, [EvOpen "elsewhere"])
  /\ sample_get_connection (mkBackend None (Some EmptyString)) "db" []
     = (inr None, [])
  /\ run (sample_get_variable
            (mkBackend (Some "variables.json") (Some "connections.json")) "B")
     = (inr None, [EvExists "variables.json"; EvOpen "variables.json"])
  /\ run (sample_get_connection
            (mkBackend (Some "variables.json") (Some "connections.json")) "a")
     = (inr None, [EvExists "connections.json"; EvOpen "connections.json"])
  /\ result (sample_get_variable
               (mkBackend (Some "missing.json") (Some "notes.txt")) "A")
     = inl (AirflowException
              [Lit "File "; FStr "missing.json";
               Lit " was not found. Check the configuration of your Secrets backend."])
  /\ result (sample_get_connection
               (mkBackend (Some "missing.json") (Some "notes.txt")) "db")
     = inl (AirflowException
              [Lit "Unsupported file format. The file must have one of the following extensions: .env .json .yaml .yml"]).
Proof.
  pose proof (backend_lookups Sample.fs Sample.COMMENT_PATTERN
                Sample.json_loads Sample.yaml_safe_load Sample.json_dumps
                Sample.Conn Sample.get_connection_parameter_names
                Sample.Connection) as Hlookups.
  split; [|split; [|split; [|split; [|split]]]].
  - apply (proj1 (Hlookups (mkBackend None None))). reflexivity.
  - apply (proj1 (proj2 (Hlookups (mkBackend None (Some EmptyString))))).
    reflexivity.
  - apply (proj1 (proj2 (proj2 (Hlookups
             (mkBackend (Some "variables.json") (Some "connections.json")))))
             "variables.json" "B" [("A", VStr "1")]);
      [reflexivity | discriminate | by_computation | reflexivity].
  - apply (proj1 (proj2 (proj2 (proj2 (Hlookups
             (mkBackend (Some "variables.json") (Some "connections.json"))))))
             "connections.json" "a" []);
      [reflexivity | discriminate | by_computation | reflexivity].
  - apply (proj1 (proj2 (proj2 (proj2 (proj2 (Hlookups
             (mkBackend (Some "missing.json") (Some "notes.txt")))))))
             "missing.json");
      [reflexivity | discriminate | by_computation].
  - apply (proj2 (proj2 (proj2 (proj2 (proj2 (Hlookups
             (mkBackend (Some "missing.json") (Some "notes.txt")))))))
             "notes.txt");
      [reflexivity | discriminate | by_computation].
Defined.

(** The facade finds the key [A] of the sample JSON file, as a variable and
    as a connection. *)
Lemma lookups_found_witness :
  run (sample_get_variable (mkBackend (Some "variables.json") None) "A")
  = (inr (Some (VStr "1")),
     [EvExists "variables.json"; EvOpen "variables.json"])
  /\ run (sample_get_connection (mkBackend None (Some "variables.json")) "A")
     = (inr (Some [("conn_id", VStr "A"); ("uri", VStr "1")]),
        [EvExists "variables.json"; EvOpen "variables.json";
         EvExists "variables.json"; EvOpen "variables.json"]).
Proof.
  split.
  - apply (proj1 (lookups_found Sample.fs Sample.COMMENT_PATTERN
                    Sample.json_loads Sample.yaml_safe_load Sample.json_dumps
                    Sample.Conn Sample.get_connection_parameter_names
                    Sample.Connection
                    (mkBackend (Some "variables.json") None))
             "variables.json" "A" [("A", VStr "1")]);
      [reflexivity | discriminate | by_computation | reflexivity].
  - apply (proj2 (lookups_found Sample.fs Sample.COMMENT_PATTERN
                    Sample.json_loads Sample.yaml_safe_load Sample.json_dumps
                    Sample.Conn Sample.get_connection_parameter_names
                    Sample.Connection
                    (mkBackend None (Some "variables.json")))
             "variables.json" "A"
             [("A", [("conn_id", VStr "A"); ("uri", VStr "1")])]
             [EvExists "variables.json"; EvOpen "variables.json"]);
      [reflexivity | discriminate | by_computation | reflexivity].
Defined.

(** The map the dispatcher returns for the sample JSON file is the object
    decoded from its content. *)
Lemma parse_secret_file_returns_witness :
  exists content,
    Sample.fs "variables.json" = Some (RegularFile content)
    /\ [EvExists "variables.json"; EvOpen "variables.json"]
       = [EvExists "variables.json"; EvOpen "variables.json"]
    /\ ((extension "variables.json" = "env"
         /\ snd (sample_parse_env_content content) = []
         /\ [("A", VStr "1")] = as_raw (fst (sample_parse_env_content content)))
        \/ (extension "variables.json" = "json"
            /\ content <> EmptyString
            /\ Sample.json_loads content = JsonValue (VDict [("A", VStr "1")]))
        \/ ((extension "variables.json" = "yaml"
             \/ extension "variables.json" = "yml")
            /\ content <> EmptyString
            /\ Sample.yaml_safe_load content
               = YamlValue (VDict [("A", VStr "1")]))).
Proof.
  apply (proj1 (parse_secret_file_returns Sample.fs Sample.COMMENT_PATTERN
                  Sample.json_loads Sample.yaml_safe_load "variables.json"
                  [("A", VStr "1")]
                  [EvExists "variables.json"; EvOpen "variables.json"])).
  by_computation.
Defined.

(** ** The further properties on the sample installation *)

(** The two pairs written to the file [v.env]. *)
Local Abbreviation sample_pairs :=
  [("A", "1"); ("URI", "sqlite://?a=b")].
Local Abbreviation sample_written :=
  (single_file "v.env" (render_dotenv sample_pairs)).

Lemma sample_pairs_ok : Forall (dotenv_pair_ok Sample.COMMENT_PATTERN) sample_pairs.
Proof.
  repeat constructor; unfold dotenv_pair_ok, no_equal_sign, has_no_linebreak;
    cbn; try discriminate; try reflexivity;
    try (intros H; repeat (destruct H as [H|H]; [discriminate H|]); exact H).
Qed.

Lemma sample_pairs_keys : NoDup (map fst sample_pairs).
Proof. decide_by_computation. Qed.

(** The values the dispatcher returns for the sample dotenv file. *)
Lemma dotenv_dispatched_values_witness :
  exists values,
    VList [VStr "1"; VStr "2"] = VList (map VStr values)
    /\ values <> [] /\ (EmptyString ∉ values) /\ no_equal_sign "A".
Proof.
  apply (dotenv_dispatched_values Sample.fs Sample.COMMENT_PATTERN
           Sample.json_loads Sample.yaml_safe_load "variables.env"
           [("A", VList [VStr "1"; VStr "2"])]
           [EvExists "variables.env"; EvOpen "variables.env"]).
  - by_computation.
  - reflexivity.
  - left.
Defined.

(** The variables of the written file are strings of its lines. *)
Lemma dotenv_variables_are_lines_witness :
  exists content,
    sample_written "v.env" = Some (RegularFile content)
    /\ NoDup (dict_keys [("A", VStr "1"); ("URI", VStr "sqlite://?a=b")])
    /\ forall key v,
        (key, v) ∈ [("A", VStr "1"); ("URI", VStr "sqlite://?a=b")] ->
        exists s, v = VStr s /\ s <> EmptyString
                  /\ (key ++ String "=" s) ∈ splitlines content.
Proof.
  apply (dotenv_variables_are_lines sample_written Sample.COMMENT_PATTERN
           Sample.json_loads Sample.yaml_safe_load "v.env"
           [("A", VStr "1"); ("URI", VStr "sqlite://?a=b")]
           [EvExists "v.env"; EvOpen "v.env"]).
  - by_computation.
  - reflexivity.
Defined.

(** Two values for one id: the loop fails with [ConnectionNotUnique]. *)
Lemma dotenv_connections_failures_witness :
  (exists key,
      key ∈ dict_keys [("A", ["1"; "2"])]
      /\ ConnectionNotUnique
           [Lit "Found multiple values for "; FStr "A"; Lit " in ";
            FStr "variables.env"; Lit "."]
         = ConnectionNotUnique
             [Lit "Found multiple values for "; FStr key; Lit " in ";
              FStr "variables.env"; Lit "."])
  \/ (exists key uri,
         (key, [uri]) ∈ [("A", ["1"; "2"])]
         /\ Sample.Connection [("conn_id", VStr key); ("uri", VStr uri)]
            = inl (ConnectionNotUnique
                     [Lit "Found multiple values for "; FStr "A"; Lit " in ";
                      FStr "variables.env"; Lit "."])).
Proof.
  apply (dotenv_connections_failures Sample.json_dumps Sample.Conn
           Sample.get_connection_parameter_names Sample.Connection
           "variables.env" [("A", ["1"; "2"])] []).
  reflexivity.
Defined.

(** The two pairs are read back as variables. *)
Lemma dotenv_variables_round_trip_witness :
  parse_env_content Sample.COMMENT_PATTERN (render_dotenv sample_pairs)
  = ([("A", ["1"]); ("URI", ["sqlite://?a=b"])], [])
  /\ run (load_variables sample_written Sample.COMMENT_PATTERN
            Sample.json_loads Sample.yaml_safe_load "v.env")
     = (inr [("A", VStr "1"); ("URI", VStr "sqlite://?a=b")],
        [EvExists "v.env"; EvOpen "v.env"]).
Proof.
  destruct (dotenv_variables_round_trip sample_written Sample.COMMENT_PATTERN
              Sample.json_loads Sample.yaml_safe_load sample_pairs
              sample_pairs_keys sample_pairs_ok) as [Hparse Hload].
  split; [exact Hparse|].
  apply (Hload "v.env"); reflexivity.
Defined.

(** The two pairs are read back as connections. *)
Lemma dotenv_connections_round_trip_witness :
  run (load_connections_dict sample_written Sample.COMMENT_PATTERN
         Sample.json_loads Sample.yaml_safe_load Sample.json_dumps
         Sample.Conn Sample.get_connection_parameter_names Sample.Connection
         "v.env")
  = (inr [("A", [("conn_id", VStr "A"); ("uri", VStr "1")]);
          ("URI", [("conn_id", VStr "URI"); ("uri", VStr "sqlite://?a=b")])],
     [EvExists "v.env"; EvOpen "v.env"]).
Proof.
  apply (dotenv_connections_round_trip sample_written Sample.COMMENT_PATTERN
           Sample.json_loads Sample.yaml_safe_load Sample.json_dumps
           Sample.Conn Sample.get_connection_parameter_names Sample.Connection
           sample_pairs _ sample_pairs_keys sample_pairs_ok).
  - repeat constructor.
  - reflexivity.
  - reflexivity.
Defined.

(** The empty list of the sample connections file gives no connection. *)
Lemma load_connections_dict_keys_witness :
  dict_keys ([] : list (string * Sample.Conn))
  = dict_keys (List.filter (fun entry => negb (is_empty_list (snd entry)))
                 [("a", VList [])])
  /\ NoDup (dict_keys ([] : list (string * Sample.Conn)))
  /\ [EvExists "connections.json"; EvOpen "connections.json"]
     = [EvExists "connections.json"; EvOpen "connections.json"].
Proof.
  apply (load_connections_dict_keys Sample.fs Sample.COMMENT_PATTERN
           Sample.json_loads Sample.yaml_safe_load Sample.json_dumps
           Sample.Conn Sample.get_connection_parameter_names Sample.Connection
           "connections.json" [("a", VList [])]).
  - by_computation.
  - decide_by_computation.
  - by_computation.
Defined.

(** An upper-case extension after a dotted directory name, and the
    extension of a path that ends in the Latin-1 capital A with grave
    (code point 192): the small letter (code point 224). *)
Lemma extension_after_last_dot_witness :
  extension "conf.d/notes.TXT" = "txt"
  /\ extension "TXT" = "txt"
  /\ run (_parse_secret_file (single_file "conf.d/notes.TXT" "remember")
            Sample.COMMENT_PATTERN Sample.json_loads Sample.yaml_safe_load
            "conf.d/notes.TXT")
     = (inl (AirflowException
               [Lit "Unsupported file format. The file must have one of the following extensions: .env .json .yaml .yml"]),
        [EvExists "conf.d/notes.TXT"])
  /\ extension ("x" ++ String "." (String (ascii_of_nat 192) EmptyString))
     = String (ascii_of_nat 224) EmptyString.
Proof.
  destruct (extension_after_last_dot
              (single_file "conf.d/notes.TXT" "remember")
              Sample.COMMENT_PATTERN Sample.json_loads Sample.yaml_safe_load
              "conf.d/notes" "TXT") as (Hdotted & Hplain & Hrun).
  - no_equal_sign_by_cases.
  - split; [exact Hdotted|]. split; [exact Hplain|]. split.
    + apply Hrun.
      * eexists. reflexivity.
      * decide_by_computation.
    + apply (extension_after_last_dot Sample.fs Sample.COMMENT_PATTERN
               Sample.json_loads Sample.yaml_safe_load "x"
               (String (ascii_of_nat 192) EmptyString)).
      no_equal_sign_by_cases.
Defined.

(** The dispatcher on the file [locked.json], which may not be read. *)
Lemma parse_secret_file_failures_witness :
  (Sample.fs "locked.json" = None
   /\ OtherError "PermissionError"
      = AirflowException
          [Lit "File "; FStr "locked.json";
           Lit " was not found. Check the configuration of your Secrets backend."]
   /\ [EvExists "locked.json"; EvOpen "locked.json"] = [EvExists "locked.json"])
  \/ (is_Some (Sample.fs "locked.json")
      /\ (extension "locked.json" ∉ ["env"; "json"; "yaml"; "yml"])
      /\ OtherError "PermissionError"
         = AirflowException
             [Lit "Unsupported file format. The file must have one of the following extensions: .env .json .yaml .yml"]
      /\ [EvExists "locked.json"; EvOpen "locked.json"]
         = [EvExists "locked.json"])
  \/ (extension "locked.json" ∈ ["env"; "json"; "yaml"; "yml"]
      /\ [EvExists "locked.json"; EvOpen "locked.json"]
         = [EvExists "locked.json"; EvOpen "locked.json"]
      /\ ((Sample.fs "locked.json" = Some Directory
           /\ OtherError "PermissionError" = OSError "locked.json")
          \/ Sample.fs "locked.json"
             = Some (Unreadable (OtherError "PermissionError"))
          \/ (exists content,
                 Sample.fs "locked.json" = Some (RegularFile content)
                 /\ ((extension "locked.json" = "json"
                      /\ parse_json_content Sample.json_loads content
                         = inl (OtherError "PermissionError")
                      /\ content <> EmptyString
                      /\ (Sample.json_loads content
                          = JsonRaises (OtherError "PermissionError")
                          \/ (OtherError "PermissionError" = Unrepresented
                              /\ exists v,
                                  Sample.json_loads content = JsonValue v
                                  /\ type_of v = TDict)))
                     \/ ((extension "locked.json" = "yaml"
                          \/ extension "locked.json" = "yml")
                         /\ parse_yaml_content Sample.yaml_safe_load content
                            = inl (OtherError "PermissionError")
                         /\ content <> EmptyString
                         /\ (Sample.yaml_safe_load content
                             = YamlRaises (OtherError "PermissionError")
                             \/ (OtherError "PermissionError" = Unrepresented
                                 /\ exists v,
                                     Sample.yaml_safe_load content
                                     = YamlValue v
                                     /\ type_of v = TDict)))))
          \/ (exists content errors,
                 Sample.fs "locked.json" = Some (RegularFile content)
                 /\ errors <> []
                 /\ OtherError "PermissionError"
                    = AirflowFileParseException
                        [Lit "Failed to load the secret file."]
                        "locked.json" errors
                 /\ ((extension "locked.json" = "env"
                      /\ errors = snd (sample_parse_env_content content))
                     \/ (extension "locked.json" = "json"
                         /\ exists secrets,
                             parse_json_content Sample.json_loads content
                             = inr (secrets, errors))
                     \/ ((extension "locked.json" = "yaml"
                          \/ extension "locked.json" = "yml")
                         /\ exists secrets,
                             parse_yaml_content Sample.yaml_safe_load content
                             = inr (secrets, errors)))))).
Proof.
  apply (parse_secret_file_failures Sample.fs Sample.COMMENT_PATTERN
           Sample.json_loads Sample.yaml_safe_load "locked.json").
  by_computation.
Defined.

(** [load_variables] on the sample dotenv file with two values for [A]. *)
Lemma load_variables_failures_witness :
  run (sample_parse_secret_file "variables.env")
  = (inl (AirflowException
            [Lit ("The " ++ dquote); FStr "variables.env";
             Lit (dquote ++ " file contains multiple values for keys: ");
             FStrList ["A"]]),
     [EvExists "variables.env"; EvOpen "variables.env"])
  \/ (exists secrets,
         run (sample_parse_secret_file "variables.env")
         = (inr secrets, [EvExists "variables.env"; EvOpen "variables.env"])
         /\ invalid_keys_of secrets <> []
         /\ AirflowException
              [Lit ("The " ++ dquote); FStr "variables.env";
               Lit (dquote ++ " file contains multiple values for keys: ");
               FStrList ["A"]]
            = AirflowException
                [Lit ("The " ++ dquote); FStr "variables.env";
                 Lit (dquote ++ " file contains multiple values for keys: ");
                 FStrList (invalid_keys_of secrets)]).
Proof.
  apply (load_variables_failures Sample.fs Sample.COMMENT_PATTERN
           Sample.json_loads Sample.yaml_safe_load "variables.env").
  by_computation.
Defined.

(** [load_connections_dict] on the YAML file that holds one mapping under
    the keys [a] and [b]: the failure is the builder's, at [b]. *)
Lemma load_connections_dict_failures_witness :
  run (sample_parse_secret_file "shared.yaml")
  = (inl (AirflowException
            [Lit "Mismatch conn_id. ";
             Lit "The dictionary key has the value: "; FValue (VStr "a");
             Lit ". The item has the value: "; FStr "b"; Lit "."]),
     [EvExists "shared.yaml"; EvOpen "shared.yaml"])
  \/ (exists secrets pre key v post acc w,
         run (sample_parse_secret_file "shared.yaml")
         = (inr secrets, [EvExists "shared.yaml"; EvOpen "shared.yaml"])
         /\ secrets = (pre ++ (key, v) :: post)%list
         /\ sample_connections_loop_from "shared.yaml" pre [] []
            = inr (acc, w)
         /\ ((exists values,
                 v = VList values /\ (1 < length values)%nat
                 /\ AirflowException
                      [Lit "Mismatch conn_id. ";
                       Lit "The dictionary key has the value: ";
                       FValue (VStr "a");
                       Lit ". The item has the value: "; FStr "b"; Lit "."]
                    = ConnectionNotUnique
                        [Lit "Found multiple values for "; FStr key;
                         Lit " in "; FStr "shared.yaml"; Lit "."])
             \/ (is_empty_list v = false
                 /\ (forall values,
                        v = VList values -> length values = 1%nat)
                 /\ sample_create_connection key
                      (current w (unwrap_singleton v))
                    = inl (AirflowException
                             [Lit "Mismatch conn_id. ";
                              Lit "The dictionary key has the value: ";
                              FValue (VStr "a");
                              Lit ". The item has the value: "; FStr "b";
                              Lit "."])))).
Proof.
  apply (load_connections_dict_failures Sample.fs Sample.COMMENT_PATTERN
           Sample.json_loads Sample.yaml_safe_load Sample.json_dumps
           Sample.Conn Sample.get_connection_parameter_names Sample.Connection
           "shared.yaml").
  by_computation.
Defined.

(** The JSON parser on the sample object, and the YAML parser on a
    sequence. *)
Lemma json_yaml_all_or_nothing_witness :
  ((length ([] : list FileSyntaxError) <= 1)%nat
   /\ (([] : list FileSyntaxError) <> [] -> [("A", VStr "1")] = [])
   /\ (([] : list FileSyntaxError) = [] ->
       json_A1 <> EmptyString
       /\ Sample.json_loads json_A1 = JsonValue (VDict [("A", VStr "1")])))
  /\ ((length [mkFileSyntaxError 1 "The file should contain the object."]
       <= 1)%nat
      /\ ([mkFileSyntaxError 1 "The file should contain the object."] <> [] ->
          ([] : list (string * value)) = [])
      /\ ([mkFileSyntaxError 1 "The file should contain the object."] = [] ->
          "- 1" <> EmptyString
          /\ Sample.yaml_safe_load "- 1" = YamlValue (VDict []))).
Proof.
  split.
  - apply (proj1 (json_yaml_all_or_nothing Sample.json_loads
                    Sample.yaml_safe_load json_A1)).
    reflexivity.
  - apply (proj2 (json_yaml_all_or_nothing Sample.json_loads
                    Sample.yaml_safe_load "- 1")).
    reflexivity.
Defined.

(** The keyword arguments made of an object with [extra_dejson]. *)
Lemma create_connection_outcomes_witness :
  (exists text,
      Sample.json_dumps (VDict [("k", VStr "v")]) = inr text
      /\ dict_get "extra"
           [("conn_type", VStr "http");
            ("extra",
             VStr ("{" ++ dquote ++ "k" ++ dquote ++ ": " ++ dquote ++ "v"
                   ++ dquote ++ "}"));
            ("conn_id", VStr "api")]
         = Some (VStr text))
  /\ (forall k,
         k <> "conn_id" -> k <> "extra" -> k <> "extra_dejson" ->
         dict_get k
           [("conn_type", VStr "http");
            ("extra",
             VStr ("{" ++ dquote ++ "k" ++ dquote ++ ": " ++ dquote ++ "v"
                   ++ dquote ++ "}"));
            ("conn_id", VStr "api")]
         = dict_get k
             [("conn_type", VStr "http");
              ("extra_dejson", VDict [("k", VStr "v")])])
  /\ (forall k,
         k ∈ dict_keys
               [("conn_type", VStr "http");
                ("extra",
                 VStr ("{" ++ dquote ++ "k" ++ dquote ++ ": " ++ dquote ++ "v"
                       ++ dquote ++ "}"));
                ("conn_id", VStr "api")] ->
         k = "conn_id" \/ k = "extra"
         \/ k ∈ Sample.get_connection_parameter_names).
Proof.
  destruct (proj2 (create_connection_outcomes Sample.json_dumps Sample.Conn
                     Sample.get_connection_parameter_names Sample.Connection
                     "api")
              [("conn_type", VStr "http");
               ("extra_dejson", VDict [("k", VStr "v")])]
              [("conn_type", VStr "http");
               ("extra",
                VStr ("{" ++ dquote ++ "k" ++ dquote ++ ": " ++ dquote ++ "v"
                      ++ dquote ++ "}"));
               ("conn_id", VStr "api")]
              eq_refl)
    as (Hextra & Hother & Hkeys).
  split; [exact Hextra|]. split; [exact Hother|].
  apply Hkeys. decide_by_computation.
Defined.

(** ** Further examples *)

Example splitlines_boundaries :
  splitlines ("a" ++ String CR (String LF "b") ++ String LF EmptyString
              ++ String LF "c" ++ String LF EmptyString)
  = ["a"; "b"; EmptyString; "c"].
Proof. reflexivity. Qed.

Example partition_first_equal_sign :
  partition "=" "URI=sqlite://?a=b" = ("URI", "=", "sqlite://?a=b").
Proof. reflexivity. Qed.

(** A line of spaces is not empty and is no comment: it is reported as a
    line without equal sign. *)
Example whitespace_line_reported :
  sample_parse_env_content "   "
  = ([], [mkFileSyntaxError 1 msg_no_equal_sign]).
Proof. by_computation. Qed.

(** A comment may start after white space, and an equal sign inside it does
    not count. *)
Example indented_comment_skipped :
  sample_parse_env_content "  # A=1" = ([], []).
Proof. by_computation. Qed.

(** The builder has written [conn_id] into the mapping that the file
    [shared.yaml] holds under [a] and under [b] when the loop reaches [b]. *)
Example shared_mapping_is_written :
  sample_connections_loop_from "shared.yaml"
    [("a", VShared 0 [("conn_type", VStr "sqlite")])] [] []
  = inr ([("a", [("conn_type", VStr "sqlite"); ("conn_id", VStr "a")])],
         [(0%nat, [("conn_type", VStr "sqlite"); ("conn_id", VStr "a")])])
  /\ current [(0%nat, [("conn_type", VStr "sqlite"); ("conn_id", VStr "a")])]
       (VShared 0 [("conn_type", VStr "sqlite")])
     = VShared 0 [("conn_type", VStr "sqlite"); ("conn_id", VStr "a")].
Proof. split; by_computation. Qed.

(** Two mappings with the same entries at two places of a JSON file are two
    objects: both build. *)
Example equal_mappings_both_build :
  sample_connections_loop "c.json"
    [("a", VDict [("conn_type", VStr "sqlite")]);
     ("b", VDict [("conn_type", VStr "sqlite")])] []
  = inr [("a", [("conn_type", VStr "sqlite"); ("conn_id", VStr "a")]);
         ("b", [("conn_type", VStr "sqlite"); ("conn_id", VStr "b")])].
Proof. by_computation. Qed.

(** A YAML document whose top-level mapping has the key 1 is where the
    development stops: the code returns that mapping. *)
Example top_level_key_not_a_string :
  parse_yaml_content Sample.yaml_safe_load "1: x" = inl Unrepresented.
Proof. by_computation. Qed.

(** A file of bytes that are no text: [read] raises, whatever the
    extension. *)
Example bytes_are_not_read :
  run (sample_load_variables "binary.env")
  = (inl UnicodeDecodeError, [EvExists "binary.env"; EvOpen "binary.env"]).
Proof. by_computation. Qed.

(** A directory whose name ends in [.json] exists, so the dispatcher calls
    the JSON parser, and [open] raises. *)
Example directory_is_not_read :
  run (sample_load_variables "backup.json")
  = (inl (OSError "backup.json"),
     [EvExists "backup.json"; EvOpen "backup.json"]).
Proof. by_computation. Qed.

(** A connection found by [get_connection] costs two resolutions of the
    file. *)
Example get_connection_resolves_twice :
  run (get_connection Sample.fs Sample.COMMENT_PATTERN Sample.json_loads
         Sample.yaml_safe_load Sample.json_dumps Sample.Conn
         Sample.get_connection_parameter_names Sample.Connection
         (mkBackend None (Some "variables.json")) "A")
  = (inr (Some [("conn_id", VStr "A"); ("uri", VStr "1")]),
     [EvExists "variables.json"; EvOpen "variables.json";
      EvExists "variables.json"; EvOpen "variables.json"]).
Proof. by_computation. Qed.
